(** * nhl: the game and team classes of the NHL statistics client

    A shallow embedding of [nhl/game.py] (class [Game]) and [nhl/team.py]
    (class [Team]).

    - The feed returned by [nhl.api] is a JSON document whose objects are used
      as structs with fixed string keys.  Each object is a record of optional
      fields: [None] is a missing key, and subscripting it raises [KeyError]
      as [d[k]] does in Python.  Fields carry the type the feed gives them:
      strings for codes, names and clock values, integers for ids, goal totals,
      periods and rink coordinates, booleans for flags.
    - Objects that the code iterates ([teamSkaterStats], [coordinates]) are
      association lists in insertion order, as a Python dict iterates; their
      keys are distinct, as in any dict.
    - Python exceptions are values of [exn]; a computation that may raise has
      type [res A].  Methods take the instance and return the instance next to
      their result.
    - A pandas [DataFrame] is its column labels and the rows it was built
      from: a cell is the Python value the loop put in the row.  Index labels
      are not represented, and neither is the column type pandas infers when
      it stores the rows (a column that mixes ints and [None] is held as
      floats, with [None] shown as NaN).
    - A numpy array is the list of its elements, and unary minus on it is
      computed in the arithmetic of the element type numpy gives the array:
      it wraps around for the fixed-width integer types. *)

From Stdlib Require Import ZArith String Ascii DecimalString Bool List Lia.
Import ListNotations.
Open Scope string_scope.
Open Scope list_scope.
Open Scope Z_scope.

(** ** Exceptions *)

Inductive exn : Type :=
| KeyError | IndexError | TypeError | ValueError | AttributeError
| RequestError.   (* whatever the HTTP layer of nhl.api may raise *)

Inductive res (A : Type) : Type :=
| Ok (a : A)
| Raise (e : exn).
Arguments Ok {A} a.
Arguments Raise {A} e.

Definition bind {A B} (m : res A) (k : A -> res B) : res B :=
  match m with
  | Ok a => k a
  | Raise e => Raise e
  end.

Notation "x <- m ;; k" := (bind m (fun x => k))
  (at level 61, m at next level, right associativity).
Notation "' p <- m ;; k" := (bind m (fun x => let p := x in k))
  (at level 61, p pattern, m at next level, right associativity).

Definition exn_eqb (a b : exn) : bool :=
  match a, b with
  | KeyError, KeyError | IndexError, IndexError | TypeError, TypeError
  | ValueError, ValueError | AttributeError, AttributeError
  | RequestError, RequestError => true
  | _, _ => false
  end.

(** [try: m  except E: h] *)
Definition try_except {A} (m : res A) (E : exn) (h : res A) : res A :=
  match m with
  | Ok a => Ok a
  | Raise e => if exn_eqb e E then h else Raise e
  end.

Definition raises {A} (m : res A) : bool :=
  match m with Ok _ => false | Raise _ => true end.

(** ** The Python operations the two classes use *)

(** [d[k]] on an object of the feed: a missing key raises [KeyError]. *)
Definition key {A} (field : option A) : res A :=
  match field with
  | Some v => Ok v
  | None => Raise KeyError
  end.

(** [d[k]] on a dict that is iterated, kept as an association list. *)
Fixpoint dict_get {V} (d : list (string * V)) (k : string) : res V :=
  match d with
  | [] => Raise KeyError
  | (k', v) :: d' => if String.eqb k' k then Ok v else dict_get d' k
  end.

Definition keys {V} (d : list (string * V)) : list string := map fst d.
Definition values {V} (d : list (string * V)) : list V := map snd d.

(** [l[i]] on a list, with Python's negative indices. *)
Definition list_getitem {A} (l : list A) (i : Z) : res A :=
  let n := Z.of_nat (length l) in
  let j := if i <? 0 then i + n else i in
  if (j <? 0) || (n <=? j) then Raise IndexError
  else match nth_error l (Z.to_nat j) with
       | Some a => Ok a
       | None => Raise IndexError
       end.

(** [x in [..]] and [x in {..}] for a string [x]. *)
Definition str_in (x : string) (l : list string) : bool :=
  existsb (String.eqb x) l.

(** [str.lower()], on characters with code points below 256. *)
Definition lower_char (c : ascii) : ascii :=
  let n := nat_of_ascii c in
  if ((65 <=? n) && (n <=? 90))%nat then ascii_of_nat (n + 32)
  else if ((192 <=? n) && (n <=? 222) && negb (n =? 215))%nat
       then ascii_of_nat (n + 32)
  else c.

Fixpoint lower (s : string) : string :=
  match s with
  | EmptyString => EmptyString
  | String c s' => String (lower_char c) (lower s')
  end.

(** [s.split(sep)[0]]: the part of [s] before the first [sep]. *)
Fixpoint split_head (sep : ascii) (s : string) : string :=
  match s with
  | EmptyString => EmptyString
  | String c s' => if Ascii.eqb c sep then EmptyString
                   else String c (split_head sep s')
  end.

(** [s[:n]] *)
Definition slice_to (n : nat) (s : string) : string := substring 0 n s.

(** [sub in s] for strings. *)
Fixpoint is_substring (sub s : string) : bool :=
  if String.prefix sub s then true
  else match s with
       | EmptyString => false
       | String _ s' => is_substring sub s'
       end.

(** [str(n)] for an int. *)
Definition str (n : Z) : string := NilZero.string_of_int (Z.to_int n).

(** ** Cells of a table, numpy arrays, DataFrames *)

Inductive cell : Type :=
| CNone                    (* None *)
| CNaN                     (* np.nan *)
| CBool (b : bool)
| CInt (n : Z)
| CStr (s : string)
| CArr (a : list Z).       (* a one-dimensional np.array, by its elements *)

Definition opt_str (o : option string) : cell :=
  match o with Some s => CStr s | None => CNone end.
Definition opt_int (o : option Z) : cell :=
  match o with Some n => CInt n | None => CNone end.
Definition opt_bool (o : option bool) : cell :=
  match o with Some b => CBool b | None => CNone end.

(** The value bound to [coords] in [shotData]: [None] or an array. *)
Definition opt_arr (o : option (list Z)) : cell :=
  match o with Some a => CArr a | None => CNone end.

(** The element type of [np.array(l)] for a list of Python ints, numpy's
    default integer type being [int64]: [int64] when every value fits it,
    [uint64] when every value is above the [int64] range and fits,
    [float64] when the list mixes values of the two kinds and when it is
    empty, [object] when a value fits neither.  The elements are kept as the
    integers the array was built from; in a [float64] array each one stands
    for the double nearest to it. *)
Inductive dtype : Type := int64 | uint64 | float64 | object.

Definition in_int64 (x : Z) : bool := (- 2 ^ 63 <=? x) && (x <? 2 ^ 63).
Definition in_uint64 (x : Z) : bool := (0 <=? x) && (x <? 2 ^ 64).

Definition result_type (a : list Z) : dtype :=
  match a with
  | [] => float64
  | _ :: _ =>
      if forallb in_int64 a then int64
      else if forallb (fun x => in_int64 x || in_uint64 x) a
           then if existsb in_int64 a then float64 else uint64
      else object
  end.

(** [-x] on one element of an array of type [t]: two's complement for
    [int64], modulo [2 ^ 64] for [uint64], exact otherwise. *)
Definition negative (t : dtype) (x : Z) : Z :=
  match t with
  | int64 => (- x + 2 ^ 63) mod 2 ^ 64 - 2 ^ 63
  | uint64 => (- x) mod 2 ^ 64
  | float64 | object => - x
  end.

(** Unary minus, [-coords]: elementwise on an array, [TypeError] on [None]. *)
Definition neg (coords : option (list Z)) : res (option (list Z)) :=
  match coords with
  | Some a => Ok (Some (map (negative (result_type a)) a))
  | None => Raise TypeError
  end.

Record DataFrame : Type := mkDataFrame {
  columns : list string;
  rows : list (list cell)
}.

(** [pd.DataFrame(data, columns=cols)] for a list of rows.  Every row the
    two classes build for one table has the same length, so the only failure
    is a row length that differs from the number of column labels.  The
    table keeps the rows as they are passed. *)
Definition pd_DataFrame (data : list (list cell)) (cols : list string)
  : res DataFrame :=
  if forallb (fun r => Nat.eqb (length r) (length cols)) data
  then Ok (mkDataFrame cols data)
  else Raise ValueError.

Fixpoint col_index (name : string) (cols : list string) : option nat :=
  match cols with
  | [] => None
  | c :: cs => if String.eqb c name then Some O
               else option_map S (col_index name cs)
  end.

(** The cell of one row under a column label. *)
Definition row_get (cols : list string) (row : list cell) (name : string)
  : option cell :=
  match col_index name cols with
  | Some i => nth_error row i
  | None => None
  end.

(** [df.loc[r, name]] for the [r]-th row. *)
Definition df_get (df : DataFrame) (r : nat) (name : string) : option cell :=
  match nth_error (rows df) r with
  | Some row => row_get (columns df) row name
  | None => None
  end.

(** [df[df.event == ev].copy()] *)
Definition cell_is_str (c : cell) (s : string) : bool :=
  match c with CStr s' => String.eqb s' s | _ => false end.

Definition filter_event (df : DataFrame) (ev : string) : DataFrame :=
  mkDataFrame (columns df)
    (filter (fun row => match row_get (columns df) row "event" with
                        | Some c => cell_is_str c ev
                        | None => false
                        end) (rows df)).

(** [pd.concat(frames)] for frames that share their columns. *)
Definition pd_concat (frames : list DataFrame) : DataFrame :=
  mkDataFrame (match frames with f :: _ => columns f | [] => [] end)
              (concat (map rows frames)).

(** [df.drop(names, axis=1)] for labels that are columns of [df]. *)
Fixpoint drop_mask {A} (cols : list string) (names : list string)
  (row : list A) : list A :=
  match cols, row with
  | c :: cs, x :: xs => if str_in c names then drop_mask cs names xs
                        else x :: drop_mask cs names xs
  | _, _ => []
  end.

Definition df_drop (df : DataFrame) (names : list string) : DataFrame :=
  mkDataFrame (drop_mask (columns df) names (columns df))
              (map (drop_mask (columns df) names) (rows df)).

(** [df.rename(columns=mapping)] *)
Definition rename_label (mapping : list (string * string)) (c : string)
  : string :=
  match dict_get mapping c with Ok c' => c' | Raise _ => c end.

Definition df_rename_columns (df : DataFrame)
  (mapping : list (string * string)) : DataFrame :=
  mkDataFrame (map (rename_label mapping) (columns df)) (rows df).

(** ** The live feed

    One record per JSON object of the feed; a projection [obj_key] is the key
    [key] of the object [obj]. *)

Record person : Type := mkPerson {
  person_fullName : option string;
  person_id : option Z
}.

Record participant : Type := mkParticipant {
  participant_playerType : option string;
  participant_player : option person
}.

Record strength_t : Type := mkStrength {
  strength_name : option string
}.

Record result_t : Type := mkResult {
  result_event : option string;
  result_eventTypeId : option string;
  result_description : option string;
  result_secondaryType : option string;
  result_emptyNet : option bool;
  result_gameWinningGoal : option bool;
  result_strength : option strength_t
}.

Record score : Type := mkScore {
  score_home : option Z;
  score_away : option Z
}.

Record about_t : Type := mkAbout {
  about_period : option Z;
  about_periodTime : option string;
  about_periodTimeRemaining : option string;
  about_dateTime : option string;
  about_goals : option score
}.

Record team_ref : Type := mkTeamRef {
  team_triCode : option string;
  team_id : option Z
}.

Record play_t : Type := mkPlay {
  play_result : option result_t;
  play_about : option about_t;
  play_coordinates : option (list (string * Z));
  play_team : option team_ref;
  play_players : option (list participant)
}.

Record team_stats : Type := mkTeamStats {
  teamStats_teamSkaterStats : option (list (string * cell))
}.

Record box_team : Type := mkBoxTeam {
  box_team_ref : option team_ref;            (* 'team' *)
  box_teamStats : option team_stats
}.

Record box_teams : Type := mkBoxTeams {
  box_home : option box_team;
  box_away : option box_team
}.

Record boxscore_t : Type := mkBoxscore {
  boxscore_teams : option box_teams
}.

Record line_team : Type := mkLineTeam {
  line_goals : option Z
}.

Record line_teams : Type := mkLineTeams {
  line_home : option line_team;
  line_away : option line_team
}.

Record linescore_t : Type := mkLinescore {
  linescore_teams : option line_teams
}.

Record plays_t : Type := mkPlays {
  plays_currentPlay : option play_t;
  plays_allPlays : option (list play_t)
}.

Record feed : Type := mkFeed {
  feed_boxscore : option boxscore_t;
  feed_linescore : option linescore_t;
  feed_plays : option plays_t
}.

(** ** class Game *)

(** The attributes of an instance.  The four category tables are attributes
    only once [makeDataFrames] has set them. *)
Record Game : Type := mkGame {
  _base_url : string;
  game_id : option string;
  live_data : feed;
  home : string;
  away : string;
  home_id : Z;
  away_id : Z;
  home_goals : Z;
  away_goals : Z;
  final : bool;
  winner : option string;
  date : string;
  agg_stats : DataFrame;
  _shotData : option DataFrame;
  _DataFrame : option DataFrame;
  shot_data : option DataFrame;
  penalty_data : option DataFrame;
  turnover_data : option DataFrame;
  hit_data : option DataFrame
}.

Definition set_live_data (self : Game) (d : feed) : Game :=
  mkGame (_base_url self) (game_id self) d (home self) (away self)
         (home_id self) (away_id self) (home_goals self) (away_goals self)
         (final self) (winner self) (date self) (agg_stats self)
         (_shotData self) (_DataFrame self) (shot_data self)
         (penalty_data self) (turnover_data self) (hit_data self).

Definition set_tables (self : Game) (all shots pens turns hits : DataFrame)
  : Game :=
  mkGame (_base_url self) (game_id self) (live_data self) (home self)
         (away self) (home_id self) (away_id self) (home_goals self)
         (away_goals self) (final self) (winner self) (date self)
         (agg_stats self) (_shotData self) (Some all) (Some shots)
         (Some pens) (Some turns) (Some hits).

(** The [game_id] argument: an int or a string. *)
Inductive id_arg : Type :=
| IdInt (n : Z)
| IdStr (s : string).

Definition str_of_id (a : id_arg) : string :=
  match a with IdInt n => str n | IdStr s => s end.

(** [self.winner == code] *)
Definition winner_is (w : option string) (code : string) : bool :=
  match w with Some c => String.eqb c code | None => false end.

Definition agg_cols : list string :=
  ["date"; "team"; "team_id"; "opponent"; "home"; "win";
   "goals_for"; "goals_against"; "penalty_minutes_for";
   "penalty_minutes_against"; "shots_for"; "shots_against";
   "PPP_for"; "PPP_against"; "PPG_for"; "PPG_against";
   "PPO_for"; "PPO_against"; "faceoff_win_percentage_for";
   "faceoff_win_percentage_against"; "blocked_shots_for";
   "blocked_shots_against"; "takeaways_for"; "takeaways_against";
   "giveaways_for"; "giveaways_against"; "hits_for"; "hits_against"].

(** [live_data['boxscore']['teams']] *)
Definition boxscore_teams_of (d : feed) : res box_teams :=
  b <- key (feed_boxscore d) ;;
  key (boxscore_teams b).

(** [_stats[side]['teamStats']['teamSkaterStats']] *)
Definition skater_stats (_stats : box_teams)
  (side : box_teams -> option box_team) : res (list (string * cell)) :=
  t <- key (side _stats) ;;
  ts <- key (box_teamStats t) ;;
  key (teamStats_teamSkaterStats ts).

(** The body of the loop over the home team's statistics: four appends. *)
Fixpoint stats_loop (_stats : box_teams) (stats : list string)
  (_home _away : list cell) : res (list cell * list cell) :=
  match stats with
  | [] => Ok (_home, _away)
  | stat :: rest =>
      hf <- (d <- skater_stats _stats box_home ;; dict_get d stat) ;;
      let _home := _home ++ [hf] in
      ha <- (d <- skater_stats _stats box_away ;; dict_get d stat) ;;
      let _home := _home ++ [ha] in
      af <- (d <- skater_stats _stats box_away ;; dict_get d stat) ;;
      let _away := _away ++ [af] in
      aa <- (d <- skater_stats _stats box_home ;; dict_get d stat) ;;
      let _away := _away ++ [aa] in
      stats_loop _stats rest _home _away
  end.

(** The [if]/[elif]/[else] that sets [self.winner] from the attributes set
    before it. *)
Definition set_winner (final : bool) (home away : string)
  (home_goals away_goals : Z) : option string :=
  if negb final then None
  else if home_goals >? away_goals then Some home
  else Some away.

Section Api.

(** [nhl.api], the HTTP client, is outside the two classes. *)
Variable api_getLiveData : option string -> string -> res feed.

(** [Game.__init__] *)
Definition Game_init (game_id : option id_arg) : res Game :=
  let _base_url := "https://statsapi.web.nhl.com/api/v1" in
  let game_id := option_map str_of_id game_id in
  live_data <- api_getLiveData game_id _base_url ;;
  teams <- boxscore_teams_of live_data ;;
  temp_home <- key (box_home teams) ;;
  temp_away <- key (box_away teams) ;;
  home <- (t <- key (box_team_ref temp_home) ;; key (team_triCode t)) ;;
  away <- (t <- key (box_team_ref temp_away) ;; key (team_triCode t)) ;;
  home_id <- (t <- key (box_team_ref temp_home) ;; key (team_id t)) ;;
  away_id <- (t <- key (box_team_ref temp_away) ;; key (team_id t)) ;;
  home_goals <- (l <- key (feed_linescore live_data) ;;
                 t <- key (linescore_teams l) ;;
                 h <- key (line_home t) ;; key (line_goals h)) ;;
  away_goals <- (l <- key (feed_linescore live_data) ;;
                 t <- key (linescore_teams l) ;;
                 h <- key (line_home t) ;; key (line_goals h)) ;;
  temp_cur <- (p <- key (feed_plays live_data) ;; key (plays_currentPlay p)) ;;
  let final := true in
  let winner := set_winner final home away home_goals away_goals in
  date <- (a <- key (play_about temp_cur) ;;
           dt <- key (about_dateTime a) ;; Ok (slice_to 10 dt)) ;;
  _stats <- boxscore_teams_of live_data ;;
  let _home := [CStr date; CStr home; CInt home_id; CStr away; CBool true;
                CBool (winner_is winner home)] in
  let _away := [CStr date; CStr away; CInt away_id; CStr home; CBool false;
                CBool (winner_is winner away)] in
  hstats <- skater_stats _stats box_home ;;
  '(_home, _away) <- stats_loop _stats (keys hstats) _home _away ;;
  agg_stats <- pd_DataFrame [_home; _away] agg_cols ;;
  Ok (mkGame _base_url game_id live_data home away home_id away_id
             home_goals away_goals final winner date agg_stats
             None None None None None None).

(** [Game.getLiveData] *)
Definition getLiveData (self : Game) : res feed * Game :=
  match api_getLiveData (game_id self) (_base_url self) with
  | Ok d => (Ok d, set_live_data self d)
  | Raise e => (Raise e, self)
  end.

End Api.

(** A [for] loop that appends at most one row per element and stops at the
    first exception. *)
Fixpoint collect {A B} (body : A -> res (option B)) (l : list A)
  : res (list B) :=
  match l with
  | [] => Ok []
  | x :: rest =>
      r <- body x ;;
      rs <- collect body rest ;;
      Ok (match r with Some b => b :: rs | None => rs end)
  end.

(** [self.live_data['plays']['allPlays']] *)
Definition allPlays (self : Game) : res (list play_t) :=
  p <- key (feed_plays (live_data self)) ;;
  key (plays_allPlays p).

(** [A or B] on two exception classes: a class is truthy, so the value is
    the first one. *)
Definition or_class (a b : exn) : exn := a.

(** *** shotData *)

Definition shot_cols : list string :=
  ["shooter"; "result"; "other"; "shotType"; "coords"; "period";
   "periodTime"; "shooterTeam"; "otherTeam"].

Definition shotIDs : list string :=
  ["SHOT"; "MISSED_SHOT"; "BLOCKED_SHOT"; "GOAL"].

(** The loop over [event['players']] of [shotData]. *)
Fixpoint shot_players (ps : list participant) (shooter other : option string)
  : res (option string * option string) :=
  match ps with
  | [] => Ok (shooter, other)
  | p :: rest =>
      pt <- key (participant_playerType p) ;;
      shooter <- (if str_in pt ["Shooter"; "Scorer"]
                  then (pl <- key (participant_player p) ;;
                        n <- key (person_fullName pl) ;; Ok (Some n))
                  else Ok shooter) ;;
      pt <- key (participant_playerType p) ;;
      other <- (if str_in pt ["Goalie"; "Blocker"]
                then (pl <- key (participant_player p) ;;
                      n <- key (person_fullName pl) ;; Ok (Some n))
                else Ok other) ;;
      shot_players rest shooter other
  end.

(** The body of the loop over the plays in [shotData]: the row appended for
    one event, or no row when the event is not a shot. *)
Definition shot_row (self : Game) (event : play_t)
  : res (option (list cell)) :=
  etid <- (r <- key (play_result event) ;; key (result_eventTypeId r)) ;;
  if str_in etid shotIDs then
    result <- (r <- key (play_result event) ;;
               e <- key (result_eventTypeId r) ;;
               Ok (lower (split_head "_"%char e))) ;;
    '(shooterTeam, otherTeam) <-
      (if String.eqb result "blocked" then
         otherTeam <- (t <- key (play_team event) ;; key (team_triCode t)) ;;
         let shooterTeam := if String.eqb (home self) otherTeam
                            then away self else home self in
         Ok (shooterTeam, otherTeam)
       else
         shooterTeam <- (t <- key (play_team event) ;;
                         key (team_triCode t)) ;;
         let otherTeam := if String.eqb (home self) shooterTeam
                          then away self else home self in
         Ok (shooterTeam, otherTeam)) ;;
    shotType <- try_except
                  (r <- key (play_result event) ;;
                   s <- key (result_secondaryType r) ;; Ok (Some s))
                  KeyError (Ok None) ;;
    coords <- try_except
                (c <- key (play_coordinates event) ;; Ok (Some (values c)))
                KeyError (Ok None) ;;
    period <- (a <- key (play_about event) ;; key (about_period a)) ;;
    periodTime <- (a <- key (play_about event) ;;
                   key (about_periodTime a)) ;;
    ps <- key (play_players event) ;;
    '(shooter, other) <- shot_players ps None None ;;
    coords <- (if period mod 2 =? 0
               then try_except (neg coords)
                               (or_class IndexError TypeError) (Ok coords)
               else Ok coords) ;;
    Ok (Some [opt_str shooter; CStr result; opt_str other; opt_str shotType;
              opt_arr coords; CInt period; CStr periodTime;
              CStr shooterTeam; CStr otherTeam])
  else Ok None.

(** The table [shotData] computes when it does not return a stored one. *)
Definition shot_table (self : Game) : res DataFrame :=
  plays <- allPlays self ;;
  _data <- collect (shot_row self) plays ;;
  pd_DataFrame _data shot_cols.

(** *** makeDataFrames *)

Definition event_cols : list string :=
  ["event"; "secondary_type"; "player_one"; "player_one_role";
   "player_two"; "player_two_role"; "coords"; "period";
   "period_time_remaining"; "player_one_team"; "player_two_team";
   "home_team"; "home_team_id"; "away_team"; "away_team_id";
   "home_goals"; "away_goals"; "game_winning"; "empty_net";
   "player_one_id"; "player_two_id"; "game_id"; "winning_team";
   "date"; "description"].

Definition weird_events : list string :=
  ["Unknown"; "Period Start"; "Period End"; "Game End"; "Game Scheduled";
   "Period Ready"; "Period Official"; "Early Intermission Start";
   "Early Intermission End"; "Game Official"; "Shootout Complete"].

Definition other_events : list string :=
  ["Stoppage"; "Sub"; "Fight"; "Emergency Goaltender"; "Official Challenge"].

(** Bound in [makeDataFrames] and read nowhere. *)
Definition game_events : list string :=
  ["Faceoff"; "Hit"; "Giveaway"; "Goal"; "Shot"; "Missed Shot"; "Penalty";
   "Takeaway"; "Blocked Shot"].

(** [if empty_net:] *)
Definition truthy (flag : option bool) : bool :=
  match flag with Some true => true | _ => false end.

(** The two participants of a row: name, id and role of each. *)
Record participants : Type := mkParticipants {
  player_one : option string;
  player_one_id : option Z;
  player_one_role : option string;
  player_two : option string;
  player_two_id : option Z;
  player_two_role : option string
}.

Definition no_participants : participants :=
  mkParticipants None None None None None None.

(** [play['players'][i]] *)
Definition players_at (play : play_t) (i : Z) : res participant :=
  ps <- key (play_players play) ;;
  list_getitem ps i.

(** The body of the [try] that reads the participants. *)
Definition read_participants (play : play_t) (empty_net : option bool)
  : res participants :=
  player_one <- (p <- players_at play 0 ;;
                 pl <- key (participant_player p) ;;
                 key (person_fullName pl)) ;;
  player_one_id <- (p <- players_at play 0 ;;
                    pl <- key (participant_player p) ;;
                    key (person_id pl)) ;;
  player_one_role <- (p <- players_at play 0 ;;
                      key (participant_playerType p)) ;;
  if truthy empty_net then
    Ok (mkParticipants (Some player_one) (Some player_one_id)
                       (Some player_one_role) None None None)
  else
    last_name <- (p <- players_at play (-1) ;;
                  pl <- key (participant_player p) ;;
                  key (person_fullName pl)) ;;
    if String.eqb last_name player_one then
      Ok (mkParticipants (Some player_one) (Some player_one_id)
                         (Some player_one_role) None None None)
    else
      _temp <- (p <- players_at play (-1) ;; key (participant_player p)) ;;
      player_two <- key (person_fullName _temp) ;;
      player_two_id <- key (person_id _temp) ;;
      player_two_role <- (p <- players_at play (-1) ;;
                          key (participant_playerType p)) ;;
      Ok (mkParticipants (Some player_one) (Some player_one_id)
                         (Some player_one_role) (Some player_two)
                         (Some player_two_id) (Some player_two_role)).

(** [play['result']['event']] *)
Definition event_type (play : play_t) : res string :=
  r <- key (play_result play) ;;
  key (result_event r).

(** The two flags read in one [try]. *)
Definition read_flags (play : play_t) : res (option bool * option bool) :=
  try_except
    (en <- (r <- key (play_result play) ;; key (result_emptyNet r)) ;;
     gw <- (r <- key (play_result play) ;; key (result_gameWinningGoal r)) ;;
     Ok (Some en, Some gw))
    KeyError (Ok (None, None)).

(** The body of the loop over the plays in [makeDataFrames]: the row
    appended for one play, or no row when the loop continues. *)
Definition event_row (self : Game) (play : play_t)
  : res (option (list cell)) :=
  ev <- event_type play ;;
  if str_in ev weird_events then Ok None
  else
  ev <- event_type play ;;
  if str_in ev other_events then Ok None
  else
    event <- (r <- key (play_result play) ;;
              e <- key (result_eventTypeId r) ;; Ok (lower e)) ;;
    description <- (r <- key (play_result play) ;;
                    key (result_description r)) ;;
    period <- (a <- key (play_about play) ;; key (about_period a)) ;;
    period_time_remaining <- (a <- key (play_about play) ;;
                              key (about_periodTimeRemaining a)) ;;
    _score <- (a <- key (play_about play) ;; key (about_goals a)) ;;
    home_goals <- key (score_home _score) ;;
    away_goals <- key (score_away _score) ;;
    coords <- try_except
                (c <- key (play_coordinates play) ;; Ok (CArr (values c)))
                KeyError (Ok CNaN) ;;
    '(empty_net, game_winning) <- read_flags play ;;
    strength <- try_except
                  (r <- key (play_result play) ;;
                   s <- key (result_strength r) ;;
                   n <- key (strength_name s) ;; Ok (Some (lower n)))
                  KeyError (Ok None) ;;
    secondary_type <- try_except
                        (r <- key (play_result play) ;;
                         s <- key (result_secondaryType r) ;; Ok (Some s))
                        KeyError (Ok None) ;;
    p <- try_except (read_participants play empty_net)
                    KeyError (Ok no_participants) ;;
    player_one_team <- (t <- key (play_team play) ;;
                        key (team_triCode t)) ;;
    let player_two_team := if String.eqb (home self) player_one_team
                           then away self else home self in
    Ok (Some
      [CStr event; opt_str secondary_type; opt_str (player_one p);
       opt_str (player_one_role p);
       opt_str (player_two p); opt_str (player_two_role p); coords;
       CInt period;
       CStr period_time_remaining; CStr player_one_team;
       CStr player_two_team;
       CStr (home self); CInt (home_id self); CStr (away self);
       CInt (away_id self);
       CInt home_goals; CInt away_goals; opt_bool game_winning;
       opt_bool empty_net;
       opt_int (player_one_id p); opt_int (player_two_id p);
       opt_str (game_id self); opt_str (winner self);
       CStr (date self); CStr description]).

(** The table bound to [self._DataFrame]. *)
Definition event_table (self : Game) : res DataFrame :=
  plays <- allPlays self ;;
  _data <- collect (event_row self) plays ;;
  pd_DataFrame _data event_cols.

(** The category tables filtered out of the event table. *)
Definition shot_frame (df : DataFrame) : DataFrame :=
  pd_concat (map (filter_event df)
                 ["shot"; "missed_shot"; "blocked_shot"; "goal"]).

Definition penalty_frame (relabel : bool) (df : DataFrame) : DataFrame :=
  let pen := df_drop (filter_event df "penalty")
                     ["empty_net"; "game_winning"] in
  if relabel then
    let col_relabel :=
      [("secondary_type", "penalty"); ("player_one", "penalty_on");
       ("player_two", "drew_by"); ("player_one_team", "penalty_team");
       ("player_two_team", "drew_by_team");
       ("player_one_id", "penalty_on_id");
       ("player_two_id", "drew_by_id")] in
    df_drop (df_rename_columns pen col_relabel)
            ["player_one_role"; "player_two_role"]
  else pen.

(** The last [rename] of the turnover table is given a mapping without
    [columns=], so it renames index labels, and no index label is a string:
    the table is unchanged by it. *)
Definition turnover_frame (df : DataFrame) : DataFrame :=
  df_drop (pd_concat (map (filter_event df) ["giveaway"; "takeaway"]))
          ["secondary_type"; "empty_net"; "game_winning";
           "player_one_role"; "player_two"; "player_two_role";
           "player_two_id"].

Definition hit_frame (relabel : bool) (df : DataFrame) : DataFrame :=
  let hit := df_drop (filter_event df "hit")
                     ["secondary_type"; "empty_net"; "game_winning"] in
  if relabel then
    let col_relabel :=
      [("player_one", "hitter"); ("player_two", "hittee");
       ("player_one_team", "hitter_team");
       ("player_two_team", "hittee_team");
       ("player_one_id", "hitter_id"); ("player_two_id", "hittee_id")] in
    df_drop (df_rename_columns hit col_relabel)
            ["player_one_role"; "player_two_role"]
  else hit.

Section Methods.

Variable api_getLiveData : option string -> string -> res feed.

(** [Game.shotData] *)
Definition shotData (updateLiveData : bool) (self : Game)
  : res DataFrame * Game :=
  match (if negb updateLiveData then _shotData self else None) with
  | Some stored => (Ok stored, self)
  | None =>
      let '(fetched, self) :=
        if updateLiveData then getLiveData api_getLiveData self
        else (Ok (live_data self), self) in
      match fetched with
      | Raise e => (Raise e, self)
      | Ok _ => (shot_table self, self)
      end
  end.

(** [Game.makeDataFrames]: the value returned is a table on the path that
    finds [self._DataFrame] set and [None] on the path that computes it. *)
Definition makeDataFrames (relabel updateLiveData : bool) (self : Game)
  : res (option DataFrame) * Game :=
  match (if negb updateLiveData then _DataFrame self else None) with
  | Some stored => (Ok (Some stored), self)
  | None =>
      let '(fetched, self) :=
        if updateLiveData then getLiveData api_getLiveData self
        else (Ok (live_data self), self) in
      match fetched with
      | Raise e => (Raise e, self)
      | Ok _ =>
          match event_table self with
          | Raise e => (Raise e, self)
          | Ok df =>
              (Ok None,
               set_tables self df (shot_frame df) (penalty_frame relabel df)
                          (turnover_frame df) (hit_frame relabel df))
          end
      end
  end.

End Methods.

(** ** class Team *)

Module Team.

Record position_t : Type := mkPosition {
  position_code : option string
}.

(** One entry of the roster the API returns. *)
Record roster_entry : Type := mkRosterEntry {
  entry_person : option person;
  entry_jerseyNumber : option string;
  entry_position : option position_t
}.

(** One entry of the reformatted roster: the one-key dict
    [{fullName: (id, jerseyNumber, code)}]. *)
Definition player_card : Type := (string * (Z * string * string))%type.

Record t : Type := mkTeam {
  _base_url : string;
  season : option string;
  team_id : string;
  roster : list player_card;
  offense : list player_card;
  defense : list player_card;
  goalies : list player_card
}.

Definition _team_map : list (string * Z) :=
  [("new jersey devils", 1);       ("njd", 1);
   ("new york islanders", 2);      ("nyi", 2);
   ("new york rangers", 3);        ("nyr", 3);
   ("philadelphia flyers", 4);     ("phi", 4);
   ("pittsburgh penguins", 5);     ("pit", 5);
   ("boston bruins", 6);           ("bos", 6);
   ("buffalo sabres", 7);          ("buf", 7);
   ("montreal canadiens", 8);      ("mtl", 8);
   ("ottawa senators", 9);         ("ott", 9);
   ("toronto maple leafs", 10);    ("tor", 10);
   ("carolina hurricanes", 12);    ("car", 12);
   ("florida panthers", 13);       ("fla", 13);
   ("tampa bay lightning", 14);    ("tbl", 14);
   ("washington capitals", 15);    ("wsh", 15);
   ("chicago blackhawks", 16);     ("chi", 16);
   ("detroit red wings", 17);      ("det", 17);
   ("nashville predators", 18);    ("nsh", 18);
   ("st. louis blues", 19);        ("stl", 19);
   ("calgary flames", 20);         ("cgy", 20);
   ("colorado avalanche", 21);     ("col", 21);
   ("edmonton oilers", 22);        ("edm", 22);
   ("vancouver canucks", 23);      ("van", 23);
   ("anaheim ducks", 24);          ("ana", 24);
   ("dallas stars", 25);           ("dal", 25);
   ("los angeles kings", 26);      ("lak", 26);
   ("san jose sharks", 28);        ("sjs", 28);
   ("columbus blue jackets", 29);  ("cbj", 29);
   ("minnesota wild", 30);         ("min", 30);
   ("winnipeg jets", 52);          ("wpg", 52);
   ("arizona coyotes", 53);        ("ari", 53);
   ("vegas golden knights", 54);   ("vgk", 54)].

(** The default of the [team_id] parameter. *)
Definition default_team_id : id_arg := IdStr "10".

(** The [if]/[elif] that converts the argument: the value of the attribute
    [self.team_id] afterwards, [None] when neither branch has assigned it. *)
Definition convert_team_id (team_id : id_arg) : res (option string) :=
  match team_id with
  | IdInt n => Ok (Some (str n))
  | IdStr s =>
      if (2 <? String.length s)%nat
      then (code <- dict_get _team_map (lower s) ;; Ok (Some (str code)))
      else Ok None
  end.

(** Reading [self.team_id]. *)
Definition getattr_team_id (attr : option string) : res string :=
  match attr with
  | Some v => Ok v
  | None => Raise AttributeError
  end.

(** One step of the comprehension that reformats the roster. *)
Definition card_of (p : roster_entry) : res player_card :=
  name <- (q <- key (entry_person p) ;; key (person_fullName q)) ;;
  pid <- (q <- key (entry_person p) ;; key (person_id q)) ;;
  number <- key (entry_jerseyNumber p) ;;
  code <- (q <- key (entry_position p) ;; key (position_code q)) ;;
  Ok (name, (pid, number, code)).

Fixpoint cards (l : list roster_entry) : res (list player_card) :=
  match l with
  | [] => Ok []
  | p :: rest => c <- card_of p ;; cs <- cards rest ;; Ok (c :: cs)
  end.

(** [list(player.values())[0][2]] *)
Definition code_of (player : player_card) : string := snd (snd player).

Section Api.

Variable api_getTeamRoster :
  string -> option string -> string -> res (list roster_entry).

(** [Team.__init__] *)
Definition __init__ (team_id : id_arg) (season : option string) : res t :=
  let _base_url := "https://statsapi.web.nhl.com/api/v1" in
  attr <- convert_team_id team_id ;;
  tid <- getattr_team_id attr ;;
  raw <- api_getTeamRoster tid season _base_url ;;
  roster <- cards raw ;;
  let offense := filter (fun player => is_substring (code_of player) "LCR")
                        roster in
  let defense := filter (fun player => String.eqb (code_of player) "D")
                        roster in
  let goalies := filter (fun player => String.eqb (code_of player) "G")
                        roster in
  Ok (mkTeam _base_url season tid roster offense defense goalies).

End Api.

End Team.

(** ** Paths into one play, as both methods subscript them *)

(** [play['result']['eventTypeId']] *)
Definition event_type_id (play : play_t) : res string :=
  r <- key (play_result play) ;;
  key (result_eventTypeId r).

(** [play['team']['triCode']] *)
Definition team_code (play : play_t) : res string :=
  t <- key (play_team play) ;;
  key (team_triCode t).

(** [play['about']['period']] *)
Definition period_of (play : play_t) : res Z :=
  a <- key (play_about play) ;;
  key (about_period a).

(** [live_data['linescore']['teams'][side]['goals']] *)
Definition line_total (d : feed) (side : line_teams -> option line_team)
  : res Z :=
  l <- key (feed_linescore d) ;;
  t <- key (linescore_teams l) ;;
  s <- key (side t) ;;
  key (line_goals s).

(** A play that passes both membership tests of [makeDataFrames]. *)
Definition retained (play : play_t) : bool :=
  match event_type play with
  | Ok ev => negb (str_in ev weird_events) && negb (str_in ev other_events)
  | Raise _ => false
  end.

(** A play whose type is in none of the three sets. *)
Definition unknown_type (play : play_t) : bool :=
  match event_type play with
  | Ok ev => negb (str_in ev weird_events) && negb (str_in ev other_events)
             && negb (str_in ev game_events)
  | Raise _ => false
  end.

(** A play whose type is in the set of game events. *)
Definition game_event (play : play_t) : bool :=
  match event_type play with
  | Ok ev => str_in ev game_events
  | Raise _ => false
  end.

(** The fields [makeDataFrames] reads outside any [try], the team apart. *)
Definition unguarded_fields (play : play_t) : bool :=
  match play_result play, play_about play with
  | Some r, Some a =>
      match result_eventTypeId r, result_description r, about_period a,
            about_periodTimeRemaining a, about_goals a with
      | Some _, Some _, Some _, Some _, Some s =>
          match score_home s, score_away s with
          | Some _, Some _ => true
          | _, _ => false
          end
      | _, _, _, _, _ => false
      end
  | _, _ => false
  end.

(** A participant entry with its name, id and role. *)
Definition complete (p : participant) : bool :=
  match participant_playerType p, participant_player p with
  | Some _, Some q =>
      match person_fullName q, person_id q with
      | Some _, Some _ => true
      | _, _ => false
      end
  | _, _ => false
  end.

Definition name_of (p : participant) : option string :=
  match participant_player p with
  | Some q => person_fullName q
  | None => None
  end.

Definition id_of (p : participant) : option Z :=
  match participant_player p with
  | Some q => person_id q
  | None => None
  end.

(** The statistics whose [_for] and [_against] columns [agg_cols] lists. *)
Definition tracked_stats : list string :=
  ["goals"; "penalty_minutes"; "shots"; "PPP"; "PPG"; "PPO";
   "faceoff_win_percentage"; "blocked_shots"; "takeaways"; "giveaways";
   "hits"].

(** ** What a row of the event table holds for a play *)

(** The [coords] cell: the array of the coordinate values, [np.nan] when the
    play has no [coordinates] key. *)
Definition coords_cell (play : play_t) : cell :=
  match play_coordinates play with
  | Some c => CArr (values c)
  | None => CNaN
  end.

(** [play['result']['secondaryType']] when both keys are there. *)
Definition secondary_of (play : play_t) : option string :=
  match play_result play with
  | Some r => result_secondaryType r
  | None => None
  end.

(** The [try] around the participants with its [except KeyError]. *)
Definition guarded_participants (play : play_t) (empty_net : option bool)
  : res participants :=
  try_except (read_participants play empty_net) KeyError (Ok no_participants).

(** A retained play that has every unguarded field and whose [players]
    list, when the key is there, is not empty. *)
Definition guarded_only (play : play_t) : bool :=
  unguarded_fields play && negb (raises (team_code play))
  && match play_players play with Some [] => false | _ => true end.

(** A play that is either skipped or has what [guarded_only] asks. *)
Definition safe_play (play : play_t) : bool :=
  match event_type play with
  | Ok _ => if retained play then guarded_only play else true
  | Raise _ => false
  end.

(** One of the two flags [emptyNet], [gameWinningGoal] is missing. *)
Definition flag_missing (play : play_t) : bool :=
  match play_result play with
  | Some r => match result_emptyNet r, result_gameWinningGoal r with
              | Some _, Some _ => false
              | _, _ => true
              end
  | None => true
  end.

(** The two flags of a row: those of the result when it has both, absent
    both when it lacks either. *)
Definition flags_of (play : play_t) : option bool * option bool :=
  match play_result play with
  | Some r =>
      match result_emptyNet r, result_gameWinningGoal r with
      | Some en, Some gw => (Some en, Some gw)
      | _, _ => (None, None)
      end
  | None => (None, None)
  end.

(** The participants of a row whose flag is [empty_net]: the first entry
    of the [players] list and, unless the flag is set or the last entry has
    the name of the first, the last entry; all six absent when the
    [players] key, or a key of an entry that is read, is missing. *)
Definition participants_of (play : play_t) (empty_net : option bool)
  : participants :=
  match play_players play with
  | Some (first :: rest) =>
      let final := last rest first in
      match name_of first, id_of first, participant_playerType first with
      | Some n1, Some i1, Some r1 =>
          let alone :=
            mkParticipants (Some n1) (Some i1) (Some r1) None None None in
          if truthy empty_net then alone
          else match name_of final with
               | Some n2 =>
                   if String.eqb n2 n1 then alone
                   else match id_of final, participant_playerType final with
                        | Some i2, Some r2 =>
                            mkParticipants (Some n1) (Some i1) (Some r1)
                                           (Some n2) (Some i2) (Some r2)
                        | _, _ => no_participants
                        end
               | None => no_participants
               end
      | _, _, _ => no_participants
      end
  | _ => no_participants
  end.

(** The row of a retained play, cell by cell: the fields read outside any
    [try] as the feed has them, the attributes of the instance, and each
    guarded field as it is in the feed or absent in its own cells. *)
Definition row_for (self : Game) (play : play_t) (row : list cell) : Prop :=
  exists r a s etid desc per ptr hg ag c,
    play_result play = Some r /\ result_eventTypeId r = Some etid /\
    result_description r = Some desc /\
    play_about play = Some a /\ about_period a = Some per /\
    about_periodTimeRemaining a = Some ptr /\ about_goals a = Some s /\
    score_home s = Some hg /\ score_away s = Some ag /\
    team_code play = Ok c /\
    row =
      (let flags := flags_of play in
       let p := participants_of play (fst flags) in
       [CStr (lower etid); opt_str (secondary_of play);
        opt_str (player_one p); opt_str (player_one_role p);
        opt_str (player_two p); opt_str (player_two_role p);
        coords_cell play; CInt per; CStr ptr; CStr c;
        CStr (if String.eqb (home self) c then away self else home self);
        CStr (home self); CInt (home_id self); CStr (away self);
        CInt (away_id self);
        CInt hg; CInt ag; opt_bool (snd flags); opt_bool (fst flags);
        opt_int (player_one_id p); opt_int (player_two_id p);
        opt_str (game_id self); opt_str (winner self);
        CStr (date self); CStr desc]).


(** [[x1; y1; x2; y2; ...]]: the cells the loop over the statistics appends
    to one row of the boxscore table. *)
Fixpoint interleave {A} (xs ys : list A) : list A :=
  match xs, ys with
  | x :: xs', y :: ys' => x :: y :: interleave xs' ys'
  | _, _ => []
  end.

(** ** Sample documents *)

Module Sample.

Definition skater_stats_of (goals shots : Z) : list (string * cell) :=
  [("goals", CInt goals); ("pim", CInt (2 * shots));
   ("shots", CInt shots); ("powerPlayPercentage", CStr "25.0");
   ("powerPlayGoals", CInt 1); ("powerPlayOpportunities", CInt (shots - 20));
   ("faceOffWinPercentage", CStr "52.5"); ("blocked", CInt (shots + 1));
   ("takeaways", CInt (shots + 2)); ("giveaways", CInt (shots + 3));
   ("hits", CInt (shots + 4))].

Definition side (code : string) (n : Z) (stats : list (string * cell))
  : box_team :=
  mkBoxTeam (Some (mkTeamRef (Some code) (Some n)))
            (Some (mkTeamStats (Some stats))).

(** The play under [currentPlay]: only its date is read. *)
Definition last_play : play_t :=
  mkPlay None
         (Some (mkAbout None None None (Some "2019-01-19T20:07:31Z") None))
         None None None.

(** A feed of a game of [hcode] at home against [acode], with the goal
    totals [hg] and [ag] in the linescore. *)
Definition game_feed (hcode acode : string) (hg ag : Z)
  (plays : list play_t) : feed :=
  mkFeed
    (Some (mkBoxscore (Some (mkBoxTeams
       (Some (side hcode 6 (skater_stats_of hg 31)))
       (Some (side acode 3 (skater_stats_of ag 27)))))))
    (Some (mkLinescore (Some (mkLineTeams
       (Some (mkLineTeam (Some hg))) (Some (mkLineTeam (Some ag)))))))
    (Some (mkPlays (Some last_play) (Some plays))).

Definition serve (d : feed) : option string -> string -> res feed :=
  fun _ _ => Ok d.

Definition named (role name : string) (n : Z) : participant :=
  mkParticipant (Some role) (Some (mkPerson (Some name) (Some n))).

(** The blocked shot of the specification's example: only the keys the
    example lists. *)
Definition blocked_shot : play_t :=
  mkPlay
    (Some (mkResult None (Some "BLOCKED_SHOT") None None None None None))
    (Some (mkAbout (Some 2) (Some "05:00") None None None))
    (Some [("x", 10); ("y", -5)])
    (Some (mkTeamRef (Some "BOS") None))
    (Some [mkParticipant (Some "Shooter")
                         (Some (mkPerson (Some "A") None));
           mkParticipant (Some "Blocker")
                         (Some (mkPerson (Some "B") None))]).

(** A play with every key [makeDataFrames] reads. *)
Definition full_play (ev etid : string) (per : Z)
  (flags : option bool * option bool) (code : option string)
  (coords : option (list (string * Z)))
  (ps : option (list participant)) : play_t :=
  mkPlay
    (Some (mkResult (Some ev) (Some etid) (Some "play-by-play text")
                    (Some "Wrist Shot") (fst flags) (snd flags)
                    (Some (mkStrength (Some "Even")))))
    (Some (mkAbout (Some per) (Some "05:00") (Some "15:00") None
                   (Some (mkScore (Some 1) (Some 0)))))
    coords
    (option_map (fun c => mkTeamRef (Some c) (Some 6)) code)
    ps.

Definition scorer_and_goalie : list participant :=
  [named "Scorer" "A" 8470000; named "Assist" "C" 8470002;
   named "Goalie" "B" 8470001].

(** A shot on goal in the second period without a [coordinates] key. *)
Definition shot_without_coordinates : play_t :=
  full_play "Shot" "SHOT" 2 (None, None) (Some "BOS") None
            (Some [named "Shooter" "A" 8470000; named "Goalie" "B" 8470001]).

(** A shot on goal in the first period. *)
Definition first_period_shot : play_t :=
  full_play "Shot" "SHOT" 1 (None, None) (Some "NYR")
            (Some [("x", 55); ("y", -12)])
            (Some [named "Shooter" "A" 8470000; named "Goalie" "B" 8470001]).

(** A play of a type that is in none of the three sets. *)
Definition unlisted_play : play_t :=
  full_play "Failed Shot Attempt" "FAILED_SHOT_ATTEMPT" 5 (None, None)
            (Some "BOS") None (Some [named "Shooter" "A" 8470000]).

(** A hit without a [team] key. *)
Definition hit_without_team : play_t :=
  full_play "Hit" "HIT" 1 (None, None) None (Some [("x", 3); ("y", 4)])
            (Some [named "Hitter" "A" 8470000; named "Hittee" "B" 8470001]).

(** A faceoff whose [players] list is empty. *)
Definition faceoff_without_players : play_t :=
  full_play "Faceoff" "FACEOFF" 1 (None, None) (Some "BOS")
            (Some [("x", 0); ("y", 0)]) (Some []).

(** A stoppage: it has neither team nor players. *)
Definition stoppage : play_t :=
  mkPlay (Some (mkResult (Some "Stoppage") (Some "STOP") (Some "Icing")
                         None None None None))
         (Some (mkAbout (Some 1) (Some "07:10") (Some "12:50") None
                        (Some (mkScore (Some 0) (Some 0)))))
         None None None.

(** An empty-net goal with both flags. *)
Definition empty_net_goal : play_t :=
  full_play "Goal" "GOAL" 3 (Some true, Some false) (Some "BOS")
            (Some [("x", 80); ("y", 2)]) (Some scorer_and_goalie).

(** A goal whose result has [emptyNet] and no [gameWinningGoal]. *)
Definition goal_with_one_flag : play_t :=
  full_play "Goal" "GOAL" 3 (Some true, None) (Some "BOS")
            (Some [("x", 80); ("y", 2)]) (Some scorer_and_goalie).

(** A hit whose first participant has no id. *)
Definition hit_without_id : play_t :=
  full_play "Hit" "HIT" 1 (None, None) (Some "BOS")
            (Some [("x", 3); ("y", 4)])
            (Some [mkParticipant (Some "Hitter")
                                 (Some (mkPerson (Some "A") None));
                   named "Hittee" "B" 8470001]).

(** The argument [game_id] of the samples. *)
Definition gamePk : option id_arg := Some (IdInt 2018020744).

(** The instance [Game(2018020744)] when the API serves
    [game_feed hcode acode hg ag plays]. *)
Definition game_of (hcode acode : string) (hg ag : Z) (plays : list play_t)
  : Game :=
  let fors := values (skater_stats_of hg 31) in
  let againsts := values (skater_stats_of ag 27) in
  mkGame "https://statsapi.web.nhl.com/api/v1" (Some "2018020744")
         (game_feed hcode acode hg ag plays) hcode acode 6 3 hg hg true
         (Some acode) "2019-01-19"
         (mkDataFrame agg_cols
            [[CStr "2019-01-19"; CStr hcode; CInt 6; CStr acode; CBool true;
              CBool (String.eqb acode hcode)] ++ interleave fors againsts;
             [CStr "2019-01-19"; CStr acode; CInt 3; CStr hcode; CBool false;
              CBool true] ++ interleave againsts fors])
         None None None None None None.

(** Boston at home against the Rangers, 3-1 in the linescore. *)
Definition bos_nyr (plays : list play_t) : Game :=
  game_of "BOS" "NYR" 3 1 plays.

End Sample.

(** ** When the constructor returns *)

Definition has_key {A} (field : option A) : bool :=
  match field with Some _ => true | None => false end.

(** [boxscore.teams.<side>.team] has [triCode] and [id]. *)
Definition team_ref_ok (side : option box_team) : bool :=
  match side with
  | Some t =>
      match box_team_ref t with
      | Some r => has_key (team_triCode r) && has_key (team_id r)
      | None => false
      end
  | None => false
  end.

(** [live_data['plays']['currentPlay']['about']['dateTime'][:10]] *)
Definition current_date (d : feed) : res string :=
  p <- key (feed_plays d) ;;
  c <- key (plays_currentPlay p) ;;
  a <- key (play_about c) ;;
  dt <- key (about_dateTime a) ;;
  Ok (slice_to 10 dt).

(** What [Game.__init__] needs of the feed: the two team references, the
    home goals of the linescore, the date of the current play, and eleven
    home statistics whose keys the away statistics have too. *)
Definition feed_ok (d : feed) : bool :=
  match boxscore_teams_of d with
  | Ok teams =>
      team_ref_ok (box_home teams) && team_ref_ok (box_away teams)
      && negb (raises (line_total d line_home))
      && negb (raises (current_date d))
      && match skater_stats teams box_home, skater_stats teams box_away with
         | Ok hs, Ok aws =>
             Nat.eqb (length hs) 11
             && forallb (fun stat => negb (raises (dict_get aws stat)))
                        (keys hs)
         | _, _ => false
         end
  | Raise _ => false
  end.

(** The value of [d[k]] for a key that is known to be there. *)
Definition dict_value (d : list (string * cell)) (k : string) : cell :=
  match dict_get d k with Ok v => v | Raise _ => CNone end.

(** [live_data['boxscore']['teams'][side]['team']['triCode']] and [['id']] *)
Definition side_code (teams : box_teams)
  (side : box_teams -> option box_team) : res string :=
  t <- key (side teams) ;;
  r <- key (box_team_ref t) ;;
  key (team_triCode r).

Definition side_id (teams : box_teams)
  (side : box_teams -> option box_team) : res Z :=
  t <- key (side teams) ;;
  r <- key (box_team_ref t) ;;
  key (team_id r).

(** The instance [Game.__init__] builds from a feed that has what it
    reads. *)
Definition built (gid : option string) (d : feed) (home away : string)
  (home_id away_id goals : Z) (date : string)
  (hs aws : list (string * cell)) : Game :=
  let fors := map (dict_value hs) (keys hs) in
  let againsts := map (dict_value aws) (keys hs) in
  mkGame "https://statsapi.web.nhl.com/api/v1" gid d home away
         home_id away_id goals goals true (Some away) date
         (mkDataFrame agg_cols
            [[CStr date; CStr home; CInt home_id; CStr away; CBool true;
              CBool (String.eqb away home)] ++ interleave fors againsts;
             [CStr date; CStr away; CInt away_id; CStr home; CBool false;
              CBool true] ++ interleave againsts fors])
         None None None None None None.

(** ** When a shot row is appended *)

(** The event passes the membership test of [shotData]. *)
Definition is_shot (event : play_t) : bool :=
  match event_type_id event with
  | Ok etid => str_in etid shotIDs
  | Raise _ => false
  end.

(** A participant the loop over the players can read: it has a
    [playerType], and a name when the type is one the loop looks for. *)
Definition readable (p : participant) : bool :=
  match participant_playerType p with
  | Some pt =>
      if str_in pt ["Shooter"; "Scorer"] || str_in pt ["Goalie"; "Blocker"]
      then has_key (name_of p)
      else true
  | None => false
  end.

(** What [shotData] needs of a shot: team, period, clock, a list of
    readable players, and coordinates when the period is even. *)
Definition shot_ok (event : play_t) : bool :=
  negb (raises (team_code event))
  && match play_about event with
     | Some a => has_key (about_periodTime a)
     | None => false
     end
  && match play_players event with
     | Some ps => forallb readable ps
     | None => false
     end
  && match period_of event with
     | Ok p => negb (p mod 2 =? 0) || has_key (play_coordinates event)
     | Raise _ => false
     end.

(** The participant has one of the types [tags]. *)
Definition tagged (tags : list string) (p : participant) : bool :=
  match participant_playerType p with
  | Some pt => str_in pt tags
  | None => false
  end.

(** The name of the last participant whose type is one of [tags]. *)
Definition last_tagged (tags : list string) (ps : list participant)
  : option string :=
  match find (tagged tags) (rev ps) with
  | Some p => name_of p
  | None => None
  end.

(** ** The category tables *)

(** The value of the [event] cell of a row of the event table. *)
Definition event_is (kinds : list string) (row : list cell) : bool :=
  match row_get event_cols row "event" with
  | Some (CStr s) => str_in s kinds
  | _ => false
  end.

(** The cells of a row of the event table under the labels [names]. *)
Definition cells_under (names : list string) (row : list cell)
  : list (option cell) :=
  map (row_get event_cols row) names.

(** The labels of the event table that are left when [dropped] are
    dropped, and those each category table keeps. *)
Definition kept (dropped : list string) : list string :=
  filter (fun c => negb (str_in c dropped)) event_cols.

Definition kept_by_penalties (relabel : bool) : list string :=
  kept (["empty_net"; "game_winning"]
        ++ if relabel then ["player_one_role"; "player_two_role"] else []).

Definition kept_by_turnovers : list string :=
  kept ["secondary_type"; "empty_net"; "game_winning"; "player_one_role";
        "player_two"; "player_two_role"; "player_two_id"].

Definition kept_by_hits (relabel : bool) : list string :=
  kept (["secondary_type"; "empty_net"; "game_winning"]
        ++ if relabel then ["player_one_role"; "player_two_role"] else []).

(** Every row has one cell per column. *)
Definition rectangular (t : DataFrame) : Prop :=
  Forall (fun row => length row = length (columns t)) (rows t).

(** ** The roster of a team *)

(** A roster entry with the four fields the constructor reads. *)
Definition entry_card (p : Team.roster_entry) : option Team.player_card :=
  match Team.entry_person p, Team.entry_jerseyNumber p,
        Team.entry_position p with
  | Some q, Some number, Some pos =>
      match person_fullName q, person_id q, Team.position_code pos with
      | Some name, Some n, Some code => Some (name, (n, number, code))
      | _, _, _ => None
      end
  | _, _, _ => None
  end.

(** The position codes the three selections of the roster accept. *)
Definition in_a_selection (c : Team.player_card) : bool :=
  is_substring (Team.code_of c) "LCR"
  || String.eqb (Team.code_of c) "D" || String.eqb (Team.code_of c) "G".

(** ** More sample documents *)

Module Fixture.

(** A penalty, a hit, a faceoff, a takeaway and a second-period shot. *)
Definition penalty : play_t :=
  Sample.full_play "Penalty" "PENALTY" 1 (None, None) (Some "BOS")
    (Some [("x", -60); ("y", 20)])
    (Some [Sample.named "PenaltyOn" "A" 8470000;
           Sample.named "DrewBy" "B" 8470001]).

Definition hit : play_t :=
  Sample.full_play "Hit" "HIT" 1 (None, None) (Some "NYR")
    (Some [("x", 3); ("y", 4)])
    (Some [Sample.named "Hitter" "B" 8470001;
           Sample.named "Hittee" "A" 8470000]).

Definition faceoff : play_t :=
  Sample.full_play "Faceoff" "FACEOFF" 1 (None, None) (Some "BOS")
    (Some [("x", 0); ("y", 0)])
    (Some [Sample.named "Winner" "A" 8470000;
           Sample.named "Loser" "B" 8470001]).

Definition takeaway : play_t :=
  Sample.full_play "Takeaway" "TAKEAWAY" 2 (None, None) (Some "BOS")
    (Some [("x", 40); ("y", -8)])
    (Some [Sample.named "PlayerID" "A" 8470000]).

Definition second_period_shot : play_t :=
  Sample.full_play "Shot" "SHOT" 2 (None, None) (Some "NYR")
    (Some [("x", 55); ("y", -12)])
    (Some [Sample.named "Shooter" "B" 8470001;
           Sample.named "Goalie" "A" 8470000]).

Definition plays : list play_t :=
  [faceoff; hit; Sample.first_period_shot; penalty; Sample.stoppage;
   takeaway; second_period_shot].

(** A hit without coordinates and without a [players] key. *)
Definition bare_hit : play_t :=
  Sample.full_play "Hit" "HIT" 1 (None, None) (Some "BOS") None None.

(** A goal with two participants of each kind the shot loop looks for, and
    an assist. *)
Definition crowded_goal : play_t :=
  Sample.full_play "Goal" "GOAL" 1 (Some false, Some false) (Some "NYR")
    (Some [("x", -81); ("y", 3)])
    (Some [Sample.named "Shooter" "A" 8470000;
           Sample.named "Goalie" "B" 8470001;
           Sample.named "Scorer" "C" 8470002;
           Sample.named "Assist" "D" 8470003;
           Sample.named "Blocker" "E" 8470004]).

(** A missed shot of the third period. *)
Definition missed_shot : play_t :=
  Sample.full_play "Missed Shot" "MISSED_SHOT" 3 (None, None) (Some "BOS")
    (Some [("x", -70); ("y", 30)])
    (Some [Sample.named "Shooter" "A" 8470000]).


(** A feed without the away entry of the linescore and without
    [allPlays]. *)
Definition bare_feed : feed :=
  mkFeed (feed_boxscore (Sample.game_feed "BOS" "NYR" 3 1 []))
         (Some (mkLinescore (Some (mkLineTeams
            (Some (mkLineTeam (Some 3))) None))))
         (Some (mkPlays (Some Sample.last_play) None)).

(** Four entries of a roster, the last one with an empty position code. *)
Definition entry (name : string) (n : Z) (number code : string)
  : Team.roster_entry :=
  Team.mkRosterEntry (Some (mkPerson (Some name) (Some n))) (Some number)
                     (Some (Team.mkPosition (Some code))).

Definition raw_roster : list Team.roster_entry :=
  [entry "A" 8470000 "37" "C"; entry "B" 8470001 "33" "D";
   entry "C" 8470002 "40" "G"; entry "D" 8470003 "63" "L";
   entry "E" 8470004 "0" ""].

(** An API that knows the roster of team 6 only. *)
Definition roster_api (team_id : string) (season : option string)
  (base_url : string) : res (list Team.roster_entry) :=
  if String.eqb team_id "6" then Ok raw_roster else Raise RequestError.

End Fixture.

(** * Properties *)

(** Case analysis on a computation that returned: every subscript and every
    bound computation in [H] is split into its two outcomes. *)
Ltac crack H :=
  repeat (cbn [bind key try_except exn_eqb or_class neg] in *;
    match type of H with
    | Raise _ = _ => discriminate H
    | context [key ?o] => destruct o eqn:?
    | context [bind (if ?b then _ else _) _] => destruct b eqn:?
    | context [bind ?m _] => destruct m eqn:?
    | context [let '(_, _) := ?p in _] => destruct p
    end).

(** The same for a straight sequence of bound computations. *)
Ltac bind_inv H :=
  repeat match type of H with
  | bind ?m _ = Ok _ =>
      let E := fresh "E" in
      destruct m eqn:E; simpl in H; [| discriminate H]
  | (let '(_, _) := ?p in _) = Ok _ => destruct p; simpl in H
  end.

(** ** Loops and subscripts *)

Lemma collect_rows {A B} (body : A -> res (option B)) (l : list A) :
  forall rs,
    collect body l = Ok rs ->
    Forall2 (fun x r => body x = Ok (Some r))
            (filter (fun x => match body x with
                              | Ok (Some _) => true | _ => false end) l) rs.
Proof.
  induction l as [| x l IH]; simpl; intros rs H.
  - injection H as <-. constructor.
  - destruct (body x) as [[b|]|] eqn:Hx; simpl in H; try discriminate H.
    + destruct (collect body l) as [rs'|]; simpl in H; [| discriminate H].
      injection H as <-. constructor; auto.
    + destruct (collect body l) as [rs'|]; simpl in H; [| discriminate H].
      injection H as <-. auto.
Qed.

Lemma collect_ok_each {A B} (body : A -> res (option B)) (l : list A) rs :
  collect body l = Ok rs -> forall x, In x l -> exists r, body x = Ok r.
Proof.
  revert rs. induction l as [| y l IH]; simpl; intros rs H x Hx; [easy |].
  destruct (body y) as [b|] eqn:Hy; simpl in H; [| discriminate H].
  destruct (collect body l) as [rs'|] eqn:Hc; simpl in H; [| discriminate H].
  destruct Hx as [<- | Hx]; eauto.
Qed.

Lemma collect_total {A B} (body : A -> res (option B)) (l : list A) :
  (forall x, In x l -> exists r, body x = Ok r) ->
  exists rs, collect body l = Ok rs.
Proof.
  induction l as [| x l IH]; simpl; intros H; [eauto |].
  destruct (H x (or_introl eq_refl)) as [r ->].
  destruct IH as [rs ->]; [intros; apply H; auto |].
  cbn [bind]. eauto.
Qed.

Lemma list_getitem_first {A} (x : A) (l : list A) :
  list_getitem (x :: l) 0 = Ok x.
Proof.
  unfold list_getitem. cbn [length Z.ltb Z.compare].
  replace (Z.of_nat (S (length l)) <=? 0) with false
    by (symmetry; apply Z.leb_gt; lia).
  reflexivity.
Qed.

Lemma nth_error_last {A} (l : list A) :
  forall x d, nth_error (x :: l) (length l) = Some (last (x :: l) d).
Proof.
  induction l as [| y l IH]; intros x d; [reflexivity |].
  change (nth_error (x :: y :: l) (length (y :: l)))
    with (nth_error (y :: l) (length l)).
  rewrite (IH y d). reflexivity.
Qed.

Lemma list_getitem_last {A} (x : A) (l : list A) :
  list_getitem (x :: l) (-1) = Ok (last (x :: l) x).
Proof.
  unfold list_getitem. cbn [Z.ltb Z.compare].
  set (n := Z.of_nat (length (x :: l))).
  assert (Hn : 1 <= n) by (subst n; simpl length; lia).
  replace (-1 + n <? 0) with false by (symmetry; apply Z.ltb_ge; lia).
  replace (n <=? -1 + n) with false by (symmetry; apply Z.leb_gt; lia).
  cbn [orb].
  replace (Z.to_nat (-1 + n)) with (length l) by (subst n; simpl length; lia).
  rewrite (nth_error_last l x x). reflexivity.
Qed.

Lemma interleave_length {A} (xs ys : list A) :
  length xs = length ys -> length (interleave xs ys) = (2 * length xs)%nat.
Proof.
  revert ys. induction xs as [| x xs IH]; intros [| y ys]; simpl; try easy.
  intros [= H]. rewrite (IH _ H). lia.
Qed.

(** ** Game.__init__ *)

(** The loop over the statistics appends, to the home row, each home value
    followed by the away value, and to the away row the same two swapped. *)
Lemma stats_loop_interleave _stats stats :
  forall _home _away h a,
    stats_loop _stats stats _home _away = Ok (h, a) ->
    exists fs gs,
      length fs = length stats /\ length gs = length stats /\
      h = _home ++ interleave fs gs /\ a = _away ++ interleave gs fs.
Proof.
  induction stats as [| stat rest IH]; simpl; intros _home _away h a H.
  - injection H as <- <-. exists [], []. now rewrite !app_nil_r.
  - bind_inv H.
    apply IH in H as (fs & gs & Hf & Hg & -> & ->).
    exists (a0 :: fs), (a1 :: gs). simpl.
    rewrite <- !app_assoc. simpl. auto.
Qed.

(** The sample instance is the one the constructor builds. *)
Lemma game_of_built hcode acode hg ag plays :
  Game_init (Sample.serve (Sample.game_feed hcode acode hg ag plays))
            Sample.gamePk
  = Ok (Sample.game_of hcode acode hg ag plays).
Proof.
  unfold Game_init. cbn. rewrite Z.gtb_ltb, Z.ltb_irrefl. cbn.
  rewrite String.eqb_refl. reflexivity.
Qed.

(** Both goal attributes are read from the home entry of the linescore, so
    the comparison that picks the winner never holds. *)
Lemma Game_init_reads_home_twice api gid g :
  Game_init api gid = Ok g ->
  line_total (live_data g) line_home = Ok (home_goals g) /\
  away_goals g = home_goals g /\
  winner g = Some (away g).
Proof.
  unfold Game_init. intros H. bind_inv H.
  injection H as <-. cbn. rewrite Z.gtb_ltb, Z.ltb_irrefl.
  repeat split. exact E7.
Qed.

(** C1, as the code has it: the game is always final, and the winner
    attribute of the instance is what the rule that sets it gives on the
    two goal attributes.  The rule compares the two values strictly:
    whatever they are, it gives the home team's triCode when the home value
    is strictly greater than the away value, and the away team's triCode
    otherwise, equal values included; it gives no winner for a game that is
    not final. *)
Theorem winner_strict_comparison :
  (forall api gid g,
      Game_init api gid = Ok g ->
      final g = true /\
      winner g = set_winner (final g) (home g) (away g)
                            (home_goals g) (away_goals g) /\
      winner g
      = Some (if home_goals g >? away_goals g then home g else away g)) /\
  (forall home away home_goals away_goals,
      (home_goals > away_goals ->
       set_winner true home away home_goals away_goals = Some home) /\
      (home_goals = away_goals ->
       set_winner true home away home_goals away_goals = Some away) /\
      (home_goals < away_goals ->
       set_winner true home away home_goals away_goals = Some away) /\
      set_winner false home away home_goals away_goals = None).
Proof.
  split.
  - unfold Game_init. intros api gid g H. bind_inv H.
    injection H as <-. cbn [final winner home away home_goals away_goals].
    repeat split. unfold set_winner. cbn [negb].
    destruct (_ >? _); reflexivity.
  - intros home away hg ag. unfold set_winner. cbn [negb].
    repeat split; intros Hc.
    + apply Z.gtb_gt in Hc. rewrite Hc. reflexivity.
    + subst ag. rewrite Z.gtb_ltb, Z.ltb_irrefl. reflexivity.
    + destruct (hg >? ag) eqn:Hg; [| reflexivity].
      apply Z.gtb_gt in Hg. lia.
Qed.

Lemma winner_strict_comparison_witness :
  set_winner true "BOS" "NYR" 3 1 = Some "BOS" /\
  set_winner true "BOS" "NYR" 2 2 = Some "NYR" /\
  set_winner true "BOS" "NYR" 1 3 = Some "NYR" /\
  final (Sample.bos_nyr []) = true /\
  winner (Sample.bos_nyr [])
  = set_winner (final (Sample.bos_nyr [])) (home (Sample.bos_nyr []))
               (away (Sample.bos_nyr [])) (home_goals (Sample.bos_nyr []))
               (away_goals (Sample.bos_nyr [])).
Proof.
  destruct winner_strict_comparison as [Hinit Hrule].
  split; [apply (proj1 (Hrule "BOS" "NYR" 3 1)); reflexivity |].
  split; [apply (proj1 (proj2 (Hrule "BOS" "NYR" 2 2))); reflexivity |].
  split; [apply (proj1 (proj2 (proj2 (Hrule "BOS" "NYR" 1 3)))); reflexivity |].
  destruct (Hinit (Sample.serve (Sample.game_feed "BOS" "NYR" 3 1 []))
                  Sample.gamePk (Sample.bos_nyr []) eq_refl)
    as (Hf & Hw & _).
  split; [exact Hf | exact Hw].
Defined.

(** C1, refuted: with two goals each in the linescore the home total is not
    strictly less than the away total, and the winner is the away team; it
    is the away team too when the linescore has the home team ahead 3-1. *)
Lemma tie_goes_to_away :
  (exists g,
      Game_init (Sample.serve (Sample.game_feed "BOS" "NYR" 2 2 []))
                Sample.gamePk = Ok g /\
      line_total (live_data g) line_home = Ok 2 /\
      line_total (live_data g) line_away = Ok 2 /\
      ~ 2 < 2 /\
      home g = "BOS" /\ winner g = Some "NYR" /\ winner g <> Some (home g)) /\
  (exists g,
      Game_init (Sample.serve (Sample.game_feed "BOS" "NYR" 3 1 []))
                Sample.gamePk = Ok g /\
      line_total (live_data g) line_home = Ok 3 /\
      line_total (live_data g) line_away = Ok 1 /\
      ~ 3 < 1 /\
      home g = "BOS" /\ winner g = Some "NYR" /\ winner g <> Some (home g)).
Proof.
  split.
  - exists (Sample.game_of "BOS" "NYR" 2 2 []).
    split; [apply game_of_built |].
    cbn. repeat split; try lia; discriminate.
  - exists (Sample.game_of "BOS" "NYR" 3 1 []).
    split; [apply game_of_built |].
    cbn. repeat split; try lia; discriminate.
Qed.

(** C8: the boxscore table of a game has two rows, the home team's and the
    away team's, and for every tracked statistic the [_for] cell of either
    row is the [_against] cell of the other. *)
Theorem boxscore_for_against api gid g :
  Game_init api gid = Ok g ->
  length (rows (agg_stats g)) = 2%nat /\
  df_get (agg_stats g) 0 "team" = Some (CStr (home g)) /\
  df_get (agg_stats g) 0 "home" = Some (CBool true) /\
  df_get (agg_stats g) 1 "team" = Some (CStr (away g)) /\
  df_get (agg_stats g) 1 "home" = Some (CBool false) /\
  forall S, In S tracked_stats ->
    exists v w,
      df_get (agg_stats g) 0 (S ++ "_for")%string = Some v /\
      df_get (agg_stats g) 1 (S ++ "_against")%string = Some v /\
      df_get (agg_stats g) 1 (S ++ "_for")%string = Some w /\
      df_get (agg_stats g) 0 (S ++ "_against")%string = Some w.
Proof.
  unfold Game_init. intros H. bind_inv H.
  injection H as <-. simpl.
  apply stats_loop_interleave in E11 as (fs & gs & Hf & Hg & -> & ->).
  unfold pd_DataFrame in E12.
  destruct (forallb _ _) eqn:Hlen in E12; [| discriminate E12].
  injection E12 as <-.
  simpl in Hlen. rewrite andb_true_r in Hlen.
  apply andb_prop in Hlen as [Hh _].
  apply Nat.eqb_eq in Hh. simpl in Hh.
  rewrite interleave_length in Hh by congruence.
  assert (Hn : length fs = 11%nat) by lia.
  assert (Hm : length gs = 11%nat) by congruence.
  clear - Hn Hm.
  do 12 (destruct fs as [| ? fs]; try discriminate Hn).
  do 12 (destruct gs as [| ? gs]; try discriminate Hm).
  repeat split.
  intros S HS. simpl in HS.
  repeat (destruct HS as [<- | HS];
          [eexists; eexists; repeat split; reflexivity |]).
  contradiction.
Qed.

Lemma boxscore_for_against_witness :
  length (rows (agg_stats (Sample.bos_nyr []))) = 2%nat /\
  df_get (agg_stats (Sample.bos_nyr [])) 0 "shots_for" = Some (CInt 31) /\
  df_get (agg_stats (Sample.bos_nyr [])) 1 "shots_against" = Some (CInt 31) /\
  df_get (agg_stats (Sample.bos_nyr [])) 1 "shots_for" = Some (CInt 27) /\
  df_get (agg_stats (Sample.bos_nyr [])) 0 "shots_against" = Some (CInt 27).
Proof.
  pose proof (boxscore_for_against
                (Sample.serve (Sample.game_feed "BOS" "NYR" 3 1 []))
                Sample.gamePk (Sample.bos_nyr []) eq_refl) as W.
  destruct W as (Hrows & _ & _ & _ & _ & Hsym).
  destruct (Hsym "shots" ltac:(simpl; tauto)) as (v & w & H1 & H2 & H3 & H4).
  split; [exact Hrows |].
  assert (Hv : v = CInt 31) by (cbn in H1; congruence).
  assert (Hw : w = CInt 27) by (cbn in H3; congruence).
  subst v w. auto.
Defined.

(** ** Game.shotData *)

(** What a row of the shot table holds, read off the event. *)
Lemma shot_row_inv self event row :
  shot_row self event = Ok (Some row) ->
  exists etid t p pt shooter other,
    event_type_id event = Ok etid /\ str_in etid shotIDs = true /\
    team_code event = Ok t /\ period_of event = Ok p /\
    (p mod 2 = 0 -> play_coordinates event <> None) /\
    let flip := String.eqb (lower (split_head "_"%char etid)) "blocked" in
    let opp := if String.eqb (home self) t then away self else home self in
    let raw := option_map values (play_coordinates event) in
    row = [opt_str shooter; CStr (lower (split_head "_"%char etid));
           opt_str other;
           opt_str (match play_result event with
                    | Some r => result_secondaryType r | None => None end);
           opt_arr (if p mod 2 =? 0
                    then option_map (fun a => map (negative (result_type a)) a)
                                    raw
                    else raw);
           CInt p; CStr pt;
           CStr (if flip then opp else t); CStr (if flip then t else opp)].
Proof.
  unfold shot_row, event_type_id, team_code, period_of. intros H.
  crack H.
  all: destruct (str_in _ shotIDs) eqn:Hin; [| discriminate H].
  all: crack H.
  all: try (injection H as <-).
  all: do 6 eexists; cbn [bind key option_map];
       repeat match goal with
              | E : _ = true |- _ => rewrite E
              | E : _ = false |- _ => rewrite E
              end;
       repeat split; try reflexivity; try discriminate.
  all: intros Hp; apply Z.eqb_eq in Hp; congruence.
Qed.

Lemma shot_kind etid :
  str_in etid shotIDs = true ->
  etid = "SHOT" \/ etid = "MISSED_SHOT" \/ etid = "BLOCKED_SHOT" \/
  etid = "GOAL".
Proof.
  unfold str_in, shotIDs. cbn [existsb].
  rewrite !orb_true_iff, !String.eqb_eq. intuition discriminate.
Qed.

Lemma blocked_result etid :
  str_in etid shotIDs = true ->
  String.eqb (lower (split_head "_"%char etid)) "blocked"
  = String.eqb etid "BLOCKED_SHOT".
Proof.
  intros H. destruct (shot_kind etid H) as [-> | [-> | [-> | ->]]];
    reflexivity.
Qed.

(** The loop over the players, one step at the end of the list. *)
Lemma shot_players_app ps p :
  forall s o,
    shot_players (ps ++ [p]) s o =
    ' (s', o') <- shot_players ps s o ;; shot_players [p] s' o'.
Proof.
  induction ps as [| q ps IH]; intros s o.
  - reflexivity.
  - cbn [app shot_players].
    destruct (participant_playerType q) as [pt|]; [| reflexivity].
    cbn [bind key].
    destruct (str_in pt ["Shooter"; "Scorer"]);
      destruct (str_in pt ["Goalie"; "Blocker"]);
      destruct (participant_player q) as [pl|]; cbn [bind key];
      try reflexivity;
      try (destruct (person_fullName pl); cbn [bind key];
           try reflexivity; apply IH);
      apply IH.
Qed.

Lemma shot_players_one p s o s' o' :
  shot_players [p] s o = Ok (s', o') ->
  s' = (if tagged ["Shooter"; "Scorer"] p then name_of p else s) /\
  o' = (if tagged ["Goalie"; "Blocker"] p then name_of p else o).
Proof.
  unfold tagged, name_of. cbn [shot_players].
  destruct (participant_playerType p) as [pt|]; [| discriminate].
  cbn [bind key].
  destruct (str_in pt ["Shooter"; "Scorer"]);
    destruct (str_in pt ["Goalie"; "Blocker"]);
    destruct (participant_player p) as [pl|]; cbn [bind key];
    try discriminate;
    try (destruct (person_fullName pl); cbn [bind key]; try discriminate);
    intros [= <- <-]; split; reflexivity.
Qed.

Lemma shot_players_last ps :
  forall s o s' o',
    shot_players ps s o = Ok (s', o') ->
    s' = match find (tagged ["Shooter"; "Scorer"]) (rev ps) with
         | Some p => name_of p
         | None => s
         end /\
    o' = match find (tagged ["Goalie"; "Blocker"]) (rev ps) with
         | Some p => name_of p
         | None => o
         end.
Proof.
  induction ps as [| p ps IH] using rev_ind; intros s o s' o' H.
  - injection H as <- <-. split; reflexivity.
  - rewrite shot_players_app in H.
    destruct (shot_players ps s o) as [[s1 o1]|] eqn:E; [| discriminate H].
    cbn [bind] in H.
    destruct (IH _ _ _ _ E) as [-> ->].
    destruct (shot_players_one _ _ _ _ _ H) as [-> ->].
    rewrite rev_app_distr. cbn [rev app find].
    destruct (tagged ["Shooter"; "Scorer"] p);
      destruct (tagged ["Goalie"; "Blocker"] p); split; reflexivity.
Qed.

Lemma shot_players_total ps :
  forallb readable ps = true ->
  forall s o, exists r, shot_players ps s o = Ok r.
Proof.
  induction ps as [| p ps IH]; intros Hr s o; [cbn; eauto |].
  cbn [forallb] in Hr. apply andb_prop in Hr as [Hp Hr].
  cbn [shot_players]. unfold readable, name_of in Hp.
  destruct (participant_playerType p) as [pt|]; [| discriminate Hp].
  cbn [bind key].
  destruct (str_in pt ["Shooter"; "Scorer"]);
    destruct (str_in pt ["Goalie"; "Blocker"]); cbn [orb] in Hp;
    try (destruct (participant_player p) as [pl|]; [| discriminate Hp];
         cbn [bind key];
         destruct (person_fullName pl); [| discriminate Hp]);
    cbn [bind key]; apply IH; assumption.
Qed.

Lemma shot_players_readable ps :
  forall s o r, shot_players ps s o = Ok r -> forallb readable ps = true.
Proof.
  induction ps as [| p ps IH]; intros s o r H; [reflexivity |].
  cbn [shot_players] in H. cbn [forallb]. unfold readable at 1, name_of.
  destruct (participant_playerType p) as [pt|]; [| discriminate H].
  cbn [bind key] in H.
  destruct (str_in pt ["Shooter"; "Scorer"]);
    destruct (str_in pt ["Goalie"; "Blocker"]); cbn [orb];
    try (destruct (participant_player p) as [pl|]; [| discriminate H];
         cbn [bind key] in H;
         destruct (person_fullName pl); [| discriminate H]);
    cbn [bind key has_key andb] in *; eapply IH; eassumption.
Qed.

Lemma shot_row_needs self event row :
  shot_row self event = Ok (Some row) ->
  is_shot event = true /\ shot_ok event = true.
Proof.
  unfold shot_row, is_shot, shot_ok, event_type_id, team_code, period_of.
  intros H.
  crack H.
  all: destruct (str_in _ shotIDs) eqn:Hin; [| discriminate H].
  all: crack H.
  all: split; [reflexivity |].
  all: cbn [raises negb has_key andb orb].
  all: repeat match goal with
              | E : _ = true |- _ => rewrite E
              | E : _ = false |- _ => rewrite E
              end.
  all: cbn [negb orb andb].
  all: match goal with
       | E : shot_players _ None None = Ok _ |- _ =>
           rewrite (shot_players_readable _ _ _ _ E)
       end.
  all: reflexivity.
Qed.

Lemma shot_row_enough self event :
  is_shot event = true -> shot_ok event = true ->
  exists row, shot_row self event = Ok (Some row).
Proof.
  unfold shot_row, is_shot, shot_ok, event_type_id, team_code, period_of.
  intros Hs Hok.
  apply andb_prop in Hok as [Hok Hper].
  apply andb_prop in Hok as [Hok Hps].
  apply andb_prop in Hok as [Hteam Htime].
  destruct (play_result event) as [r|]; [| discriminate Hs].
  cbn [bind key] in *.
  destruct (result_eventTypeId r) as [etid|]; [| discriminate Hs].
  cbn [bind key] in *. rewrite Hs.
  destruct (play_team event) as [t|]; [| discriminate Hteam].
  cbn [bind key] in *.
  destruct (team_triCode t) as [c|]; [| discriminate Hteam].
  destruct (play_about event) as [a|]; [| discriminate Htime].
  cbn [bind key] in *.
  destruct (about_periodTime a) as [pt|]; [| discriminate Htime].
  destruct (about_period a) as [p|]; [| discriminate Hper].
  destruct (play_players event) as [ps|]; [| discriminate Hps].
  destruct (shot_players_total ps Hps None None) as [[shooter other] Hsp].
  cbn [bind key] in *.
  assert (Hteams : forall A (k : string * string -> res A) b,
             bind (if b : bool
                   then Ok (if String.eqb (home self) c
                            then away self else home self, c)
                   else Ok (c, if String.eqb (home self) c
                               then away self else home self)) k
             = k (if b then (if String.eqb (home self) c
                             then away self else home self, c)
                  else (c, if String.eqb (home self) c
                           then away self else home self)))
    by (intros A k []; reflexivity).
  rewrite Hteams.
  destruct (String.eqb _ "blocked");
    destruct (result_secondaryType r);
    cbn [bind key try_except exn_eqb]; rewrite Hsp; cbn [bind];
    destruct (p mod 2 =? 0);
    destruct (play_coordinates event); try discriminate Hper;
    cbn [bind key try_except exn_eqb neg or_class]; eauto.
Qed.

Lemma shot_row_skips self event :
  shot_row self event = Ok None ->
  exists etid, event_type_id event = Ok etid /\
               str_in etid shotIDs = false.
Proof.
  unfold shot_row, event_type_id. intros H.
  destruct (play_result event) as [r|]; [| discriminate H].
  cbn [bind key] in *.
  destruct (result_eventTypeId r) as [etid|]; [| discriminate H].
  cbn [bind key] in *.
  destruct (str_in etid shotIDs) eqn:Hin; [| eauto].
  exfalso. crack H. all: discriminate H.
Qed.

(** The row of a shot that has what [shotData] reads, cell by cell. *)
Lemma shot_row_read self event :
  is_shot event = true -> shot_ok event = true ->
  exists etid t p pt a ps,
    event_type_id event = Ok etid /\ str_in etid shotIDs = true /\
    team_code event = Ok t /\ period_of event = Ok p /\
    play_about event = Some a /\ about_periodTime a = Some pt /\
    play_players event = Some ps /\
    (p mod 2 = 0 -> play_coordinates event <> None) /\
    let flip := String.eqb (lower (split_head "_"%char etid)) "blocked" in
    let opp := if String.eqb (home self) t then away self else home self in
    let raw := option_map values (play_coordinates event) in
    shot_row self event =
      Ok (Some
        [opt_str (last_tagged ["Shooter"; "Scorer"] ps);
         CStr (lower (split_head "_"%char etid));
         opt_str (last_tagged ["Goalie"; "Blocker"] ps);
         opt_str (secondary_of event);
         opt_arr (if p mod 2 =? 0
                  then option_map (fun a => map (negative (result_type a)) a)
                                  raw
                  else raw);
         CInt p; CStr pt;
         CStr (if flip then opp else t); CStr (if flip then t else opp)]).
Proof.
  unfold is_shot, shot_ok, shot_row, event_type_id, team_code, period_of,
    secondary_of.
  intros Hs Hok.
  apply andb_prop in Hok as [Hok Hper].
  apply andb_prop in Hok as [Hok Hps].
  apply andb_prop in Hok as [Hteam Htime].
  destruct (play_result event) as [r|]; [| discriminate Hs].
  cbn [bind key] in *.
  destruct (result_eventTypeId r) as [etid|]; [| discriminate Hs].
  cbn [bind key] in *.
  destruct (play_team event) as [t|]; [| discriminate Hteam].
  cbn [bind key] in *.
  destruct (team_triCode t) as [c|]; [| discriminate Hteam].
  destruct (play_about event) as [a|]; [| discriminate Htime].
  cbn [bind key] in *.
  destruct (about_periodTime a) as [pt|] eqn:Ept; [| discriminate Htime].
  destruct (about_period a) as [p|] eqn:Ep; [| discriminate Hper].
  destruct (play_players event) as [ps|]; [| discriminate Hps].
  destruct (shot_players_total ps Hps None None) as [[shooter other] Hsp].
  destruct (shot_players_last _ _ _ _ _ Hsp) as [Hshooter Hother].
  change (shooter = last_tagged ["Shooter"; "Scorer"] ps) in Hshooter.
  change (other = last_tagged ["Goalie"; "Blocker"] ps) in Hother.
  subst shooter other.
  exists etid, c, p, pt, a, ps.
  do 7 (split; [reflexivity || assumption |]).
  split.
  { intros Hp. apply Z.eqb_eq in Hp. cbn [bind key] in Hper.
    rewrite Hp in Hper. destruct (play_coordinates event); [discriminate |].
    discriminate Hper. }
  cbn zeta. rewrite Hs.
  assert (Hteams : forall A (k : string * string -> res A) b,
             bind (if b : bool
                   then Ok (if String.eqb (home self) c
                            then away self else home self, c)
                   else Ok (c, if String.eqb (home self) c
                               then away self else home self)) k
             = k (if b then (if String.eqb (home self) c
                             then away self else home self, c)
                  else (c, if String.eqb (home self) c
                           then away self else home self)))
    by (intros A k []; reflexivity).
  rewrite Hteams. cbn [bind key] in Hper.
  destruct (String.eqb _ "blocked");
    destruct (result_secondaryType r);
    cbn [bind key try_except exn_eqb]; rewrite Hsp; cbn [bind];
    destruct (p mod 2 =? 0);
    destruct (play_coordinates event); try discriminate Hper;
    reflexivity.
Qed.




(** C4: for an event whose type id is one of the four shot ids and which has
    what [shotData] reads, a row is appended; for a blocked shot the team of
    the event is the other team of the row and the shooter's team is the
    game's other team; for a shot, a missed shot and a goal the team of the
    event is the shooter's team and the other team of the row is the game's
    other team.  The blocked shot of the specification's example, in a game
    between BOS and NYR with either at home, gives the row the
    specification lists; a shot, a missed shot and a goal of one game give
    the three rows listed. *)
Theorem shot_team_attribution :
  (forall self event etid t,
      event_type_id event = Ok etid -> str_in etid shotIDs = true ->
      team_code event = Ok t -> shot_ok event = true ->
      exists row,
        shot_row self event = Ok (Some row) /\
        let col := row_get shot_cols row in
        (etid = "BLOCKED_SHOT" ->
         col "result" = Some (CStr "blocked") /\
         col "otherTeam" = Some (CStr t) /\
         (t = home self -> col "shooterTeam" = Some (CStr (away self))) /\
         (t = away self -> col "shooterTeam" = Some (CStr (home self))) /\
         (t <> home self -> col "shooterTeam" = Some (CStr (home self)))) /\
        (etid <> "BLOCKED_SHOT" ->
         (etid = "SHOT" /\ col "result" = Some (CStr "shot") \/
          etid = "MISSED_SHOT" /\ col "result" = Some (CStr "missed") \/
          etid = "GOAL" /\ col "result" = Some (CStr "goal")) /\
         col "shooterTeam" = Some (CStr t) /\
         (t = home self -> col "otherTeam" = Some (CStr (away self))) /\
         (t = away self -> col "otherTeam" = Some (CStr (home self))) /\
         (t <> home self -> col "otherTeam" = Some (CStr (home self))))) /\
  (forall api,
      fst (shotData api false
             (Sample.game_of "BOS" "NYR" 3 1 [Sample.blocked_shot])) =
        Ok (mkDataFrame shot_cols
              [[CStr "A"; CStr "blocked"; CStr "B"; CNone;
                CArr [-10; 5]; CInt 2; CStr "05:00";
                CStr "NYR"; CStr "BOS"]]) /\
      fst (shotData api false
             (Sample.game_of "NYR" "BOS" 3 1 [Sample.blocked_shot])) =
        Ok (mkDataFrame shot_cols
              [[CStr "A"; CStr "blocked"; CStr "B"; CNone;
                CArr [-10; 5]; CInt 2; CStr "05:00";
                CStr "NYR"; CStr "BOS"]]) /\
      fst (shotData api false
             (Sample.game_of "BOS" "NYR" 3 1
                [Sample.first_period_shot; Fixture.missed_shot;
                 Sample.empty_net_goal])) =
        Ok (mkDataFrame shot_cols
              [[CStr "A"; CStr "shot"; CStr "B"; CStr "Wrist Shot";
                CArr [55; -12]; CInt 1; CStr "05:00";
                CStr "NYR"; CStr "BOS"];
               [CStr "A"; CStr "missed"; CNone; CStr "Wrist Shot";
                CArr [-70; 30]; CInt 3; CStr "05:00";
                CStr "BOS"; CStr "NYR"];
               [CStr "A"; CStr "goal"; CStr "B"; CStr "Wrist Shot";
                CArr [80; 2]; CInt 3; CStr "05:00";
                CStr "BOS"; CStr "NYR"]])).
Proof.
  split.
  - intros self event etid t He Hin Ht Hok.
    assert (Hs : is_shot event = true)
      by (unfold is_shot; rewrite He; exact Hin).
    destruct (shot_row_read self event Hs Hok)
      as (etid' & t' & p & pt & a & ps &
          He' & _ & Ht' & _ & _ & _ & _ & _ & Hrow).
    rewrite He in He'. injection He' as <-.
    rewrite Ht in Ht'. injection Ht' as <-.
    cbn zeta in Hrow. rewrite (blocked_result etid Hin) in Hrow.
    eexists. split; [exact Hrow |]. cbn zeta.
    assert (Hopp : (t = home self ->
                    (if String.eqb (home self) t then away self
                     else home self) = away self) /\
                   (t = away self ->
                    (if String.eqb (home self) t then away self
                     else home self) = home self) /\
                   (t <> home self ->
                    (if String.eqb (home self) t then away self
                     else home self) = home self)).
    { destruct (String.eqb_spec (home self) t) as [E | E].
      - repeat split; intros; congruence.
      - repeat split; intros; congruence. }
    destruct Hopp as (H1 & H2 & H3).
    split.
    + intros ->. cbn.
      split; [reflexivity |]. split; [reflexivity |].
      repeat split; intros Hc; f_equal; f_equal; auto.
    + intros Hne. apply String.eqb_neq in Hne. rewrite Hne. cbn.
      split.
      { destruct (shot_kind etid Hin) as [-> | [-> | [-> | ->]]];
          [left | right; left | discriminate Hne | right; right];
          split; reflexivity. }
      split; [reflexivity |].
      repeat split; intros Hc; f_equal; f_equal; auto.
  - intros api. repeat split; reflexivity.
Qed.

Lemma shot_team_attribution_witness :
  (exists row,
      shot_row (Sample.bos_nyr []) Sample.first_period_shot
      = Ok (Some row) /\
      row_get shot_cols row "result" = Some (CStr "shot") /\
      row_get shot_cols row "shooterTeam" = Some (CStr "NYR") /\
      row_get shot_cols row "otherTeam" = Some (CStr "BOS")) /\
  (exists row,
      shot_row (Sample.bos_nyr []) Sample.blocked_shot = Ok (Some row) /\
      row_get shot_cols row "result" = Some (CStr "blocked") /\
      row_get shot_cols row "shooterTeam" = Some (CStr "NYR") /\
      row_get shot_cols row "otherTeam" = Some (CStr "BOS")).
Proof.
  split.
  - destruct (proj1 shot_team_attribution
                (Sample.bos_nyr []) Sample.first_period_shot "SHOT" "NYR"
                eq_refl eq_refl eq_refl eq_refl)
      as (row & Hrow & _ & Hother).
    exists row. split; [exact Hrow |].
    destruct (Hother ltac:(discriminate)) as (Hres & Hs & _ & Ha & _).
    split.
    + destruct Hres as [[_ H] | [[E _] | [E _]]];
        [exact H | discriminate E | discriminate E].
    + split; [exact Hs | exact (Ha eq_refl)].
  - destruct (proj1 shot_team_attribution
                (Sample.bos_nyr []) Sample.blocked_shot "BLOCKED_SHOT" "BOS"
                eq_refl eq_refl eq_refl eq_refl)
      as (row & Hrow & Hblocked & _).
    exists row. split; [exact Hrow |].
    destruct (Hblocked eq_refl) as (Hres & Ho & Hh & _).
    split; [exact Hres |]. split; [exact (Hh eq_refl) | exact Ho].
Defined.




(** No row is ever appended for a shot of an even period that has no
    [coordinates] key. *)
Lemma shot_row_even_needs_coordinates self event row p :
  shot_row self event = Ok (Some row) ->
  period_of event = Ok p -> p mod 2 = 0 ->
  play_coordinates event <> None.
Proof.
  intros H Hp Heven.
  destruct (shot_row_inv _ _ _ H)
    as (etid & t & p' & pt & shooter & other &
        _ & _ & _ & Hp' & Hc & _).
  rewrite Hp in Hp'. injection Hp' as <-. auto.
Qed.

(** The [except] clause of the negation names [IndexError or TypeError],
    which is [IndexError]: the [TypeError] of [-None] is not caught. *)
Lemma negation_not_guarded :
  try_except (neg None) (or_class IndexError TypeError) (Ok None)
  = Raise TypeError.
Proof. reflexivity. Qed.

(** C6, on the code: a shot on goal of the second period without a
    [coordinates] key raises [TypeError] in the loop of [shotData], and the
    table is not built, although the event before it is a well-formed
    shot. *)
Theorem shotData_raises_without_coordinates api :
  event_type_id Sample.shot_without_coordinates = Ok "SHOT" /\
  period_of Sample.shot_without_coordinates = Ok 2 /\
  play_coordinates Sample.shot_without_coordinates = None /\
  shot_row (Sample.bos_nyr []) Sample.shot_without_coordinates
  = Raise TypeError /\
  (exists row,
      shot_row (Sample.bos_nyr []) Sample.first_period_shot
      = Ok (Some row)) /\
  fst (shotData api false
         (Sample.bos_nyr [Sample.first_period_shot;
                          Sample.shot_without_coordinates]))
  = Raise TypeError.
Proof.
  repeat split; try reflexivity.
  eexists. reflexivity.
Qed.

(** [shotData] never assigns the attribute it tests. *)
Lemma shotData_leaves_slot api updateLiveData self :
  _shotData (snd (shotData api updateLiveData self)) = _shotData self.
Proof.
  unfold shotData, getLiveData.
  destruct updateLiveData; cbn [negb].
  - destruct (api (game_id self) (_base_url self)); reflexivity.
  - destruct (_shotData self) eqn:E; [exact E | exact E].
Qed.

(** After [__init__] every call of [shotData] computes the table anew. *)
Lemma shotData_recomputes api gid g :
  Game_init api gid = Ok g ->
  shotData api false g = (shot_table g, g).
Proof.
  unfold Game_init. intros H. bind_inv H. injection H as <-.
  reflexivity.
Qed.

(** The first call of [makeDataFrames] stores the table and returns [None];
    the calls after it return the stored table. *)
Lemma makeDataFrames_stores api relabel self self' :
  makeDataFrames api relabel false self = (Ok None, self') ->
  exists df,
    event_table self = Ok df /\ _DataFrame self' = Some df /\
    forall relabel',
      makeDataFrames api relabel' false self' = (Ok (Some df), self').
Proof.
  unfold makeDataFrames. cbn [negb].
  destruct (_DataFrame self) as [stored|]; [intros [= ] |].
  destruct (event_table self) as [df|]; [| intros [= ]].
  intros [= <-]. exists df. repeat split.
Qed.

(** C9, on the code: after a call of [shotData] the attribute [_shotData]
    is still unset and the instance is as it was, so the next call computes
    the table again; the first call of [makeDataFrames] returns [None] and
    the second returns the table the first one stored. *)
Theorem shot_table_never_stored api :
  _shotData (Sample.bos_nyr [Sample.first_period_shot]) = None /\
  (exists df,
      fst (shotData api false (Sample.bos_nyr [Sample.first_period_shot]))
      = Ok df) /\
  snd (shotData api false (Sample.bos_nyr [Sample.first_period_shot]))
  = Sample.bos_nyr [Sample.first_period_shot] /\
  _shotData
    (snd (shotData api false (Sample.bos_nyr [Sample.first_period_shot])))
  = None /\
  fst (makeDataFrames api true false
         (Sample.bos_nyr [Sample.first_period_shot])) = Ok None /\
  (exists df,
      _DataFrame
        (snd (makeDataFrames api true false
                (Sample.bos_nyr [Sample.first_period_shot]))) = Some df /\
      fst (makeDataFrames api true false
             (snd (makeDataFrames api true false
                     (Sample.bos_nyr [Sample.first_period_shot]))))
      = Ok (Some df)).
Proof.
  split; [reflexivity |].
  split; [eexists; reflexivity |].
  split; [reflexivity |].
  split; [reflexivity |].
  split; [reflexivity |].
  eexists. split; reflexivity.
Qed.

(** ** Game.makeDataFrames *)

(** A play gives a row exactly when its type is in neither of the two
    sets the loop tests. *)
Lemma event_row_retained self play row :
  event_row self play = Ok row ->
  retained play = match row with Some _ => true | None => false end.
Proof.
  unfold event_row, retained. intros H.
  destruct (event_type play) as [ev|] eqn:Ev; [| discriminate H].
  cbn [bind] in H.
  destruct (str_in ev weird_events); [injection H as <-; reflexivity |].
  destruct (str_in ev other_events); [injection H as <-; reflexivity |].
  destruct row; [reflexivity |].
  exfalso. crack H.
  all: discriminate H.
Qed.

(** What a row of the event table holds, read off the play. *)
Lemma event_row_inv self play row :
  event_row self play = Ok (Some row) ->
  exists etid desc per ptr hg ag c en gw p,
    event_type_id play = Ok etid /\
    team_code play = Ok c /\
    read_flags play = Ok (en, gw) /\
    guarded_participants play en = Ok p /\
    row =
      [CStr (lower etid); opt_str (secondary_of play); opt_str (player_one p);
       opt_str (player_one_role p);
       opt_str (player_two p); opt_str (player_two_role p); coords_cell play;
       CInt per; CStr ptr; CStr c;
       CStr (if String.eqb (home self) c then away self else home self);
       CStr (home self); CInt (home_id self); CStr (away self);
       CInt (away_id self);
       CInt hg; CInt ag; opt_bool gw; opt_bool en;
       opt_int (player_one_id p); opt_int (player_two_id p);
       opt_str (game_id self); opt_str (winner self);
       CStr (date self); CStr desc].
Proof.
  unfold event_row, event_type, event_type_id, team_code, guarded_participants,
    coords_cell, secondary_of.
  intros H.
  destruct (play_result play) as [r|] eqn:Er; [| discriminate H].
  cbn [bind key] in H.
  destruct (result_event r) as [ev|]; [| discriminate H].
  cbn [bind key] in H.
  destruct (str_in ev weird_events); [discriminate H |].
  destruct (str_in ev other_events); [discriminate H |].
  crack H.
  all: injection H as <-.
  all: do 10 eexists; repeat split; try reflexivity; eassumption.
Qed.

(** The two flags are read together: both are kept or both are absent. *)
Lemma read_flags_ok play r :
  play_result play = Some r ->
  read_flags play =
    Ok (match result_emptyNet r, result_gameWinningGoal r with
        | Some en, Some gw => (Some en, Some gw)
        | _, _ => (None, None)
        end).
Proof.
  unfold read_flags. intros ->. cbn [bind key].
  destruct (result_emptyNet r), (result_gameWinningGoal r); reflexivity.
Qed.

Lemma read_flags_truthy play en gw :
  read_flags play = Ok (en, gw) ->
  truthy en = true <->
  exists r b, play_result play = Some r /\ result_emptyNet r = Some true /\
              result_gameWinningGoal r = Some b.
Proof.
  intros Hfl. destruct (play_result play) as [r|] eqn:Er.
  - rewrite (read_flags_ok play r Er) in Hfl. split.
    + intros Ht. exists r.
      destruct (result_emptyNet r) as [e|], (result_gameWinningGoal r) as [g|];
        injection Hfl as <- <-; try discriminate Ht.
      destruct e; [| discriminate Ht]. exists g. auto.
    + intros (r' & g & [= <-] & Ee & Eg). rewrite Ee, Eg in Hfl.
      injection Hfl as <- <-. reflexivity.
  - unfold read_flags in Hfl. rewrite Er in Hfl. cbn in Hfl.
    injection Hfl as <- <-. split; [discriminate |].
    intros (r & _ & [=] & _).
Qed.

(** With a [players] list that is not empty the guarded block returns:
    the only exception left in it is [KeyError]. *)
Lemma guarded_participants_ok play en :
  play_players play <> Some [] ->
  exists p, guarded_participants play en = Ok p.
Proof.
  unfold guarded_participants, read_participants, players_at. intros Hne.
  destruct (play_players play) as [[| x l]|]; [congruence | | cbn; eauto].
  cbn [bind key]. rewrite list_getitem_first, list_getitem_last.
  cbn [bind].
  repeat match goal with
         | |- context [key ?o] => destruct o; cbn [bind key try_except exn_eqb]
         | |- context [if ?b then _ else _] => destruct b
         end; cbn [bind key try_except exn_eqb]; eauto.
Qed.

Lemma guarded_participants_missing play en :
  play_players play = None ->
  guarded_participants play en = Ok no_participants.
Proof.
  unfold guarded_participants, read_participants, players_at.
  intros ->. reflexivity.
Qed.

(** The participants read from complete first and last entries. *)
Lemma read_participants_complete play en ps first last :
  play_players play = Some ps ->
  list_getitem ps 0 = Ok first -> list_getitem ps (-1) = Ok last ->
  complete first = true -> complete last = true ->
  read_participants play en =
    Ok (if truthy en
           || match name_of last, name_of first with
              | Some a, Some b => String.eqb a b
              | _, _ => false
              end
        then mkParticipants (name_of first) (id_of first)
                            (participant_playerType first) None None None
        else mkParticipants (name_of first) (id_of first)
                            (participant_playerType first)
                            (name_of last) (id_of last)
                            (participant_playerType last)).
Proof.
  unfold read_participants, players_at, complete, name_of, id_of.
  intros -> H0 H1 Hf Hl. cbn [bind key]. rewrite H0, H1. cbn [bind].
  destruct (participant_playerType first) eqn:E1; [| discriminate Hf].
  destruct (participant_player first) as [q|] eqn:E2; [| discriminate Hf].
  destruct (person_fullName q) eqn:E3; [| discriminate Hf].
  destruct (person_id q) eqn:E4; [| discriminate Hf].
  destruct (participant_playerType last) eqn:E5; [| discriminate Hl].
  destruct (participant_player last) as [q'|] eqn:E6; [| discriminate Hl].
  destruct (person_fullName q') eqn:E7; [| discriminate Hl].
  destruct (person_id q') eqn:E8; [| discriminate Hl].
  cbn [bind key]. rewrite ?E3, ?E4. cbn [bind key].
  destruct (truthy en); [reflexivity |].
  rewrite ?E7, ?E8. cbn [bind key orb].
  destruct (String.eqb _ _); [reflexivity |].
  rewrite ?E7, ?E8. reflexivity.
Qed.

(** A retained play with its unguarded fields gives a row. *)
Lemma event_row_total self play c :
  retained play = true -> unguarded_fields play = true ->
  team_code play = Ok c -> play_players play <> Some [] ->
  exists row, event_row self play = Ok (Some row).
Proof.
  unfold retained, unguarded_fields, team_code, event_row.
  intros Hr Hu Ht Hp.
  destruct (event_type play) as [ev|]; [| discriminate Hr].
  apply andb_prop in Hr as [Hw Ho].
  apply negb_true_iff in Hw, Ho. cbn [bind]. rewrite Hw, Ho.
  destruct (play_result play) as [r|] eqn:Er; [| discriminate Hu].
  destruct (play_about play) as [a|]; [| discriminate Hu].
  rewrite (read_flags_ok play r Er). cbn [bind key].
  destruct (result_eventTypeId r); [| discriminate Hu].
  destruct (result_description r); [| discriminate Hu].
  destruct (about_period a); [| discriminate Hu].
  destruct (about_periodTimeRemaining a); [| discriminate Hu].
  destruct (about_goals a) as [sc|]; [| discriminate Hu].
  cbn [bind key].
  destruct (score_home sc); [| discriminate Hu].
  destruct (score_away sc); [| discriminate Hu].
  cbn [bind key].
  match goal with
  | |- context [let '(_, _) := ?f in _] => generalize f; intros [en gw]
  end.
  destruct (guarded_participants_ok play en Hp) as [p Hg].
  unfold guarded_participants in Hg.
  destruct (play_coordinates play); cbn [bind key try_except exn_eqb];
    destruct (result_strength r) as [st|];
    cbn [bind key try_except exn_eqb];
    try destruct (strength_name st); cbn [bind key try_except exn_eqb];
    destruct (result_secondaryType r); cbn [bind key try_except exn_eqb];
    rewrite Hg; cbn [bind]; rewrite Ht; cbn [bind]; eauto.
Qed.

(** The guarded read of the two flags never raises. *)
Lemma read_flags_spec play : read_flags play = Ok (flags_of play).
Proof.
  unfold read_flags, flags_of.
  destruct (play_result play) as [r|]; [| reflexivity].
  cbn [bind key].
  destruct (result_emptyNet r), (result_gameWinningGoal r); reflexivity.
Qed.

Lemma last_cons {A} (x : A) (l : list A) : last (x :: l) x = last l x.
Proof. destruct l; reflexivity. Qed.

(** The guarded read of the participants, for a [players] list that is not
    empty: what is read when every key is there, all absent otherwise. *)
Lemma guarded_participants_spec play en :
  play_players play <> Some [] ->
  guarded_participants play en = Ok (participants_of play en).
Proof.
  unfold guarded_participants, read_participants, players_at,
    participants_of, name_of, id_of.
  intros Hne.
  destruct (play_players play) as [[| x l]|]; [congruence | | reflexivity].
  cbn [bind key]. rewrite list_getitem_first, list_getitem_last, last_cons.
  cbn [bind].
  destruct (participant_player x) as [q|]; [| reflexivity].
  cbn [bind key].
  destruct (person_fullName q) as [n1|]; [| reflexivity].
  destruct (person_id q) as [i1|]; [| reflexivity].
  destruct (participant_playerType x) as [r1|]; [| reflexivity].
  cbn [bind key try_except exn_eqb].
  destruct (truthy en); [reflexivity |].
  destruct (participant_player (last l x)) as [q'|]; [| reflexivity].
  cbn [bind key].
  destruct (person_fullName q') as [n2|]; [| reflexivity].
  cbn [bind key].
  destruct (String.eqb n2 n1); [reflexivity |].
  destruct (person_id q') as [i2|]; [| reflexivity].
  destruct (participant_playerType (last l x)) as [r2|]; reflexivity.
Qed.

(** A retained play with its unguarded fields gives the row [row_for]
    describes. *)
Lemma event_row_value self play :
  retained play = true -> guarded_only play = true ->
  exists row, event_row self play = Ok (Some row) /\ row_for self play row.
Proof.
  unfold retained, guarded_only, unguarded_fields, event_row.
  intros Hr Hg.
  apply andb_prop in Hg as [Hg Hp]. apply andb_prop in Hg as [Hu Ht].
  assert (Hne : play_players play <> Some [])
    by (intros E; rewrite E in Hp; discriminate Hp).
  destruct (team_code play) as [c|] eqn:Hc; [| discriminate Ht].
  destruct (event_type play) as [ev|]; [| discriminate Hr].
  apply andb_prop in Hr as [Hw Ho].
  apply negb_true_iff in Hw, Ho. cbn [bind]. rewrite Hw, Ho.
  rewrite read_flags_spec.
  destruct (play_result play) as [r|] eqn:Er; [| discriminate Hu].
  destruct (play_about play) as [a|] eqn:Ea; [| discriminate Hu].
  cbn [bind key].
  destruct (result_eventTypeId r) as [etid|] eqn:E1; [| discriminate Hu].
  destruct (result_description r) as [desc|] eqn:E2; [| discriminate Hu].
  destruct (about_period a) as [per|] eqn:E3; [| discriminate Hu].
  destruct (about_periodTimeRemaining a) as [ptr|] eqn:E4;
    [| discriminate Hu].
  destruct (about_goals a) as [sc|] eqn:E5; [| discriminate Hu].
  cbn [bind key].
  destruct (score_home sc) as [hg|] eqn:E6; [| discriminate Hu].
  destruct (score_away sc) as [ag|] eqn:E7; [| discriminate Hu].
  cbn [bind key].
  assert (Hrow : forall row, row_for self play row <->
    row =
      (let flags := flags_of play in
       let p := participants_of play (fst flags) in
       [CStr (lower etid); opt_str (secondary_of play);
        opt_str (player_one p); opt_str (player_one_role p);
        opt_str (player_two p); opt_str (player_two_role p);
        coords_cell play; CInt per; CStr ptr; CStr c;
        CStr (if String.eqb (home self) c then away self else home self);
        CStr (home self); CInt (home_id self); CStr (away self);
        CInt (away_id self);
        CInt hg; CInt ag; opt_bool (snd flags); opt_bool (fst flags);
        opt_int (player_one_id p); opt_int (player_two_id p);
        opt_str (game_id self); opt_str (winner self);
        CStr (date self); CStr desc])).
  { intros row. unfold row_for. rewrite Er, Ea, Hc. split.
    - intros (r' & a' & s' & etid' & desc' & per' & ptr' & hg' & ag' & c' &
              [= <-] & H1 & H2 & [= <-] & H3 & H4 & H5 & H6 & H7 &
              [= <-] & ->).
      rewrite E5 in H5. injection H5 as <-.
      congruence.
    - intros ->. exists r, a, sc, etid, desc, per, ptr, hg, ag, c.
      repeat split; assumption. }
  destruct (flags_of play) as [en gw] eqn:Efl.
  cbn [bind fst snd] in *.
  pose proof (guarded_participants_spec play en Hne) as Hgp.
  unfold guarded_participants in Hgp.
  unfold team_code in Hc. unfold coords_cell, secondary_of in Hrow.
  rewrite Er in Hrow.
  destruct (play_coordinates play); cbn [bind key try_except exn_eqb];
    destruct (result_strength r) as [st|];
    cbn [bind key try_except exn_eqb];
    try destruct (strength_name st); cbn [bind key try_except exn_eqb];
    destruct (result_secondaryType r); cbn [bind key try_except exn_eqb];
    rewrite Hgp; cbn [bind]; rewrite Hc; cbn [bind];
    (eexists; split; [reflexivity | apply Hrow; reflexivity]).
Qed.

Lemma empty_players_raise play en :
  play_players play = Some [] ->
  guarded_participants play en = Raise IndexError.
Proof.
  unfold guarded_participants, read_participants, players_at.
  intros ->. reflexivity.
Qed.

Lemma event_row_needs self play row :
  event_row self play = Ok (Some row) ->
  retained play = true /\ guarded_only play = true.
Proof.
  intros H. split; [exact (event_row_retained _ _ _ H) |].
  destruct (event_row_inv _ _ _ H)
    as (etid & desc & per & ptr & hg & ag & c & en & gw & p &
        _ & Hc & _ & Hg & _).
  unfold guarded_only. rewrite Hc. cbn [raises negb].
  assert (Hp : match play_players play with
               | Some [] => false | _ => true end = true).
  { destruct (play_players play) as [[| x l]|] eqn:E; try reflexivity.
    rewrite (empty_players_raise play en E) in Hg. discriminate Hg. }
  rewrite Hp, !andb_true_r.
  clear - H. unfold event_row, unguarded_fields in *.
  destruct (event_type play) as [ev|]; [| discriminate H].
  cbn [bind] in H.
  destruct (str_in ev weird_events); [discriminate H |].
  destruct (str_in ev other_events); [discriminate H |].
  crack H.
  all: reflexivity.
Qed.

Lemma safe_play_row self play :
  safe_play play = true -> exists r, event_row self play = Ok r.
Proof.
  unfold safe_play. intros H.
  destruct (event_type play) as [ev|] eqn:Ev; [| discriminate H].
  destruct (retained play) eqn:Hr.
  - unfold guarded_only in H.
    apply andb_prop in H as [H Hp]. apply andb_prop in H as [Hu Ht].
    destruct (team_code play) as [c|] eqn:Hc; [| discriminate Ht].
    destruct (event_row_total self play c Hr Hu Hc) as [row ->]; eauto.
    intros E. rewrite E in Hp. discriminate Hp.
  - unfold retained in Hr. rewrite Ev in Hr.
    unfold event_row. rewrite Ev. cbn [bind].
    destruct (str_in ev weird_events); [eauto |].
    destruct (str_in ev other_events); [eauto | discriminate Hr].
Qed.

(** C2, as the code has it: the loop skips a play only when its type is in
    the ignorable or the reserved set; every other play, of a game-event
    type or of a type in none of the three sets, gets a row.  The rows of
    the event table are the rows of the plays whose type is in neither of
    the two sets, in order, so their number is the number of those plays. *)
Theorem event_table_keeps_unlisted api relabel self self' :
  makeDataFrames api relabel false self = (Ok None, self') ->
  exists df plays,
    _DataFrame self' = Some df /\ allPlays self = Ok plays /\
    Forall2 (fun play row => event_row self play = Ok (Some row))
            (filter retained plays) (rows df) /\
    length (rows df) = length (filter retained plays) /\
    (forall play, In play plays -> unknown_type play = true ->
                  exists row, event_row self play = Ok (Some row) /\ In row (rows df)).
Proof.
  unfold makeDataFrames. cbn [negb].
  destruct (_DataFrame self) as [stored|]; [intros [= ]|].
  destruct (event_table self) as [df|] eqn:Et; [| intros [= ]].
  intros [= <-]. exists df. cbn [_DataFrame set_tables].
  unfold event_table in Et.
  destruct (allPlays self) as [plays|]; [| discriminate Et].
  cbn [bind] in Et.
  destruct (collect (event_row self) plays) as [_data|] eqn:Hc;
    [| discriminate Et].
  cbn [bind] in Et. unfold pd_DataFrame in Et.
  destruct (forallb _ _); [| discriminate Et]. injection Et as <-.
  cbn [rows]. exists plays.
  assert (Hf : filter retained plays =
               filter (fun x => match event_row self x with
                                | Ok (Some _) => true | _ => false end) plays).
  { apply filter_ext_in. intros x Hx.
    destruct (collect_ok_each _ _ _ Hc x Hx) as [r Hr].
    rewrite (event_row_retained _ _ _ Hr), Hr. reflexivity. }
  pose proof (collect_rows _ _ _ Hc) as HF. rewrite <- Hf in HF.
  repeat split; auto.
  - symmetry. eapply Forall2_length; eauto.
  - intros play Hin Hu.
    assert (Hr : retained play = true).
    { unfold unknown_type in Hu. unfold retained.
      destruct (event_type play); [| discriminate Hu].
      apply andb_prop in Hu as [Hu _]. exact Hu. }
    assert (Hin' : In play (filter retained plays))
      by (apply filter_In; auto).
    clear - HF Hin'. induction HF; simpl in *; [easy |].
    destruct Hin' as [<- | Hin']; eauto.
    destruct (IHHF Hin') as (r & ? & ?); eauto.
Qed.

Lemma event_table_keeps_unlisted_witness :
  exists df,
    _DataFrame
      (snd (makeDataFrames
              (Sample.serve (Sample.game_feed "BOS" "NYR" 3 1 []))
              true false
              (Sample.bos_nyr [Sample.unlisted_play; Sample.stoppage;
                               Sample.first_period_shot]))) = Some df /\
    length (rows df) = 2%nat.
Proof.
  destruct (event_table_keeps_unlisted
              (Sample.serve (Sample.game_feed "BOS" "NYR" 3 1 []))
              true
              (Sample.bos_nyr [Sample.unlisted_play; Sample.stoppage;
                               Sample.first_period_shot])
              _ eq_refl)
    as (df & plays & Hdf & Hplays & _ & Hlen & _).
  exists df. split; [exact Hdf |].
  rewrite Hlen. injection Hplays as <-. reflexivity.
Defined.

(** C2, refuted: a play whose type is in none of the three sets is kept as
    a row of the event table, where the count of plays of a game-event type
    is zero; the same play without a team raises [KeyError]. *)
Lemma unlisted_type_is_kept :
  unknown_type Sample.unlisted_play = true /\
  length (filter game_event [Sample.unlisted_play]) = 0%nat /\
  (exists df,
      event_table (Sample.bos_nyr [Sample.unlisted_play]) = Ok df /\
      length (rows df) = 1%nat /\
      df_get df 0 "event" = Some (CStr "failed_shot_attempt")) /\
  unknown_type
    (Sample.full_play "Failed Shot Attempt" "FAILED_SHOT_ATTEMPT" 5
                      (None, None) None None None) = true /\
  event_table
    (Sample.bos_nyr
       [Sample.full_play "Failed Shot Attempt" "FAILED_SHOT_ATTEMPT" 5
                         (None, None) None None None])
  = Raise KeyError.
Proof.
  split; [reflexivity |]. split; [reflexivity |].
  split; [eexists; repeat split; reflexivity |].
  split; reflexivity.
Qed.

(** C3, as the code has it: when every retained play has the fields read
    outside any [try] (event type id, description, period, time remaining,
    score, team) and a [players] list that is not empty when the key is
    there, the event table is built with one row per retained play, and
    the row appended for each of them is the one [row_for] describes: the
    fields read outside a [try] and the attributes of the instance as they
    are, and each guarded field as it is or absent in its own cells.  A
    missing [coordinates] key gives [np.nan] in [coords]; a missing
    [emptyNet] or [gameWinningGoal] gives [None] in both flags; a missing
    [players] key, a first entry without name, id or role, and a last entry
    without a key that is read give [None] in all six participant cells. *)
Theorem guarded_fields_degrade :
  (forall self plays,
      allPlays self = Ok plays ->
      forallb safe_play plays = true ->
      (exists df,
          event_table self = Ok df /\
          length (rows df) = length (filter retained plays)) /\
      Forall (fun play =>
                exists row,
                  event_row self play = Ok (Some row) /\
                  row_for self play row)
             (filter retained plays)) /\
  (forall play en,
      (play_coordinates play = None -> coords_cell play = CNaN) /\
      (forall c, play_coordinates play = Some c ->
                 coords_cell play = CArr (values c)) /\
      (flag_missing play = true -> flags_of play = (None, None)) /\
      (forall r e g,
          play_result play = Some r -> result_emptyNet r = Some e ->
          result_gameWinningGoal r = Some g ->
          flags_of play = (Some e, Some g)) /\
      (play_players play = None ->
       participants_of play en = no_participants) /\
      (forall first rest,
          play_players play = Some (first :: rest) ->
          complete first = false ->
          participants_of play en = no_participants) /\
      (forall first rest,
          play_players play = Some (first :: rest) ->
          truthy en = false -> name_of (last rest first) = None ->
          participants_of play en = no_participants) /\
      (forall first rest,
          play_players play = Some (first :: rest) ->
          truthy en = false ->
          name_of (last rest first) <> name_of first ->
          complete (last rest first) = false ->
          participants_of play en = no_participants)).
Proof.
  split.
  - intros self plays Hp Hs.
    rewrite forallb_forall in Hs.
    destruct (collect_total (event_row self) plays) as [_data Hc].
    { intros x Hx. apply safe_play_row. auto. }
    pose proof (collect_rows _ _ _ Hc) as HF.
    assert (Hf : filter retained plays =
                 filter (fun x => match event_row self x with
                                  | Ok (Some _) => true | _ => false end)
                        plays).
    { apply filter_ext_in. intros x Hx.
      destruct (collect_ok_each _ _ _ Hc x Hx) as [r Hr].
      rewrite (event_row_retained _ _ _ Hr), Hr. reflexivity. }
    rewrite <- Hf in HF.
    split.
    + unfold event_table. rewrite Hp. cbn [bind]. rewrite Hc. cbn [bind].
      assert (Hlen : forallb (fun r => Nat.eqb (length r) (length event_cols))
                             _data = true).
      { clear - HF. induction HF as [| play row ? ? Hrow _ IH];
          [reflexivity |].
        cbn [forallb]. rewrite IH.
        destruct (event_row_inv _ _ _ Hrow)
          as (? & ? & ? & ? & ? & ? & ? & ? & ? & ? & _ & _ & _ & _ & ->).
        reflexivity. }
      unfold pd_DataFrame. rewrite Hlen.
      eexists. split; [reflexivity |]. cbn [rows].
      symmetry. eapply Forall2_length. eassumption.
    + apply Forall_forall. intros play Hin.
      apply filter_In in Hin as [Hin Hr].
      specialize (Hs play Hin). unfold safe_play in Hs.
      destruct (event_type play); [| discriminate Hs].
      rewrite Hr in Hs. exact (event_row_value self play Hr Hs).
  - intros play en.
    split; [intros E; unfold coords_cell; rewrite E; reflexivity |].
    split; [intros c E; unfold coords_cell; rewrite E; reflexivity |].
    split.
    { unfold flag_missing, flags_of.
      destruct (play_result play) as [r|]; [| reflexivity].
      destruct (result_emptyNet r), (result_gameWinningGoal r);
        try reflexivity; discriminate. }
    split.
    { intros r e g Er Ee Eg. unfold flags_of. rewrite Er, Ee, Eg.
      reflexivity. }
    split; [intros E; unfold participants_of; rewrite E; reflexivity |].
    split.
    { intros first rest E Hc. unfold participants_of, complete, name_of, id_of
        in *. rewrite E.
      destruct (participant_player first) as [q|].
      - destruct (person_fullName q), (person_id q),
          (participant_playerType first);
          try reflexivity; discriminate Hc.
      - reflexivity. }
    split.
    { intros first rest E Ht Hn. unfold participants_of. rewrite E, Ht, Hn.
      destruct (name_of first), (id_of first),
        (participant_playerType first); reflexivity. }
    intros first rest E Ht Hn Hc. unfold participants_of. rewrite E, Ht.
    destruct (name_of first) as [n1|] eqn:E1; [| reflexivity].
    destruct (id_of first), (participant_playerType first);
      try reflexivity.
    destruct (name_of (last rest first)) as [n2|] eqn:E2; [| reflexivity].
    destruct (String.eqb_spec n2 n1) as [-> | _]; [congruence |].
    unfold complete, name_of, id_of in *.
    destruct (participant_player (last rest first)) as [q|];
      [| discriminate E2].
    rewrite E2 in Hc.
    destruct (person_id q), (participant_playerType (last rest first));
      try reflexivity; discriminate Hc.
Qed.

Lemma guarded_fields_degrade_witness :
  (exists df,
      event_table
        (Sample.bos_nyr
           [Sample.stoppage; Fixture.bare_hit; Sample.hit_without_id])
      = Ok df /\
      length (rows df) = 2%nat) /\
  (exists row,
      event_row (Sample.bos_nyr []) Fixture.bare_hit = Ok (Some row) /\
      row_get event_cols row "event" = Some (CStr "hit") /\
      row_get event_cols row "coords" = Some CNaN /\
      row_get event_cols row "player_one" = Some CNone /\
      row_get event_cols row "player_one_id" = Some CNone /\
      row_get event_cols row "empty_net" = Some CNone /\
      row_get event_cols row "home_goals" = Some (CInt 1) /\
      row_get event_cols row "away_goals" = Some (CInt 0)) /\
  (exists row,
      event_row (Sample.bos_nyr []) Sample.hit_without_id = Ok (Some row) /\
      name_of (Sample.named "Hitter" "A" 8470000) = Some "A" /\
      row_get event_cols row "coords" = Some (CArr [3; 4]) /\
      row_get event_cols row "player_one" = Some CNone /\
      row_get event_cols row "player_one_role" = Some CNone /\
      row_get event_cols row "player_two" = Some CNone /\
      row_get event_cols row "player_two_id" = Some CNone).
Proof.
  destruct (proj1 guarded_fields_degrade
              (Sample.bos_nyr
                 [Sample.stoppage; Fixture.bare_hit; Sample.hit_without_id])
              _ eq_refl eq_refl)
    as [(df & Hdf & Hlen) Hall].
  split; [exists df; split; [exact Hdf | exact Hlen] |].
  rewrite Forall_forall in Hall.
  split.
  - destruct (Hall Fixture.bare_hit ltac:(simpl; tauto))
      as (row & Hrow & r & a & s & etid & desc & per & ptr & hg & ag & c &
          Hr & H1 & H2 & Ha & H3 & H4 & H5 & H6 & H7 & Hc & Hcells).
    exists row. split; [exact Hrow |].
    injection Hr as <-. injection Ha as <-.
    injection H1 as <-. injection H5 as <-.
    injection H6 as <-. injection H7 as <-.
    subst row. repeat split; reflexivity.
  - destruct (Hall Sample.hit_without_id ltac:(simpl; tauto))
      as (row & Hrow & r & a & s & etid & desc & per & ptr & hg & ag & c &
          Hr & H1 & H2 & Ha & H3 & H4 & H5 & H6 & H7 & Hc & Hcells).
    exists row. split; [exact Hrow |].
    subst row. repeat split; reflexivity.
Defined.

(** C3, refuted: a hit with every field but [team] raises [KeyError] in
    the loop, so no table is built for a game that has it, and no attribute
    is set; a faceoff whose [players] list is empty raises [IndexError]. *)
Lemma missing_team_aborts :
  retained Sample.hit_without_team = true /\
  unguarded_fields Sample.hit_without_team = true /\
  play_team Sample.hit_without_team = None /\
  event_row (Sample.bos_nyr []) Sample.hit_without_team = Raise KeyError /\
  (exists row,
      event_row (Sample.bos_nyr []) Sample.first_period_shot
      = Ok (Some row)) /\
  makeDataFrames (Sample.serve (Sample.game_feed "BOS" "NYR" 3 1 []))
                 true false
                 (Sample.bos_nyr [Sample.first_period_shot;
                                  Sample.hit_without_team])
  = (Raise KeyError,
     Sample.bos_nyr [Sample.first_period_shot; Sample.hit_without_team]) /\
  retained Sample.faceoff_without_players = true /\
  play_players Sample.faceoff_without_players = Some [] /\
  event_row (Sample.bos_nyr []) Sample.faceoff_without_players
  = Raise IndexError.
Proof.
  repeat split; try reflexivity.
  eexists. reflexivity.
Qed.

(** C7, as the code has it: a retained play with its unguarded fields whose
    first and last participant entries have name, id and role gets a row;
    the primary participant is the first entry; the secondary participant
    is absent when the flag the row carries is set, which is when the
    result has [emptyNet] true and has a [gameWinningGoal] key as well, or
    when the last entry has the name of the first; otherwise it is the last
    entry. *)
Theorem participants_first_and_last self play ps first last :
  retained play = true -> guarded_only play = true ->
  play_players play = Some ps ->
  list_getitem ps 0 = Ok first -> list_getitem ps (-1) = Ok last ->
  complete first = true -> complete last = true ->
  exists row en gw,
    event_row self play = Ok (Some row) /\
    read_flags play = Ok (en, gw) /\
    let col := row_get event_cols row in
    col "empty_net" = Some (opt_bool en) /\
    (truthy en = true <->
     exists r b, play_result play = Some r /\ result_emptyNet r = Some true /\
                 result_gameWinningGoal r = Some b) /\
    col "player_one" = Some (opt_str (name_of first)) /\
    col "player_one_id" = Some (opt_int (id_of first)) /\
    col "player_one_role" = Some (opt_str (participant_playerType first)) /\
    (truthy en = true \/ name_of last = name_of first ->
     col "player_two" = Some CNone /\ col "player_two_id" = Some CNone /\
     col "player_two_role" = Some CNone) /\
    (truthy en = false -> name_of last <> name_of first ->
     col "player_two" = Some (opt_str (name_of last)) /\
     col "player_two_id" = Some (opt_int (id_of last)) /\
     col "player_two_role" = Some (opt_str (participant_playerType last))).
Proof.
  intros Hr Hg Hps H0 H1 Hf Hl.
  destruct (event_row_value self play Hr Hg) as (row & H & _).
  destruct (event_row_inv _ _ _ H)
    as (etid & desc & per & ptr & hg & ag & c & en & gw & p &
        He & Hc & Hfl & Hgp & ->).
  eexists. exists en, gw. split; [exact H |]. split; [exact Hfl |].
  cbn zeta.
  unfold guarded_participants in Hgp.
  rewrite (read_participants_complete play en ps first last Hps H0 H1 Hf Hl)
    in Hgp.
  cbn [try_except] in Hgp. injection Hgp as <-.
  assert (Hnames : exists a b, name_of first = Some a /\ name_of last = Some b).
  { unfold complete, name_of in *.
    destruct (participant_playerType first); [| discriminate Hf].
    destruct (participant_player first) as [q|]; [| discriminate Hf].
    destruct (person_fullName q); [| discriminate Hf].
    destruct (participant_playerType last); [| discriminate Hl].
    destruct (participant_player last) as [q'|]; [| discriminate Hl].
    destruct (person_fullName q'); [| discriminate Hl]. eauto. }
  destruct Hnames as (a & b & Ha & Hb). rewrite Ha, Hb.
  split; [reflexivity |].
  split; [exact (read_flags_truthy play en gw Hfl) |].
  do 3 (split; [destruct (truthy en || String.eqb b a); reflexivity |]).
  destruct (truthy en) eqn:Ht; cbn [orb].
  - split; [intros _; repeat split; reflexivity | intros [=]].
  - destruct (String.eqb b a) eqn:Hab.
    + apply String.eqb_eq in Hab. subst b.
      split; [intros _; repeat split; reflexivity | congruence].
    + apply String.eqb_neq in Hab.
      split; [intros [[=] | Hx]; congruence |].
      intros _ _. repeat split; reflexivity.
Qed.

Lemma participants_first_and_last_witness :
  (exists row,
      event_row (Sample.bos_nyr []) Fixture.hit = Ok (Some row) /\
      row_get event_cols row "player_one" = Some (CStr "B") /\
      row_get event_cols row "player_one_id" = Some (CInt 8470001) /\
      row_get event_cols row "player_one_role" = Some (CStr "Hitter") /\
      row_get event_cols row "player_two" = Some (CStr "A") /\
      row_get event_cols row "player_two_id" = Some (CInt 8470000) /\
      row_get event_cols row "player_two_role" = Some (CStr "Hittee")) /\
  (exists row,
      event_row (Sample.bos_nyr []) Sample.empty_net_goal = Ok (Some row) /\
      row_get event_cols row "empty_net" = Some (CBool true) /\
      row_get event_cols row "player_one" = Some (CStr "A") /\
      row_get event_cols row "player_two" = Some CNone /\
      row_get event_cols row "player_two_id" = Some CNone /\
      row_get event_cols row "player_two_role" = Some CNone).
Proof.
  split.
  - destruct (participants_first_and_last
                (Sample.bos_nyr []) Fixture.hit _
                (Sample.named "Hitter" "B" 8470001)
                (Sample.named "Hittee" "A" 8470000)
                eq_refl eq_refl eq_refl eq_refl eq_refl eq_refl eq_refl)
      as (row & en & gw & Hrow & Hfl & W).
    exists row. split; [exact Hrow |].
    injection Hfl as <- <-. cbn zeta in W.
    destruct W as (_ & _ & H1 & H2 & H3 & _ & Hlast).
    destruct (Hlast eq_refl ltac:(discriminate)) as (Ha & Hb & Hc).
    repeat split; assumption.
  - destruct (participants_first_and_last
                (Sample.bos_nyr []) Sample.empty_net_goal
                Sample.scorer_and_goalie
                (Sample.named "Scorer" "A" 8470000)
                (Sample.named "Goalie" "B" 8470001)
                eq_refl eq_refl eq_refl eq_refl eq_refl eq_refl eq_refl)
      as (row & en & gw & Hrow & Hfl & W).
    exists row. split; [exact Hrow |].
    injection Hfl as <- <-. cbn zeta in W.
    destruct W as (He & _ & H1 & _ & _ & H2 & _).
    destruct (H2 (or_introl eq_refl)) as (Ha & Hb & Hc).
    repeat split; assumption.
Defined.

(** C7, refuted: a goal whose result has [emptyNet] true and no
    [gameWinningGoal] key keeps its last participant as the secondary one,
    and the flag of its row is absent. *)
Lemma one_flag_keeps_secondary :
  exists r row,
    play_result Sample.goal_with_one_flag = Some r /\
    result_emptyNet r = Some true /\
    result_gameWinningGoal r = None /\
    play_players Sample.goal_with_one_flag = Some Sample.scorer_and_goalie /\
    event_row (Sample.bos_nyr []) Sample.goal_with_one_flag
    = Ok (Some row) /\
    row_get event_cols row "empty_net" = Some CNone /\
    row_get event_cols row "player_one" = Some (CStr "A") /\
    row_get event_cols row "player_two" = Some (CStr "B") /\
    row_get event_cols row "player_two" <> Some CNone.
Proof.
  eexists. eexists. split; [reflexivity |].
  repeat split; try reflexivity. discriminate.
Qed.

(** ** Team.__init__ *)

(** The decimal form of every code of the table has at most two
    characters. *)
Lemma team_codes_short :
  forall code, In code (values Team._team_map) ->
               (String.length (str code) <= 2)%nat.
Proof.
  assert (H : forallb (fun code => (String.length (str code) <=? 2)%nat)
                      (values Team._team_map) = true) by reflexivity.
  rewrite forallb_forall in H.
  intros code Hin. apply Nat.leb_le. auto.
Qed.

(** C10: for a string argument of at most two characters, the default
    ["10"] and the decimal form of every code of the table among them,
    neither branch of the conversion assigns [self.team_id] and the
    constructor raises [AttributeError] where it reads the attribute for
    the roster request, whatever the API would answer; the attribute is
    assigned only for an int and for a string of more than two
    characters. *)
Theorem short_team_id_never_assigned
  (api : string -> option string -> string -> res (list Team.roster_entry)) :
  (forall s season,
      (String.length s <= 2)%nat ->
      Team.convert_team_id (IdStr s) = Ok None /\
      Team.__init__ api (IdStr s) season = Raise AttributeError) /\
  (forall season,
      Team.__init__ api Team.default_team_id season = Raise AttributeError) /\
  (forall code season,
      In code (values Team._team_map) ->
      Team.__init__ api (IdStr (str code)) season = Raise AttributeError) /\
  (forall a v,
      Team.convert_team_id a = Ok (Some v) ->
      (exists n, a = IdInt n /\ v = str n) \/
      (exists s code, a = IdStr s /\ (2 < String.length s)%nat /\
                      dict_get Team._team_map (lower s) = Ok code /\
                      v = str code)).
Proof.
  assert (Hshort : forall s season,
             (String.length s <= 2)%nat ->
             Team.convert_team_id (IdStr s) = Ok None /\
             Team.__init__ api (IdStr s) season = Raise AttributeError).
  { intros s season Hlen.
    assert (Hc : Team.convert_team_id (IdStr s) = Ok None).
    { unfold Team.convert_team_id.
      replace (2 <? String.length s)%nat with false
        by (symmetry; apply Nat.ltb_ge; exact Hlen).
      reflexivity. }
    split; [exact Hc |].
    unfold Team.__init__. rewrite Hc. reflexivity. }
  split; [exact Hshort |].
  split; [intros season; apply Hshort; simpl; lia |].
  split; [intros code season Hin; apply Hshort, team_codes_short, Hin |].
  intros [n | s] v H; cbn [Team.convert_team_id] in H.
  - injection H as <-. left. eauto.
  - destruct (2 <? String.length s)%nat eqn:Hlen; [| discriminate H].
    destruct (dict_get Team._team_map (lower s)) as [code|] eqn:Hd;
      [| discriminate H].
    cbn [bind] in H. injection H as <-.
    right. exists s, code. apply Nat.ltb_lt in Hlen. auto.
Qed.

Lemma short_team_id_never_assigned_witness :
  Team.convert_team_id (IdStr "10") = Ok None /\
  Team.__init__ (fun _ _ _ => Ok []) (IdStr "10") None
  = Raise AttributeError /\
  Team.__init__ (fun _ _ _ => Ok []) (IdStr (str 6)) None
  = Raise AttributeError /\
  ((exists n, IdStr "bos" = IdInt n /\ "6" = str n) \/
   (exists s code, IdStr "bos" = IdStr s /\ (2 < String.length s)%nat /\
                   dict_get Team._team_map (lower s) = Ok code /\
                   "6" = str code)).
Proof.
  pose proof (short_team_id_never_assigned (fun _ _ _ => Ok [])) as W.
  destruct W as (Hs & _ & Hc & Hconv).
  destruct (Hs "10" None ltac:(simpl; lia)) as [H1 H2].
  split; [exact H1 |]. split; [exact H2 |].
  split.
  - apply (Hc 6 None). vm_compute. tauto.
  - apply (Hconv (IdStr "bos") "6"). reflexivity.
Defined.

(** The conversions the docstring of [Team] describes, where they are
    made. *)
Example team_id_conversions :
  Team.convert_team_id (IdStr "bos") = Ok (Some "6") /\
  Team.convert_team_id (IdStr "Toronto Maple Leafs") = Ok (Some "10") /\
  Team.convert_team_id (IdInt 6) = Ok (Some "6") /\
  Team.convert_team_id (IdStr "6") = Ok None /\
  Team.convert_team_id (IdStr "100") = Raise KeyError.
Proof. repeat split; reflexivity. Qed.

(** * Further properties *)

(** ** The constructor of Game *)

Lemma dict_get_own_key {V} (d : list (string * V)) k :
  In k (keys d) -> exists v, dict_get d k = Ok v.
Proof.
  induction d as [| [k' v'] d IH]; simpl; [easy |].
  intros [-> | Hin].
  - rewrite String.eqb_refl. eauto.
  - destruct (String.eqb k' k); eauto.
Qed.

(** The loop over the statistics returns when every key is in both dicts,
    and then appends the values it finds under the keys. *)
Lemma stats_loop_total teams hs aws stats :
  skater_stats teams box_home = Ok hs ->
  skater_stats teams box_away = Ok aws ->
  (forall k, In k stats -> exists v, dict_get hs k = Ok v) ->
  forallb (fun stat => negb (raises (dict_get aws stat))) stats = true ->
  forall _home _away,
    stats_loop teams stats _home _away =
      Ok (_home ++ interleave (map (dict_value hs) stats)
                              (map (dict_value aws) stats),
          _away ++ interleave (map (dict_value aws) stats)
                              (map (dict_value hs) stats)).
Proof.
  intros Hh Ha. induction stats as [| stat rest IH]; intros Hk Hf _home _away.
  - simpl. now rewrite !app_nil_r.
  - cbn [stats_loop]. rewrite Hh, Ha. cbn [bind].
    destruct (Hk stat (or_introl eq_refl)) as [hv Hhv].
    cbn [forallb] in Hf. apply andb_prop in Hf as [Hs Hf].
    destruct (dict_get aws stat) as [av|] eqn:Hav; [| discriminate Hs].
    rewrite Hhv. cbn [bind].
    rewrite IH by (auto; intros; apply Hk; right; assumption).
    assert (Eh : dict_value hs stat = hv) by (unfold dict_value; now rewrite Hhv).
    assert (Ea : dict_value aws stat = av) by (unfold dict_value; now rewrite Hav).
    cbn [map interleave]. rewrite Eh, Ea, <- !app_assoc. reflexivity.
Qed.

Lemma stats_loop_keys teams stats :
  forall _home _away h a,
    stats_loop teams stats _home _away = Ok (h, a) ->
    stats = [] \/
    exists hs aws,
      skater_stats teams box_home = Ok hs /\
      skater_stats teams box_away = Ok aws /\
      (forall k, In k stats -> exists v, dict_get hs k = Ok v) /\
      forallb (fun stat => negb (raises (dict_get aws stat))) stats = true.
Proof.
  induction stats as [| stat rest IH]; intros _home _away h a H; [auto |].
  right. cbn [stats_loop] in H.
  destruct (skater_stats teams box_home) as [hs|]; [| discriminate H].
  destruct (skater_stats teams box_away) as [aws|];
    [| cbn in H; destruct (dict_get hs stat); discriminate H].
  cbn [bind] in H.
  destruct (dict_get hs stat) as [hv|] eqn:Hhv; [| discriminate H].
  cbn [bind] in H.
  destruct (dict_get aws stat) as [av|] eqn:Hav; [| discriminate H].
  cbn [bind] in H.
  exists hs, aws. split; [reflexivity |]. split; [reflexivity |].
  destruct (IH _ _ _ _ H) as [-> | (hs' & aws' & [= <-] & [= <-] & Hk & Hf)].
  - split; [intros k [<- | []]; eauto |]. cbn. rewrite Hav. reflexivity.
  - split; [intros k [<- | Hin]; eauto |].
    cbn [forallb]. rewrite Hav, Hf. reflexivity.
Qed.

Lemma keys_length {V} (d : list (string * V)) : length (keys d) = length d.
Proof. apply length_map. Qed.

(** The constructor on a feed that has what it reads. *)
Lemma Game_init_on_feed api gid d :
  api (option_map str_of_id gid) "https://statsapi.web.nhl.com/api/v1" = Ok d ->
  feed_ok d = true ->
  exists teams home away home_id away_id goals date hs aws,
    boxscore_teams_of d = Ok teams /\
    side_code teams box_home = Ok home /\
    side_code teams box_away = Ok away /\
    side_id teams box_home = Ok home_id /\
    side_id teams box_away = Ok away_id /\
    line_total d line_home = Ok goals /\
    current_date d = Ok date /\
    skater_stats teams box_home = Ok hs /\
    skater_stats teams box_away = Ok aws /\
    length hs = 11%nat /\
    Game_init api gid =
      Ok (built (option_map str_of_id gid) d home away home_id away_id
                goals date hs aws).
Proof.
  intros Hapi Hok. unfold feed_ok in Hok.
  destruct (boxscore_teams_of d) as [teams|] eqn:Ht; [| discriminate Hok].
  apply andb_prop in Hok as [Hok Hstats].
  apply andb_prop in Hok as [Hok Hdate].
  apply andb_prop in Hok as [Hok Hgoals].
  apply andb_prop in Hok as [Hhome Haway].
  unfold team_ref_ok in Hhome, Haway.
  destruct (box_home teams) as [th|] eqn:Eh; [| discriminate Hhome].
  destruct (box_team_ref th) as [rh|] eqn:Erh; [| discriminate Hhome].
  destruct (team_triCode rh) as [home|] eqn:Ech; [| discriminate Hhome].
  destruct (team_id rh) as [hid|] eqn:Eih; [| discriminate Hhome].
  destruct (box_away teams) as [ta|] eqn:Ea; [| discriminate Haway].
  destruct (box_team_ref ta) as [ra|] eqn:Era; [| discriminate Haway].
  destruct (team_triCode ra) as [away|] eqn:Eca; [| discriminate Haway].
  destruct (team_id ra) as [aid|] eqn:Eia; [| discriminate Haway].
  destruct (line_total d line_home) as [goals|] eqn:Eg; [| discriminate Hgoals].
  destruct (current_date d) as [date|] eqn:Ed; [| discriminate Hdate].
  destruct (skater_stats teams box_home) as [hs|] eqn:Ehs;
    [| discriminate Hstats].
  destruct (skater_stats teams box_away) as [aws|] eqn:Eas;
    [| discriminate Hstats].
  apply andb_prop in Hstats as [Hlen Hall].
  apply Nat.eqb_eq in Hlen.
  exists teams, home, away, hid, aid, goals, date, hs, aws.
  unfold side_code, side_id. rewrite Eh, Ea. cbn [bind key].
  rewrite Erh, Era. cbn [bind key]. rewrite Ech, Eca, Eih, Eia.
  repeat (split; [reflexivity || assumption |]).
  unfold Game_init. rewrite Hapi. cbn [bind]. rewrite Ht. cbn [bind].
  rewrite Eh, Ea. cbn [bind key]. rewrite Erh, Era. cbn [bind key].
  rewrite Ech, Eca, Eih, Eia. cbn [bind key].
  unfold line_total in Eg. rewrite Eg. cbn [bind].
  unfold current_date in Ed.
  destruct (feed_plays d) as [p|]; [| discriminate Ed].
  cbn [bind key] in *.
  destruct (plays_currentPlay p) as [c|]; [| discriminate Ed].
  cbn [bind key] in *.
  destruct (play_about c) as [a|]; [| discriminate Ed].
  cbn [bind key] in *.
  destruct (about_dateTime a) as [dt|]; [| discriminate Ed].
  cbn [bind key] in *. injection Ed as <-.
  rewrite Ehs. cbn [bind].
  rewrite (stats_loop_total teams hs aws (keys hs) Ehs Eas
             (fun k Hk => dict_get_own_key hs k Hk) Hall).
  cbn [bind]. unfold pd_DataFrame.
  cbn [forallb]. rewrite !length_app, !interleave_length,
    !length_map, keys_length, Hlen by (rewrite !length_map; reflexivity).
  cbn. rewrite Z.gtb_ltb, Z.ltb_irrefl. cbn. rewrite String.eqb_refl.
  reflexivity.
Qed.

Lemma Game_init_needs_feed api gid g :
  Game_init api gid = Ok g ->
  exists d,
    api (option_map str_of_id gid) "https://statsapi.web.nhl.com/api/v1"
    = Ok d /\ feed_ok d = true.
Proof.
  unfold Game_init. intros H. bind_inv H.
  exists a. split; [reflexivity |].
  unfold feed_ok. rewrite E0. unfold team_ref_ok.
  destruct (box_home a0) as [th|]; [| discriminate E1].
  destruct (box_away a0) as [ta|]; [| discriminate E2].
  cbn [key] in E1, E2. injection E1 as <-. injection E2 as <-.
  destruct (box_team_ref th) as [rh|]; [| discriminate E3].
  destruct (box_team_ref ta) as [ra|]; [| discriminate E4].
  cbn [bind key] in E3, E4, E5, E6.
  destruct (team_triCode rh); [| discriminate E3].
  destruct (team_triCode ra); [| discriminate E4].
  destruct (team_id rh); [| discriminate E5].
  destruct (team_id ra); [| discriminate E6].
  unfold line_total. rewrite E7.
  assert (Hd : exists day, current_date a = Ok day).
  { unfold current_date.
    destruct (feed_plays a) as [p|]; [| discriminate E8].
    cbn [bind key] in *. rewrite E8. cbn [bind]. rewrite E9. eauto. }
  destruct Hd as [day Hd]. rewrite Hd. cbn [has_key raises negb andb].
  rewrite E10.
  pose proof (stats_loop_interleave _ _ _ _ _ _ E11)
    as (fs & gs & Hf & Hg & -> & ->).
  unfold pd_DataFrame in E12.
  destruct (forallb _ _) eqn:Hlen in E12; [| discriminate E12].
  cbn [forallb] in Hlen. apply andb_prop in Hlen as [Hh _].
  apply Nat.eqb_eq in Hh. rewrite length_app, interleave_length in Hh
    by congruence.
  cbn in Hh. assert (Hn : length a10 = 11%nat)
    by (rewrite <- keys_length; lia).
  destruct (stats_loop_keys _ _ _ _ _ _ E11)
    as [Hnil | (hs & aws & Hhs & Has & _ & Hall)].
  - rewrite <- keys_length, Hnil in Hn. discriminate Hn.
  - rewrite Has. rewrite Hn. exact Hall.
Qed.

(** X1: the constructor returns exactly when the API returns a feed that
    has the two team references of the boxscore, the home goals of the
    linescore, the date of the current play, and eleven home skater
    statistics whose keys the away statistics have as well; neither the
    away goals of the linescore nor [allPlays] is needed. *)
Theorem Game_init_returns_iff api gid :
  (exists g, Game_init api gid = Ok g) <->
  (exists d,
      api (option_map str_of_id gid) "https://statsapi.web.nhl.com/api/v1"
      = Ok d /\ feed_ok d = true).
Proof.
  split.
  - intros [g H]. exact (Game_init_needs_feed api gid g H).
  - intros (d & Hd & Hok).
    destruct (Game_init_on_feed api gid d Hd Hok)
      as (teams & home & away & hid & aid & goals & date & hs & aws & H).
    eexists. apply H.
Qed.

Lemma Game_init_returns_iff_witness :
  line_total Fixture.bare_feed line_away = Raise KeyError /\
  exists g, Game_init (Sample.serve Fixture.bare_feed) Sample.gamePk = Ok g.
Proof.
  split; [reflexivity |].
  apply (proj2 (Game_init_returns_iff (Sample.serve Fixture.bare_feed)
                                      Sample.gamePk)).
  exists Fixture.bare_feed. split; reflexivity.
Defined.

Lemma Game_init_built api gid g :
  Game_init api gid = Ok g ->
  exists d teams home away home_id away_id goals date hs aws,
    api (option_map str_of_id gid) "https://statsapi.web.nhl.com/api/v1"
    = Ok d /\
    boxscore_teams_of d = Ok teams /\
    side_code teams box_home = Ok home /\
    side_code teams box_away = Ok away /\
    side_id teams box_home = Ok home_id /\
    side_id teams box_away = Ok away_id /\
    line_total d line_home = Ok goals /\
    current_date d = Ok date /\
    skater_stats teams box_home = Ok hs /\
    skater_stats teams box_away = Ok aws /\
    length hs = 11%nat /\
    g = built (option_map str_of_id gid) d home away home_id away_id
              goals date hs aws.
Proof.
  intros H.
  destruct (Game_init_needs_feed api gid g H) as (d & Hd & Hok).
  destruct (Game_init_on_feed api gid d Hd Hok)
    as (teams & home & away & hid & aid & goals & date & hs & aws &
        H1 & H2 & H3 & H4 & H5 & H6 & H7 & H8 & H9 & H10 & H11).
  rewrite H11 in H. injection H as <-.
  exists d, teams, home, away, hid, aid, goals, date, hs, aws.
  repeat (split; [assumption |]). reflexivity.
Qed.

(** X2: the statistics columns of the boxscore table are filled by position:
    the [k]-th pair of labels holds, in the home row, the home and the away
    value found under the [k]-th key of the home team's statistics, and in
    the away row the same two values swapped, whatever that key is. *)
Theorem boxscore_labels_by_position api gid g :
  Game_init api gid = Ok g ->
  exists teams hs aws,
    boxscore_teams_of (live_data g) = Ok teams /\
    skater_stats teams box_home = Ok hs /\
    skater_stats teams box_away = Ok aws /\
    length hs = length tracked_stats /\
    forall k S stat,
      nth_error tracked_stats k = Some S ->
      nth_error (keys hs) k = Some stat ->
      exists v w,
        dict_get hs stat = Ok v /\ dict_get aws stat = Ok w /\
        df_get (agg_stats g) 0 (S ++ "_for")%string = Some v /\
        df_get (agg_stats g) 0 (S ++ "_against")%string = Some w /\
        df_get (agg_stats g) 1 (S ++ "_for")%string = Some w /\
        df_get (agg_stats g) 1 (S ++ "_against")%string = Some v.
Proof.
  intros H.
  destruct (Game_init_needs_feed api gid g H) as (d0 & Hd0 & Hok).
  destruct (Game_init_built api gid g H)
    as (d & teams & home & away & hid & aid & goals & date & hs & aws &
        Hd & Ht & _ & _ & _ & _ & _ & _ & Hhs & Has & Hlen & ->).
  rewrite Hd in Hd0. injection Hd0 as <-.
  exists teams, hs, aws. cbn [live_data built agg_stats].
  repeat (split; [assumption |]).
  unfold feed_ok in Hok. rewrite Ht, Hhs, Has in Hok.
  apply andb_prop in Hok as [_ Hok]. apply andb_prop in Hok as [_ Hall].
  rewrite forallb_forall in Hall.
  intros k S stat HS Hstat.
  assert (Hin : In stat (keys hs)) by (eapply nth_error_In; eassumption).
  destruct (dict_get_own_key hs stat Hin) as [v Hv].
  specialize (Hall stat Hin).
  destruct (dict_get aws stat) as [w|] eqn:Hw; [| discriminate Hall].
  exists v, w. split; [exact Hv |]. split; [reflexivity |].
  assert (Ev : forall s, In s (keys hs) -> s = stat -> dict_value hs s = v)
    by (intros s _ ->; unfold dict_value; now rewrite Hv).
  assert (Ew : forall s, In s (keys hs) -> s = stat -> dict_value aws s = w)
    by (intros s _ ->; unfold dict_value; now rewrite Hw).
  clear Hall Hin Hv Hw Hhs Has Ht Hd H.
  unfold keys in *.
  do 12 (destruct hs as [| [? ?] hs]; try discriminate Hlen).
  cbn [map fst] in *.
  do 11 (destruct k as [| k];
         [ injection HS as <-; injection Hstat as ->;
           cbn; rewrite !Ev, !Ew by (simpl; tauto); repeat split
         | cbn [nth_error] in HS, Hstat ]).
  destruct k; discriminate HS.
Qed.

Lemma boxscore_labels_by_position_witness :
  nth_error (keys (Sample.skater_stats_of 3 31)) 1 = Some "pim" /\
  df_get (agg_stats (Sample.bos_nyr [])) 0 "penalty_minutes_for"
  = Some (CInt 62) /\
  df_get (agg_stats (Sample.bos_nyr [])) 1 "penalty_minutes_for"
  = Some (CInt 54).
Proof.
  destruct (boxscore_labels_by_position
              (Sample.serve (Sample.game_feed "BOS" "NYR" 3 1 []))
              Sample.gamePk (Sample.bos_nyr []) eq_refl)
    as (teams & hs & aws & Ht & Hhs & Has & _ & Hpos).
  cbn in Ht. injection Ht as <-.
  cbn in Hhs, Has. injection Hhs as <-. injection Has as <-.
  destruct (Hpos 1%nat "penalty_minutes" "pim" eq_refl eq_refl)
    as (v & w & Hv & Hw & H1 & _ & H3 & _).
  cbn in Hv, Hw. injection Hv as <-. injection Hw as <-.
  split; [reflexivity |]. split; [exact H1 | exact H3].
Defined.

(** X3: in the boxscore table the [win] cell of the away row is always
    [True], and that of the home row is [False] whenever the two codes
    differ, whatever the linescore; each row names the other team as its
    opponent. *)
Theorem boxscore_identity_columns api gid g :
  Game_init api gid = Ok g ->
  let t := agg_stats g in
  columns t = agg_cols /\
  df_get t 0 "date" = Some (CStr (date g)) /\
  df_get t 1 "date" = Some (CStr (date g)) /\
  df_get t 0 "team_id" = Some (CInt (home_id g)) /\
  df_get t 1 "team_id" = Some (CInt (away_id g)) /\
  df_get t 0 "opponent" = Some (CStr (away g)) /\
  df_get t 1 "opponent" = Some (CStr (home g)) /\
  df_get t 1 "win" = Some (CBool true) /\
  df_get t 0 "win" = Some (CBool (String.eqb (away g) (home g))) /\
  (home g <> away g -> df_get t 0 "win" = Some (CBool false)).
Proof.
  intros H.
  destruct (Game_init_built api gid g H)
    as (d & teams & home & away & hid & aid & goals & date & hs & aws &
        _ & _ & _ & _ & _ & _ & _ & _ & _ & _ & _ & ->).
  cbn. repeat split.
  intros Hne. destruct (String.eqb away home) eqn:E; [| reflexivity].
  apply String.eqb_eq in E. congruence.
Qed.

Lemma boxscore_identity_columns_witness :
  line_total (live_data (Sample.bos_nyr [])) line_home = Ok 3 /\
  line_total (live_data (Sample.bos_nyr [])) line_away = Ok 1 /\
  df_get (agg_stats (Sample.bos_nyr [])) 1 "win" = Some (CBool true) /\
  df_get (agg_stats (Sample.bos_nyr [])) 0 "win" = Some (CBool false).
Proof.
  pose proof (boxscore_identity_columns
                (Sample.serve (Sample.game_feed "BOS" "NYR" 3 1 []))
                Sample.gamePk (Sample.bos_nyr []) eq_refl) as W.
  cbn zeta in W.
  destruct W as (_ & _ & _ & _ & _ & _ & _ & Hw & _ & Hh).
  split; [reflexivity |]. split; [reflexivity |].
  split; [exact Hw | apply Hh; discriminate].
Defined.


(** ** The shot table *)

(** X4: a shot that has what [shotData] reads gets a row whose [shooter]
    cell is the name of the last participant typed [Shooter] or [Scorer]
    and whose [other] cell is the name of the last one typed [Goalie] or
    [Blocker]; participants of any other type, the assists of a goal among
    them, are left out, and a cell is [None] when no participant has its
    types. *)
Theorem shooter_is_last_tagged self event ps :
  is_shot event = true -> shot_ok event = true ->
  play_players event = Some ps ->
  exists row,
    shot_row self event = Ok (Some row) /\
    row_get shot_cols row "shooter"
    = Some (opt_str (last_tagged ["Shooter"; "Scorer"] ps)) /\
    row_get shot_cols row "other"
    = Some (opt_str (last_tagged ["Goalie"; "Blocker"] ps)) /\
    ((forall p, In p ps -> tagged ["Shooter"; "Scorer"] p = false) ->
     row_get shot_cols row "shooter" = Some CNone) /\
    ((forall p, In p ps -> tagged ["Goalie"; "Blocker"] p = false) ->
     row_get shot_cols row "other" = Some CNone).
Proof.
  intros Hs Hok Hps.
  destruct (shot_row_read self event Hs Hok)
    as (etid & t & p & pt & a & ps' & _ & _ & _ & _ & _ & _ & Hps' & _ & Hrow).
  rewrite Hps in Hps'. injection Hps' as <-.
  cbn zeta in Hrow. eexists. split; [exact Hrow |].
  assert (Hnone : forall tags,
             (forall q, In q ps -> tagged tags q = false) ->
             last_tagged tags ps = None).
  { intros tags Hno. unfold last_tagged.
    destruct (find (tagged tags) (rev ps)) as [q|] eqn:E; [| reflexivity].
    apply find_some in E as [Hin Hq].
    apply in_rev in Hin. rewrite (Hno q Hin) in Hq. discriminate Hq. }
  split; [reflexivity |]. split; [reflexivity |].
  split; intros Hno; cbn; rewrite (Hnone _ Hno); reflexivity.
Qed.

Lemma shooter_is_last_tagged_witness :
  (exists row,
      shot_row (Sample.bos_nyr []) Fixture.crowded_goal = Ok (Some row) /\
      row_get shot_cols row "shooter" = Some (CStr "C") /\
      row_get shot_cols row "other" = Some (CStr "E")) /\
  (exists row,
      shot_row (Sample.bos_nyr []) Fixture.missed_shot = Ok (Some row) /\
      row_get shot_cols row "shooter" = Some (CStr "A") /\
      row_get shot_cols row "other" = Some CNone).
Proof.
  split.
  - destruct (shooter_is_last_tagged (Sample.bos_nyr []) Fixture.crowded_goal
                                     _ eq_refl eq_refl eq_refl)
      as (row & Hrow & Hs & Ho & _).
    exists row. split; [exact Hrow |]. split; [exact Hs | exact Ho].
  - destruct (shooter_is_last_tagged (Sample.bos_nyr []) Fixture.missed_shot
                                     _ eq_refl eq_refl eq_refl)
      as (row & Hrow & Hs & _ & _ & Hnone).
    exists row. split; [exact Hrow |]. split; [exact Hs |].
    apply Hnone. intros p [<- | []]. reflexivity.
Defined.

(** X5: the loop of [shotData] appends a row for an event exactly when its
    type id is one of the four shot ids and it has a team code, a period, a
    period time, a players list whose entries have a type (and a name when
    the type is looked for), and coordinates when the period is even; it
    skips an event exactly when the event has a type id that is not a shot
    id, whatever else the event lacks. *)
Theorem shot_row_outcomes self event :
  ((exists row, shot_row self event = Ok (Some row)) <->
   is_shot event = true /\ shot_ok event = true) /\
  (shot_row self event = Ok None <->
   exists etid, event_type_id event = Ok etid /\
                str_in etid shotIDs = false).
Proof.
  split; split.
  - intros [row H]. exact (shot_row_needs _ _ _ H).
  - intros [Hs Hok]. exact (shot_row_enough self event Hs Hok).
  - apply shot_row_skips.
  - intros (etid & He & Hin). unfold shot_row.
    unfold event_type_id in He. rewrite He. cbn [bind]. rewrite Hin.
    reflexivity.
Qed.

Lemma shot_row_outcomes_witness :
  (exists row,
      shot_row (Sample.bos_nyr []) Sample.blocked_shot = Ok (Some row)) /\
  play_team Sample.stoppage = None /\
  shot_row (Sample.bos_nyr []) Sample.stoppage = Ok None.
Proof.
  split.
  - apply (proj2 (proj1 (shot_row_outcomes (Sample.bos_nyr [])
                                           Sample.blocked_shot))).
    split; reflexivity.
  - split; [reflexivity |].
    apply (proj2 (proj2 (shot_row_outcomes (Sample.bos_nyr [])
                                           Sample.stoppage))).
    exists "STOP". split; reflexivity.
Defined.

(** X6: when the shot table is built it has the nine shot columns and one
    row for each event whose type id is a shot id, in the order of the
    feed; every row has nine cells and its [result] cell is one of [shot],
    [missed], [blocked], [goal]. *)
Theorem shot_table_rows self df :
  shot_table self = Ok df ->
  exists plays,
    allPlays self = Ok plays /\
    columns df = shot_cols /\
    length (rows df) = length (filter is_shot plays) /\
    Forall2 (fun event row =>
               shot_row self event = Ok (Some row) /\
               length row = 9%nat /\
               exists kind,
                 row_get shot_cols row "result" = Some (CStr kind) /\
                 In kind ["shot"; "missed"; "blocked"; "goal"])
            (filter is_shot plays) (rows df).
Proof.
  unfold shot_table. intros H.
  destruct (allPlays self) as [plays|]; [| discriminate H].
  cbn [bind] in H.
  destruct (collect (shot_row self) plays) as [_data|] eqn:Hc;
    [| discriminate H].
  cbn [bind] in H. unfold pd_DataFrame in H.
  destruct (forallb _ _); [| discriminate H]. injection H as <-.
  exists plays. cbn [columns rows].
  assert (Hf : filter is_shot plays =
               filter (fun x => match shot_row self x with
                                | Ok (Some _) => true | _ => false end) plays).
  { apply filter_ext_in. intros x Hx.
    destruct (collect_ok_each _ _ _ Hc x Hx) as [[row|] Hr]; rewrite Hr.
    - apply (shot_row_needs _ _ _ Hr).
    - apply shot_row_skips in Hr as (etid & He & Hin).
      unfold is_shot. rewrite He. exact Hin. }
  pose proof (collect_rows _ _ _ Hc) as HF. rewrite <- Hf in HF.
  split; [reflexivity |]. split; [reflexivity |].
  split; [symmetry; eapply Forall2_length; eassumption |].
  clear - HF. induction HF as [| event row ? ? Hrow _ IH]; constructor; auto.
  split; [exact Hrow |].
  destruct (shot_row_inv _ _ _ Hrow)
    as (etid & t & p & pt & shooter & other & _ & Hin & _ & _ & _ & ->).
  split; [reflexivity |].
  exists (lower (split_head "_"%char etid)). split; [reflexivity |].
  destruct (shot_kind etid Hin) as [-> | [-> | [-> | ->]]]; simpl; tauto.
Qed.

Lemma shot_table_rows_witness :
  exists df,
    shot_table (Sample.bos_nyr Fixture.plays) = Ok df /\
    length (rows df) = 2%nat.
Proof.
  eexists. split; [reflexivity |].
  destruct (shot_table_rows (Sample.bos_nyr Fixture.plays) _ eq_refl)
    as (plays & Hp & _ & Hlen & _).
  rewrite Hlen. injection Hp as <-. reflexivity.
Defined.



(** X8: every row of the event table carries the two team codes and ids of
    the instance and its winner; its [player_two_team] is always one of the
    two teams of the game: the away team when the team of the play is the
    home team, and the home team otherwise, also when the team of the play
    is neither. *)
Theorem event_row_teams self play row :
  event_row self play = Ok (Some row) ->
  let col := row_get event_cols row in
  col "home_team" = Some (CStr (home self)) /\
  col "away_team" = Some (CStr (away self)) /\
  col "home_team_id" = Some (CInt (home_id self)) /\
  col "away_team_id" = Some (CInt (away_id self)) /\
  col "winning_team" = Some (opt_str (winner self)) /\
  (col "player_two_team" = Some (CStr (home self)) \/
   col "player_two_team" = Some (CStr (away self))) /\
  exists c,
    team_code play = Ok c /\
    col "player_one_team" = Some (CStr c) /\
    (c = home self -> col "player_two_team" = Some (CStr (away self))) /\
    (c <> home self -> col "player_two_team" = Some (CStr (home self))).
Proof.
  intros H.
  destruct (event_row_inv _ _ _ H)
    as (etid & desc & per & ptr & hg & ag & c & en & gw & p &
        _ & Hc & _ & _ & ->).
  cbn. repeat (split; [reflexivity |]).
  split; [destruct (String.eqb (home self) c); auto |].
  exists c. split; [exact Hc |]. split; [reflexivity |].
  split.
  - intros ->. rewrite String.eqb_refl. reflexivity.
  - intros Hne. destruct (String.eqb (home self) c) eqn:E; [| reflexivity].
    apply String.eqb_eq in E. congruence.
Qed.

Lemma event_row_teams_witness :
  exists row,
    event_row (Sample.bos_nyr []) Fixture.hit = Ok (Some row) /\
    row_get event_cols row "player_one_team" = Some (CStr "NYR") /\
    row_get event_cols row "player_two_team" = Some (CStr "BOS").
Proof.
  eexists. split; [reflexivity |].
  pose proof (event_row_teams (Sample.bos_nyr []) Fixture.hit _ eq_refl)
    as W.
  cbn zeta in W. destruct W as (_ & _ & _ & _ & _ & _ & c & Hc & H1 & _ & H2).
  injection Hc as <-. split; [exact H1 | apply H2; discriminate].
Defined.


(** ** The category tables *)

Lemma pd_DataFrame_shape data cols df :
  pd_DataFrame data cols = Ok df ->
  columns df = cols /\ rows df = data /\ rectangular df.
Proof.
  unfold pd_DataFrame, rectangular.
  destruct (forallb _ _) eqn:H; [| discriminate].
  intros [= <-]. cbn. repeat split.
  rewrite forallb_forall in H. apply Forall_forall.
  intros row Hin. apply Nat.eqb_eq, H, Hin.
Qed.

Lemma event_table_shape self df :
  event_table self = Ok df -> columns df = event_cols /\ rectangular df.
Proof.
  unfold event_table. intros H.
  destruct (allPlays self); [| discriminate H]. cbn [bind] in H.
  destruct (collect _ _); [| discriminate H]. cbn [bind] in H.
  destruct (pd_DataFrame_shape _ _ _ H) as (Hc & _ & Hr). auto.
Qed.

Lemma drop_mask_length {A B} (cols : list string) names :
  forall (xs : list A) (ys : list B),
    length xs = length cols -> length ys = length cols ->
    length (drop_mask cols names xs) = length (drop_mask cols names ys).
Proof.
  induction cols as [| c cols IH]; intros [| x xs] [| y ys]; simpl;
    try discriminate; auto.
  intros [= Hx] [= Hy]. destruct (str_in c names); simpl; auto.
Qed.

Lemma df_drop_rectangular t names :
  rectangular t -> rectangular (df_drop t names).
Proof.
  unfold rectangular, df_drop. cbn [rows columns]. intros H.
  apply Forall_forall. intros row Hin. apply in_map_iff in Hin as (r & <- & Hr).
  rewrite Forall_forall in H.
  apply drop_mask_length; [apply H, Hr | reflexivity].
Qed.

Lemma filter_event_rectangular t ev :
  rectangular t -> rectangular (filter_event t ev).
Proof.
  unfold rectangular, filter_event. cbn [rows columns]. intros H.
  apply Forall_forall. intros row Hin. apply filter_In in Hin as [Hin _].
  rewrite Forall_forall in H. auto.
Qed.

Lemma rename_rectangular t m :
  rectangular t -> rectangular (df_rename_columns t m).
Proof.
  unfold rectangular, df_rename_columns. cbn [rows columns].
  now rewrite length_map.
Qed.

Lemma concat_rectangular t evs :
  evs <> [] -> rectangular t ->
  rectangular (pd_concat (map (filter_event t) evs)).
Proof.
  intros Hne H. destruct evs as [| ev evs]; [congruence |].
  unfold rectangular, pd_concat. cbn [map columns rows filter_event].
  apply Forall_forall. intros row Hin. apply in_concat in Hin as (l & Hl & Hin).
  change (filter _ (rows t) :: map rows (map (filter_event t) evs))
    with (map rows (map (filter_event t) (ev :: evs))) in Hl.
  apply in_map_iff in Hl as (f & <- & Hf).
  apply in_map_iff in Hf as (e & <- & _).
  cbn [filter_event rows] in Hin. apply filter_In in Hin as [Hin _].
  unfold rectangular in H. rewrite Forall_forall in H. auto.
Qed.

(** X10: after a call of [makeDataFrames] that builds the tables, the
    event table and the four category tables are set, every row of each has
    one cell per column, and the columns are: all twenty-five for the event
    and the shot table; for the turnover table the eighteen left by the
    drop, [player_two_team] keeping its label; for the penalty and the hit
    table the relabelled ones without the role columns when [relabel] is
    set, and the ones left by the first drop when it is not. *)
Theorem category_tables_shape api relabel self self' :
  makeDataFrames api relabel false self = (Ok None, self') ->
  exists all shots pens turns hits,
    _DataFrame self' = Some all /\ shot_data self' = Some shots /\
    penalty_data self' = Some pens /\ turnover_data self' = Some turns /\
    hit_data self' = Some hits /\
    rectangular all /\ rectangular shots /\ rectangular pens /\
    rectangular turns /\ rectangular hits /\
    columns all = event_cols /\ columns shots = event_cols /\
    columns turns =
      ["event"; "player_one"; "coords"; "period"; "period_time_remaining";
       "player_one_team"; "player_two_team"; "home_team"; "home_team_id";
       "away_team"; "away_team_id"; "home_goals"; "away_goals";
       "player_one_id"; "game_id"; "winning_team"; "date"; "description"] /\
    columns pens =
      (if relabel
       then ["event"; "penalty"; "penalty_on"; "drew_by"; "coords"; "period";
             "period_time_remaining"; "penalty_team"; "drew_by_team";
             "home_team"; "home_team_id"; "away_team"; "away_team_id";
             "home_goals"; "away_goals"; "penalty_on_id"; "drew_by_id";
             "game_id"; "winning_team"; "date"; "description"]
       else ["event"; "secondary_type"; "player_one"; "player_one_role";
             "player_two"; "player_two_role"; "coords"; "period";
             "period_time_remaining"; "player_one_team"; "player_two_team";
             "home_team"; "home_team_id"; "away_team"; "away_team_id";
             "home_goals"; "away_goals"; "player_one_id"; "player_two_id";
             "game_id"; "winning_team"; "date"; "description"]) /\
    columns hits =
      (if relabel
       then ["event"; "hitter"; "hittee"; "coords"; "period";
             "period_time_remaining"; "hitter_team"; "hittee_team";
             "home_team"; "home_team_id"; "away_team"; "away_team_id";
             "home_goals"; "away_goals"; "hitter_id"; "hittee_id";
             "game_id"; "winning_team"; "date"; "description"]
       else ["event"; "player_one"; "player_one_role";
             "player_two"; "player_two_role"; "coords"; "period";
             "period_time_remaining"; "player_one_team"; "player_two_team";
             "home_team"; "home_team_id"; "away_team"; "away_team_id";
             "home_goals"; "away_goals"; "player_one_id"; "player_two_id";
             "game_id"; "winning_team"; "date"; "description"]).
Proof.
  unfold makeDataFrames. cbn [negb].
  destruct (_DataFrame self) as [stored|]; [intros [= ] |].
  destruct (event_table self) as [df|] eqn:Et; [| intros [= ]].
  intros [= <-]. cbn [_DataFrame shot_data penalty_data turnover_data
                      hit_data set_tables].
  destruct (event_table_shape _ _ Et) as [Hc Hr].
  exists df, (shot_frame df), (penalty_frame relabel df),
    (turnover_frame df), (hit_frame relabel df).
  do 5 (split; [reflexivity |]).
  split; [exact Hr |].
  split; [apply concat_rectangular; [discriminate | exact Hr] |].
  split.
  { unfold penalty_frame. destruct relabel.
    - apply df_drop_rectangular, rename_rectangular, df_drop_rectangular,
        filter_event_rectangular, Hr.
    - apply df_drop_rectangular, filter_event_rectangular, Hr. }
  split.
  { apply df_drop_rectangular, concat_rectangular; [discriminate | exact Hr]. }
  split.
  { unfold hit_frame. destruct relabel.
    - apply df_drop_rectangular, rename_rectangular, df_drop_rectangular,
        filter_event_rectangular, Hr.
    - apply df_drop_rectangular, filter_event_rectangular, Hr. }
  split; [exact Hc |].
  unfold shot_frame, turnover_frame, penalty_frame, hit_frame, pd_concat,
    df_drop, df_rename_columns.
  cbn [map columns filter_event]. rewrite Hc.
  destruct relabel; repeat split; reflexivity.
Qed.

Lemma category_tables_shape_witness :
  exists turns,
    turnover_data
      (snd (makeDataFrames
              (Sample.serve (Sample.game_feed "BOS" "NYR" 3 1 []))
              true false (Sample.bos_nyr Fixture.plays))) = Some turns /\
    rectangular turns /\
    In "player_two_team" (columns turns) /\
    ~ In "other_team" (columns turns).
Proof.
  destruct (category_tables_shape
              (Sample.serve (Sample.game_feed "BOS" "NYR" 3 1 []))
              true (Sample.bos_nyr Fixture.plays) _ eq_refl)
    as (all & shots & pens & turns & hits & _ & _ & _ & Ht & _ &
        _ & _ & _ & Hr & _ & _ & _ & Hc & _).
  exists turns. split; [exact Ht |]. split; [exact Hr |].
  rewrite Hc. split; [simpl; tauto |].
  simpl. intuition discriminate.
Defined.

Lemma filter_split {A} (f g h : A -> bool) (l : list A) :
  (forall x, f x = g x || h x) -> (forall x, g x && h x = false) ->
  length (filter f l) = (length (filter g l) + length (filter h l))%nat.
Proof.
  intros Hf Hd. induction l as [| x l IH]; [reflexivity |].
  cbn [filter]. rewrite Hf. specialize (Hd x).
  destruct (g x), (h x); cbn in *; try discriminate; lia.
Qed.

Lemma event_is_cons k k' ks' (l : list (list cell)) :
  let ks := k' :: ks' in
  ~ In k ks ->
  length (filter (event_is (k :: ks)) l) =
  (length (filter (event_is [k]) l) + length (filter (event_is ks) l))%nat.
Proof.
  intros ks Hk. apply filter_split; intros row; unfold event_is;
    destruct (row_get event_cols row "event") as [[| | | | s |]|];
    try reflexivity.
  - cbn [str_in existsb]. now rewrite orb_false_r.
  - cbn [str_in existsb]. rewrite orb_false_r.
    destruct (String.eqb s k) eqn:E; [| reflexivity].
    apply String.eqb_eq in E. subst s. cbn [andb]. unfold str_in.
    destruct (existsb (String.eqb k) ks) eqn:Ex; [| reflexivity].
    apply existsb_exists in Ex as (x & Hx & Ek).
    apply String.eqb_eq in Ek. subst x. contradiction.
Qed.

Lemma event_is_nil (l : list (list cell)) :
  length (filter (event_is []) l) = 0%nat.
Proof.
  induction l as [| r l IH]; [reflexivity |].
  cbn [filter]. unfold event_is at 1.
  destruct (row_get event_cols r "event") as [[| | | | s |]|]; exact IH.
Qed.

Lemma filter_event_rows df ev :
  columns df = event_cols ->
  rows (filter_event df ev) = filter (event_is [ev]) (rows df).
Proof.
  intros Hc. unfold filter_event. cbn [rows]. rewrite Hc.
  apply filter_ext. intros row. unfold event_is, cell_is_str.
  destruct (row_get event_cols row "event") as [[| | | | s |]|];
    try reflexivity.
  cbn [str_in existsb]. now rewrite orb_false_r.
Qed.

Lemma filter_negb_length {A} (f : A -> bool) (l : list A) :
  (length (filter f l) + length (filter (fun x => negb (f x)) l))%nat
  = length l.
Proof.
  induction l as [| x l IH]; [reflexivity |].
  cbn [filter]. destruct (f x); cbn; lia.
Qed.

Lemma row_of_event_table df row :
  columns df = event_cols -> rectangular df -> In row (rows df) ->
  length row = 25%nat.
Proof.
  intros Hc Hr Hin. unfold rectangular in Hr. rewrite Forall_forall in Hr.
  rewrite (Hr row Hin), Hc. reflexivity.
Qed.

(** The rows of the penalty, turnover and hit tables are rows of the event
    table, cut down to the columns the table keeps. *)
Lemma penalty_frame_rows relabel df :
  columns df = event_cols -> rectangular df ->
  map (map Some) (rows (penalty_frame relabel df))
  = map (cells_under (kept_by_penalties relabel))
        (filter (event_is ["penalty"]) (rows df)).
Proof.
  intros Hc Hr.
  unfold penalty_frame, df_drop, df_rename_columns.
  destruct relabel; cbn [rows columns filter_event];
    rewrite <- (filter_event_rows df "penalty" Hc);
    cbn [rows filter_event]; rewrite Hc, !map_map;
    apply map_ext_in; intros row Hin; apply filter_In in Hin as [Hin _];
    pose proof (row_of_event_table df row Hc Hr Hin) as Hlen;
    do 26 (destruct row as [| ? row]; try discriminate Hlen);
    reflexivity.
Qed.

Lemma hit_frame_rows relabel df :
  columns df = event_cols -> rectangular df ->
  map (map Some) (rows (hit_frame relabel df))
  = map (cells_under (kept_by_hits relabel))
        (filter (event_is ["hit"]) (rows df)).
Proof.
  intros Hc Hr.
  unfold hit_frame, df_drop, df_rename_columns.
  destruct relabel; cbn [rows columns filter_event];
    rewrite <- (filter_event_rows df "hit" Hc);
    cbn [rows filter_event]; rewrite Hc, !map_map;
    apply map_ext_in; intros row Hin; apply filter_In in Hin as [Hin _];
    pose proof (row_of_event_table df row Hc Hr Hin) as Hlen;
    do 26 (destruct row as [| ? row]; try discriminate Hlen);
    reflexivity.
Qed.

Lemma turnover_frame_rows df :
  columns df = event_cols -> rectangular df ->
  map (map Some) (rows (turnover_frame df))
  = map (cells_under kept_by_turnovers)
        (filter (event_is ["giveaway"]) (rows df)
         ++ filter (event_is ["takeaway"]) (rows df)).
Proof.
  intros Hc Hr.
  unfold turnover_frame, df_drop, pd_concat.
  cbn [rows columns map concat filter_event].
  rewrite <- (filter_event_rows df "giveaway" Hc),
    <- (filter_event_rows df "takeaway" Hc).
  cbn [rows filter_event]. rewrite Hc, app_nil_r, !map_map.
  apply map_ext_in. intros row Hin.
  assert (Hin' : In row (rows df)).
  { apply in_app_or in Hin as [Hin | Hin];
      apply filter_In in Hin as [Hin _]; exact Hin. }
  pose proof (row_of_event_table df row Hc Hr Hin') as Hlen.
  do 26 (destruct row as [| ? row]; try discriminate Hlen).
  reflexivity.
Qed.

Lemma cell_is_str_eq c s : cell_is_str c s = true -> c = CStr s.
Proof.
  destruct c as [| | | | s' |]; try discriminate. cbn.
  intros E. apply String.eqb_eq in E. now subst.
Qed.

Lemma event_is_one k kinds row :
  event_is [k] row = true -> In k kinds -> event_is kinds row = true.
Proof.
  unfold event_is.
  destruct (row_get event_cols row "event") as [[| | | | s |]|];
    try discriminate.
  cbn [str_in existsb]. rewrite orb_false_r. intros E Hin.
  apply String.eqb_eq in E. subst s.
  unfold str_in. apply existsb_exists. exists k.
  split; [exact Hin | apply String.eqb_refl].
Qed.

(** The [event] cell of every row of a category table. *)
Lemma penalty_frame_events relabel df :
  columns df = event_cols -> rectangular df ->
  Forall (fun row =>
            row_get (columns (penalty_frame relabel df)) row "event"
            = Some (CStr "penalty"))
         (rows (penalty_frame relabel df)).
Proof.
  intros Hc Hr. apply Forall_forall. intros row' Hin.
  unfold penalty_frame, df_drop, df_rename_columns in *.
  destruct relabel; cbn [rows columns filter_event] in *; rewrite Hc in *;
    repeat (apply in_map_iff in Hin as (? & <- & Hin));
    apply filter_In in Hin as [Hin He];
    pose proof (row_of_event_table df _ Hc Hr Hin) as Hlen;
    match type of Hin with In ?r _ =>
      do 26 (destruct r as [| ? r]; try discriminate Hlen) end;
    cbn in He; apply cell_is_str_eq in He; subst; reflexivity.
Qed.

Lemma hit_frame_events relabel df :
  columns df = event_cols -> rectangular df ->
  Forall (fun row =>
            row_get (columns (hit_frame relabel df)) row "event"
            = Some (CStr "hit"))
         (rows (hit_frame relabel df)).
Proof.
  intros Hc Hr. apply Forall_forall. intros row' Hin.
  unfold hit_frame, df_drop, df_rename_columns in *.
  destruct relabel; cbn [rows columns filter_event] in *; rewrite Hc in *;
    repeat (apply in_map_iff in Hin as (? & <- & Hin));
    apply filter_In in Hin as [Hin He];
    pose proof (row_of_event_table df _ Hc Hr Hin) as Hlen;
    match type of Hin with In ?r _ =>
      do 26 (destruct r as [| ? r]; try discriminate Hlen) end;
    cbn in He; apply cell_is_str_eq in He; subst; reflexivity.
Qed.

Lemma turnover_frame_events df :
  columns df = event_cols -> rectangular df ->
  Forall (fun row =>
            row_get (columns (turnover_frame df)) row "event"
            = Some (CStr "giveaway") \/
            row_get (columns (turnover_frame df)) row "event"
            = Some (CStr "takeaway"))
         (rows (turnover_frame df)).
Proof.
  intros Hc Hr. apply Forall_forall. intros row' Hin.
  unfold turnover_frame, df_drop, pd_concat in *.
  cbn [rows columns map concat filter_event] in *. rewrite Hc in *.
  apply in_map_iff in Hin as (row & <- & Hin).
  rewrite app_nil_r in Hin.
  apply in_app_or in Hin as [Hin | Hin];
    apply filter_In in Hin as [Hin He];
    pose proof (row_of_event_table df _ Hc Hr Hin) as Hlen;
    do 26 (destruct row as [| ? row]; try discriminate Hlen);
    cbn in He; apply cell_is_str_eq in He; subst; [left | right];
    reflexivity.
Qed.

(** X11: the four category tables hold rows of the event table and share
    none.  The rows of the shot table are the rows of the event table whose
    event is [shot], then those of [missed_shot], of [blocked_shot] and of
    [goal]; the rows of the penalty table are those of [penalty], of the
    turnover table those of [giveaway] followed by those of [takeaway], of
    the hit table those of [hit], each cut down to the columns the table
    keeps, cell by cell.  The [event] cell of every row of a category table
    is one of the events of that table, so that the rows of any other
    event, faceoffs among them, are in none of the four; the row counts add
    up accordingly. *)
Theorem category_tables_partition api relabel self self' :
  makeDataFrames api relabel false self = (Ok None, self') ->
  exists all shots pens turns hits,
    _DataFrame self' = Some all /\ shot_data self' = Some shots /\
    penalty_data self' = Some pens /\ turnover_data self' = Some turns /\
    hit_data self' = Some hits /\
    rows shots =
      filter (event_is ["shot"]) (rows all)
      ++ filter (event_is ["missed_shot"]) (rows all)
      ++ filter (event_is ["blocked_shot"]) (rows all)
      ++ filter (event_is ["goal"]) (rows all) /\
    map (map Some) (rows pens) =
      map (cells_under (kept_by_penalties relabel))
          (filter (event_is ["penalty"]) (rows all)) /\
    map (map Some) (rows turns) =
      map (cells_under kept_by_turnovers)
          (filter (event_is ["giveaway"]) (rows all)
           ++ filter (event_is ["takeaway"]) (rows all)) /\
    map (map Some) (rows hits) =
      map (cells_under (kept_by_hits relabel))
          (filter (event_is ["hit"]) (rows all)) /\
    Forall (fun row =>
              In row (rows all) /\
              event_is ["shot"; "missed_shot"; "blocked_shot"; "goal"] row
              = true) (rows shots) /\
    Forall (fun row => row_get (columns pens) row "event"
                       = Some (CStr "penalty")) (rows pens) /\
    Forall (fun row => row_get (columns turns) row "event"
                       = Some (CStr "giveaway") \/
                       row_get (columns turns) row "event"
                       = Some (CStr "takeaway")) (rows turns) /\
    Forall (fun row => row_get (columns hits) row "event"
                       = Some (CStr "hit")) (rows hits) /\
    length (rows shots) =
      length (filter (event_is ["shot"; "missed_shot"; "blocked_shot";
                                "goal"]) (rows all)) /\
    length (rows pens) = length (filter (event_is ["penalty"]) (rows all)) /\
    length (rows turns) =
      length (filter (event_is ["giveaway"; "takeaway"]) (rows all)) /\
    length (rows hits) = length (filter (event_is ["hit"]) (rows all)) /\
    (length (rows shots) + length (rows pens) + length (rows turns)
     + length (rows hits)
     + length (filter (fun row =>
                 negb (event_is ["shot"; "missed_shot"; "blocked_shot";
                                 "goal"; "penalty"; "giveaway"; "takeaway";
                                 "hit"] row)) (rows all)))%nat
    = length (rows all).
Proof.
  unfold makeDataFrames. cbn [negb].
  destruct (_DataFrame self) as [stored|]; [intros [= ] |].
  destruct (event_table self) as [df|] eqn:Et; [| intros [= ]].
  intros [= <-]. cbn [_DataFrame shot_data penalty_data turnover_data
                      hit_data set_tables].
  destruct (event_table_shape _ _ Et) as [Hc Hr].
  exists df, (shot_frame df), (penalty_frame relabel df),
    (turnover_frame df), (hit_frame relabel df).
  do 5 (split; [reflexivity |]).
  assert (Hrows : rows (shot_frame df) =
                  filter (event_is ["shot"]) (rows df)
                  ++ filter (event_is ["missed_shot"]) (rows df)
                  ++ filter (event_is ["blocked_shot"]) (rows df)
                  ++ filter (event_is ["goal"]) (rows df)).
  { unfold shot_frame, pd_concat. cbn [rows map concat].
    rewrite !filter_event_rows by exact Hc. now rewrite app_nil_r. }
  split; [exact Hrows |].
  split; [exact (penalty_frame_rows relabel df Hc Hr) |].
  split; [exact (turnover_frame_rows df Hc Hr) |].
  split; [exact (hit_frame_rows relabel df Hc Hr) |].
  split.
  { rewrite Hrows. apply Forall_forall. intros row Hin.
    repeat (apply in_app_or in Hin as [Hin | Hin]);
      apply filter_In in Hin as [Hin He];
      (split; [exact Hin |]);
      (eapply event_is_one; [exact He | simpl; tauto]). }
  split; [exact (penalty_frame_events relabel df Hc Hr) |].
  split; [exact (turnover_frame_events df Hc Hr) |].
  split; [exact (hit_frame_events relabel df Hc Hr) |].
  assert (Hs : length (rows (shot_frame df)) =
               length (filter (event_is ["shot"; "missed_shot";
                                         "blocked_shot"; "goal"]) (rows df))).
  { rewrite Hrows, !length_app.
    rewrite !event_is_cons by (cbn [In]; intuition discriminate).
    lia. }
  assert (Hp : length (rows (penalty_frame relabel df)) =
               length (filter (event_is ["penalty"]) (rows df))).
  { unfold penalty_frame, df_drop, df_rename_columns.
    destruct relabel; cbn [rows]; rewrite ?length_map, filter_event_rows;
      auto. }
  assert (Ht : length (rows (turnover_frame df)) =
               length (filter (event_is ["giveaway"; "takeaway"]) (rows df))).
  { unfold turnover_frame, df_drop, pd_concat. cbn [rows map concat].
    rewrite length_map, !length_app, !filter_event_rows by exact Hc.
    cbn [length].
    rewrite !event_is_cons by (cbn [In]; intuition discriminate).
    lia. }
  assert (Hh : length (rows (hit_frame relabel df)) =
               length (filter (event_is ["hit"]) (rows df))).
  { unfold hit_frame, df_drop, df_rename_columns.
    destruct relabel; cbn [rows]; rewrite ?length_map, filter_event_rows;
      auto. }
  do 4 (split; [assumption |]).
  rewrite Hs, Hp, Ht, Hh.
  rewrite <- (filter_negb_length
                (event_is ["shot"; "missed_shot"; "blocked_shot"; "goal";
                           "penalty"; "giveaway"; "takeaway"; "hit"])
                (rows df)).
  rewrite !event_is_cons by (cbn [In]; intuition discriminate).
  lia.
Qed.

Lemma category_tables_partition_witness :
  exists all shots pens turns hits,
    _DataFrame
      (snd (makeDataFrames
              (Sample.serve (Sample.game_feed "BOS" "NYR" 3 1 []))
              true false (Sample.bos_nyr Fixture.plays))) = Some all /\
    shot_data
      (snd (makeDataFrames
              (Sample.serve (Sample.game_feed "BOS" "NYR" 3 1 []))
              true false (Sample.bos_nyr Fixture.plays))) = Some shots /\
    penalty_data
      (snd (makeDataFrames
              (Sample.serve (Sample.game_feed "BOS" "NYR" 3 1 []))
              true false (Sample.bos_nyr Fixture.plays))) = Some pens /\
    turnover_data
      (snd (makeDataFrames
              (Sample.serve (Sample.game_feed "BOS" "NYR" 3 1 []))
              true false (Sample.bos_nyr Fixture.plays))) = Some turns /\
    hit_data
      (snd (makeDataFrames
              (Sample.serve (Sample.game_feed "BOS" "NYR" 3 1 []))
              true false (Sample.bos_nyr Fixture.plays))) = Some hits /\
    length (rows all) = 6%nat /\
    (length (rows shots) + length (rows pens) + length (rows turns)
     + length (rows hits))%nat = 5%nat /\
    map (map Some) (rows turns) =
      [[Some (CStr "takeaway"); Some (CStr "A"); Some (CArr [40; -8]);
        Some (CInt 2); Some (CStr "15:00"); Some (CStr "BOS");
        Some (CStr "NYR"); Some (CStr "BOS"); Some (CInt 6);
        Some (CStr "NYR"); Some (CInt 3); Some (CInt 1); Some (CInt 0);
        Some (CInt 8470000); Some (CStr "2018020744"); Some (CStr "NYR");
        Some (CStr "2019-01-19"); Some (CStr "play-by-play text")]].
Proof.
  destruct (category_tables_partition
              (Sample.serve (Sample.game_feed "BOS" "NYR" 3 1 []))
              true (Sample.bos_nyr Fixture.plays) _ eq_refl)
    as (all & shots & pens & turns & hits & Ha & Hs & Hp & Ht & Hh &
        _ & _ & Rt & _ & _ & _ & _ & _ & Ls & Lp & Lt & Lh & _).
  exists all, shots, pens, turns, hits.
  do 5 (split; [assumption |]).
  rewrite Ls, Lp, Lt, Lh, Rt.
  vm_compute in Ha. injection Ha as <-.
  repeat split; reflexivity.
Defined.

(** X12: with [relabel] set, the row of a penalty in the penalty table holds
    under [penalty], [penalty_on], [drew_by], [penalty_team],
    [drew_by_team], [penalty_on_id] and [drew_by_id] the cells the event
    table holds under [secondary_type], [player_one], [player_two],
    [player_one_team], [player_two_team], [player_one_id] and
    [player_two_id], keeps the other cells, and has no flag, role or old
    label left; the same holds for a hit with [hitter] and [hittee]. *)
Theorem relabel_keeps_cells self df row :
  event_table self = Ok df -> In row (rows df) ->
  (event_is ["penalty"] row = true ->
   exists row',
     In row' (rows (penalty_frame true df)) /\
     let old := row_get event_cols row in
     let new := row_get (columns (penalty_frame true df)) row' in
     new "penalty" = old "secondary_type" /\
     new "penalty_on" = old "player_one" /\
     new "drew_by" = old "player_two" /\
     new "penalty_team" = old "player_one_team" /\
     new "drew_by_team" = old "player_two_team" /\
     new "penalty_on_id" = old "player_one_id" /\
     new "drew_by_id" = old "player_two_id" /\
     new "event" = old "event" /\ new "coords" = old "coords" /\
     new "period" = old "period" /\ new "description" = old "description" /\
     new "player_one" = None /\ new "secondary_type" = None /\
     new "empty_net" = None /\ new "game_winning" = None /\
     new "player_one_role" = None /\ new "player_two_role" = None) /\
  (event_is ["hit"] row = true ->
   exists row',
     In row' (rows (hit_frame true df)) /\
     let old := row_get event_cols row in
     let new := row_get (columns (hit_frame true df)) row' in
     new "hitter" = old "player_one" /\
     new "hittee" = old "player_two" /\
     new "hitter_team" = old "player_one_team" /\
     new "hittee_team" = old "player_two_team" /\
     new "hitter_id" = old "player_one_id" /\
     new "hittee_id" = old "player_two_id" /\
     new "event" = old "event" /\ new "coords" = old "coords" /\
     new "period" = old "period" /\ new "description" = old "description" /\
     new "player_one" = None /\ new "secondary_type" = None /\
     new "empty_net" = None /\ new "game_winning" = None /\
     new "player_one_role" = None /\ new "player_two_role" = None).
Proof.
  intros Et Hin.
  destruct (event_table_shape _ _ Et) as [Hc Hr].
  unfold rectangular in Hr. rewrite Forall_forall in Hr.
  specialize (Hr row Hin). rewrite Hc in Hr.
  do 26 (destruct row as [| ? row]; try discriminate Hr).
  split; intros He.
  - eexists. split.
    + unfold penalty_frame, df_drop, df_rename_columns. cbn [rows].
      apply in_map. apply in_map.
      rewrite filter_event_rows by exact Hc.
      apply filter_In. split; [exact Hin | exact He].
    + unfold penalty_frame, df_drop, df_rename_columns, filter_event.
      cbn [columns]. rewrite Hc. cbn. repeat split.
  - eexists. split.
    + unfold hit_frame, df_drop, df_rename_columns. cbn [rows].
      apply in_map. apply in_map.
      rewrite filter_event_rows by exact Hc.
      apply filter_In. split; [exact Hin | exact He].
    + unfold hit_frame, df_drop, df_rename_columns, filter_event.
      cbn [columns]. rewrite Hc. cbn. repeat split.
Qed.

Lemma relabel_keeps_cells_witness :
  exists df row',
    event_table (Sample.bos_nyr Fixture.plays) = Ok df /\
    In row' (rows (penalty_frame true df)) /\
    row_get (columns (penalty_frame true df)) row' "penalty_on"
    = Some (CStr "A") /\
    row_get (columns (penalty_frame true df)) row' "drew_by"
    = Some (CStr "B").
Proof.
  eexists. 
  destruct (proj1 (relabel_keeps_cells
                     (Sample.bos_nyr Fixture.plays) _
                     [CStr "penalty"; CStr "Wrist Shot"; CStr "A";
                      CStr "PenaltyOn"; CStr "B"; CStr "DrewBy";
                      CArr [-60; 20]; CInt 1; CStr "15:00"; CStr "BOS";
                      CStr "NYR"; CStr "BOS"; CInt 6; CStr "NYR"; CInt 3;
                      CInt 1; CInt 0; CNone; CNone; CInt 8470000;
                      CInt 8470001; CStr "2018020744"; CStr "NYR";
                      CStr "2019-01-19"; CStr "play-by-play text"]
                     eq_refl ltac:(simpl; tauto)) eq_refl)
    as (row' & Hin & H).
  cbn zeta in H. destruct H as (_ & Hon & Hby & _).
  exists row'. split; [reflexivity |]. split; [exact Hin |].
  split; [exact Hon | exact Hby].
Defined.

(** X13: once a call of [makeDataFrames] has stored the event table, every
    later call without a refresh returns that table and leaves the instance
    as it is, whatever [relabel] it is given: the penalty and the hit table
    stay as the first call's [relabel] made them. *)
Theorem relabel_ignored_once_stored api relabel self self' :
  makeDataFrames api relabel false self = (Ok None, self') ->
  exists df,
    event_table self = Ok df /\
    penalty_data self' = Some (penalty_frame relabel df) /\
    hit_data self' = Some (hit_frame relabel df) /\
    forall relabel',
      makeDataFrames api relabel' false self' = (Ok (Some df), self').
Proof.
  unfold makeDataFrames. cbn [negb].
  destruct (_DataFrame self) as [stored|]; [intros [= ] |].
  destruct (event_table self) as [df|]; [| intros [= ]].
  intros [= <-]. exists df. repeat split.
Qed.

Lemma relabel_ignored_once_stored_witness :
  exists df,
    fst (makeDataFrames
           (Sample.serve (Sample.game_feed "BOS" "NYR" 3 1 []))
           true false
           (snd (makeDataFrames
                   (Sample.serve (Sample.game_feed "BOS" "NYR" 3 1 []))
                   false false (Sample.bos_nyr Fixture.plays))))
    = Ok (Some df) /\
    hit_data
      (snd (makeDataFrames
              (Sample.serve (Sample.game_feed "BOS" "NYR" 3 1 []))
              true false
              (snd (makeDataFrames
                      (Sample.serve (Sample.game_feed "BOS" "NYR" 3 1 []))
                      false false (Sample.bos_nyr Fixture.plays)))))
    = Some (hit_frame false df).
Proof.
  destruct (relabel_ignored_once_stored
              (Sample.serve (Sample.game_feed "BOS" "NYR" 3 1 []))
              false (Sample.bos_nyr Fixture.plays) _ eq_refl)
    as (df & _ & _ & Hh & Hlater).
  exists df. split; [exact (f_equal fst (Hlater true)) | exact Hh].
Defined.

(** X14: with [updateLiveData] set both methods fetch the feed first.  When
    the API raises, the exception leaves the method and the instance is
    unchanged.  When it returns, the feed of the instance is replaced and
    the table is computed from it, also when a table is stored; the team
    codes, the winner, the date and the boxscore table of the instance stay
    those of the construction, and when the computation raises the new feed
    stays on the instance. *)
Theorem refresh_recomputes api relabel self :
  (forall e,
      api (game_id self) (_base_url self) = Raise e ->
      makeDataFrames api relabel true self = (Raise e, self) /\
      shotData api true self = (Raise e, self)) /\
  (forall d,
      api (game_id self) (_base_url self) = Ok d ->
      let fresh := set_live_data self d in
      shotData api true self = (shot_table fresh, fresh) /\
      (forall e, event_table fresh = Raise e ->
                 makeDataFrames api relabel true self = (Raise e, fresh)) /\
      (forall df,
          event_table fresh = Ok df ->
          exists self',
            makeDataFrames api relabel true self = (Ok None, self') /\
            _DataFrame self' = Some df /\ live_data self' = d /\
            home self' = home self /\ away self' = away self /\
            winner self' = winner self /\ date self' = date self /\
            agg_stats self' = agg_stats self)).
Proof.
  unfold makeDataFrames, shotData, getLiveData. cbn [negb].
  split.
  - intros e ->. split; reflexivity.
  - intros d ->. cbn zeta. split; [reflexivity |].
    split.
    + intros e ->. reflexivity.
    + intros df ->. eexists. split; [reflexivity |]. cbn. repeat split.
Qed.

Lemma refresh_recomputes_witness :
  (exists old,
      event_table (Sample.bos_nyr []) = Ok old /\ rows old = []) /\
  exists self' df,
    makeDataFrames
      (Sample.serve (Sample.game_feed "NYR" "BOS" 0 0 Fixture.plays))
      true true (Sample.bos_nyr []) = (Ok None, self') /\
    _DataFrame self' = Some df /\ length (rows df) = 6%nat /\
    home self' = "BOS".
Proof.
  split; [eexists; split; reflexivity |].
  destruct (proj2 (proj2 (proj2 (refresh_recomputes
              (Sample.serve (Sample.game_feed "NYR" "BOS" 0 0 Fixture.plays))
              true (Sample.bos_nyr []))
              (Sample.game_feed "NYR" "BOS" 0 0 Fixture.plays) eq_refl))
              _ eq_refl)
    as (self' & Hm & Hd & _ & Hh & _).
  exists self'. eexists. split; [exact Hm |]. split; [exact Hd |].
  split; [reflexivity | exact Hh].
Defined.


(** ** The conversion of a team id and the roster *)

Lemma lower_length s : String.length (lower s) = String.length s.
Proof. induction s as [| c s IH]; simpl; congruence. Qed.

Lemma dict_get_in {V} (d : list (string * V)) k v :
  dict_get d k = Ok v -> In (k, v) d.
Proof.
  induction d as [| [k' v'] d IH]; simpl; [discriminate |].
  destruct (String.eqb k' k) eqn:E.
  - apply String.eqb_eq in E. intros [= <-]. left. congruence.
  - auto.
Qed.

Lemma dict_get_missing {V} (d : list (string * V)) k :
  (forall v, ~ In (k, v) d) -> dict_get d k = Raise KeyError.
Proof.
  induction d as [| [k' v'] d IH]; simpl; intros H; [reflexivity |].
  destruct (String.eqb k' k) eqn:E.
  - apply String.eqb_eq in E. subst. exfalso. eapply H. left. reflexivity.
  - apply IH. intros v Hv. eapply H. right. exact Hv.
Qed.

(** Every key of the table is lower case, longer than two characters, and
    bound once. *)
Lemma team_map_keys k code :
  In (k, code) Team._team_map ->
  lower k = k /\ (2 < String.length k)%nat /\
  dict_get Team._team_map k = Ok code.
Proof.
  assert (H : forallb (fun kv =>
                String.eqb (lower (fst kv)) (fst kv)
                && (2 <? String.length (fst kv))%nat
                && match dict_get Team._team_map (fst kv) with
                   | Ok v => Z.eqb v (snd kv)
                   | Raise _ => false
                   end) Team._team_map = true) by reflexivity.
  rewrite forallb_forall in H. intros Hin. specialize (H _ Hin).
  cbn [fst snd] in H.
  apply andb_prop in H as [H H3]. apply andb_prop in H as [H1 H2].
  apply String.eqb_eq in H1. apply Nat.ltb_lt in H2.
  destruct (dict_get Team._team_map k) as [v|]; [| discriminate H3].
  apply Z.eqb_eq in H3. subst v. auto.
Qed.

(** X15: a string whose lower-case form is a key of the table, a full name
    or an abbreviation in any case, is converted to the decimal form of the
    code bound to that key, and the constructor then does what it does for
    that code given as an int. *)
Theorem team_names_resolve api s k code season :
  In (k, code) Team._team_map -> lower s = k ->
  Team.convert_team_id (IdStr s) = Ok (Some (str code)) /\
  Team.__init__ api (IdStr s) season = Team.__init__ api (IdInt code) season.
Proof.
  intros Hin Hs.
  destruct (team_map_keys k code Hin) as (_ & Hlen & Hget).
  assert (Hc : Team.convert_team_id (IdStr s) = Ok (Some (str code))).
  { unfold Team.convert_team_id.
    rewrite <- (lower_length s), Hs.
    apply Nat.ltb_lt in Hlen. rewrite Hlen, Hget. reflexivity. }
  split; [exact Hc |].
  unfold Team.__init__. rewrite Hc. reflexivity.
Qed.

Lemma team_names_resolve_witness :
  Team.convert_team_id (IdStr "Boston Bruins") = Ok (Some (str 6)) /\
  Team.__init__ Fixture.roster_api (IdStr "Boston Bruins") None
  = Team.__init__ Fixture.roster_api (IdInt 6) None.
Proof.
  apply (team_names_resolve Fixture.roster_api "Boston Bruins"
                            "boston bruins" 6 None).
  - vm_compute. tauto.
  - reflexivity.
Defined.

(** X16: a string of more than two characters whose lower-case form is
    not a key of the table, the decimal form of a three-digit number among
    them, raises [KeyError] in the constructor before any request is
    made. *)
Theorem unknown_name_raises api s season :
  (2 < String.length s)%nat ->
  (forall code, ~ In (lower s, code) Team._team_map) ->
  Team.__init__ api (IdStr s) season = Raise KeyError.
Proof.
  intros Hlen Hno. unfold Team.__init__, Team.convert_team_id.
  apply Nat.ltb_lt in Hlen. rewrite Hlen.
  rewrite (dict_get_missing _ _ Hno). reflexivity.
Qed.

Lemma unknown_name_raises_witness :
  Team.__init__ Fixture.roster_api (IdStr "Seattle Kraken") None
  = Raise KeyError.
Proof.
  apply (unknown_name_raises Fixture.roster_api "Seattle Kraken" None).
  - simpl. lia.
  - intros code Hin. apply team_map_keys in Hin as (_ & _ & Hget).
    vm_compute in Hget. discriminate Hget.
Defined.

Lemma cards_spec raw :
  forall l,
    Team.cards raw = Ok l <-> map entry_card raw = map Some l.
Proof.
  induction raw as [| p raw IH]; intros l.
  - cbn. split.
    + intros [= <-]. reflexivity.
    + destruct l; [reflexivity | discriminate].
  - cbn [Team.cards map]. unfold Team.card_of, entry_card.
    destruct (Team.entry_person p) as [q|]; cbn [bind key].
    2:{ split; [discriminate | destruct l; discriminate]. }
    destruct (person_fullName q) as [name|]; cbn [bind key].
    2:{ split; [discriminate |].
        destruct (Team.entry_jerseyNumber p), (Team.entry_position p);
          destruct l; discriminate. }
    destruct (person_id q) as [n|]; cbn [bind key].
    2:{ split; [discriminate |].
        destruct (Team.entry_jerseyNumber p), (Team.entry_position p);
          destruct l; discriminate. }
    destruct (Team.entry_jerseyNumber p) as [number|]; cbn [bind key].
    2:{ split; [discriminate | destruct l; discriminate]. }
    destruct (Team.entry_position p) as [pos|]; cbn [bind key].
    2:{ split; [discriminate | destruct l; discriminate]. }
    destruct (Team.position_code pos) as [code|]; cbn [bind key].
    2:{ split; [discriminate | destruct l; discriminate]. }
    destruct (Team.cards raw) as [cs|].
    + cbn [bind]. split.
      * intros [= <-]. cbn [map]. f_equal. apply IH. reflexivity.
      * destruct l as [| c l]; [discriminate |]. cbn [map].
        intros [= <- H]. apply IH in H. injection H as <-. reflexivity.
    + cbn [bind]. split; [discriminate |].
      destruct l as [| c l]; [discriminate |]. cbn [map].
      intros [= <- H]. apply IH in H. discriminate H.
Qed.

Lemma prefix_of_short c s :
  (String.length s <= 3)%nat -> String.prefix c s = true ->
  c = substring 0 0 s \/ c = substring 0 1 s \/ c = substring 0 2 s \/
  c = substring 0 3 s.
Proof.
  intros Hs H. apply prefix_correct in H.
  remember (String.length c) as n. rewrite <- H.
  destruct n as [| [| [| n]]]; auto.
  right. right. right.
  destruct s as [| a [| b [| c' [| d s]]]];
    try (destruct n; reflexivity).
  simpl in Hs. lia.
Qed.

Lemma offense_codes c :
  is_substring c "LCR" = true <->
  In c [""; "L"; "C"; "R"; "LC"; "CR"; "LCR"].
Proof.
  split.
  - cbn [is_substring].
    destruct (String.prefix c "LCR") eqn:E1.
    { intros _. apply prefix_of_short in E1; [| simpl; lia].
      cbn in E1. simpl. intuition. }
    destruct (String.prefix c "CR") eqn:E2.
    { intros _. apply prefix_of_short in E2; [| simpl; lia].
      cbn in E2. simpl. intuition. }
    destruct (String.prefix c "R") eqn:E3.
    { intros _. apply prefix_of_short in E3; [| simpl; lia].
      cbn in E3. simpl. intuition. }
    destruct (String.prefix c "") eqn:E4; [| discriminate].
    intros _. apply prefix_of_short in E4; [| simpl; lia].
    cbn in E4. simpl. intuition.
  - simpl. intros [<- | [<- | [<- | [<- | [<- | [<- | [<- | []]]]]]]];
      reflexivity.
Qed.

Lemma filter3_partition {A} (f g h : A -> bool) (l : list A) :
  (forall x, f x && g x = false) -> (forall x, f x && h x = false) ->
  (forall x, g x && h x = false) ->
  (length (filter f l) + length (filter g l) + length (filter h l)
   + length (filter (fun x => negb (f x || g x || h x)) l))%nat = length l.
Proof.
  intros Hfg Hfh Hgh. induction l as [| x l IH]; [reflexivity |].
  cbn [filter]. specialize (Hfg x). specialize (Hfh x). specialize (Hgh x).
  destruct (f x), (g x), (h x); cbn in *; try discriminate; lia.
Qed.

(** X17: when the constructor returns, the roster has one card per entry
    the API returned, in the same order, each entry having its name, id,
    jersey number and position code.  The offense is the cards whose code
    is a substring of [LCR], the empty code among them, the defense those
    of code [D] and the goalies those of code [G]; the three selections are
    disjoint, and a card of any other code is in none of them. *)
Theorem roster_selections api a season t :
  Team.__init__ api a season = Ok t ->
  exists raw,
    api (Team.team_id t) season "https://statsapi.web.nhl.com/api/v1"
    = Ok raw /\
    Team.convert_team_id a = Ok (Some (Team.team_id t)) /\
    map entry_card raw = map Some (Team.roster t) /\
    length (Team.roster t) = length raw /\
    (forall c, In c (Team.offense t) <->
               In c (Team.roster t) /\
               In (Team.code_of c) [""; "L"; "C"; "R"; "LC"; "CR"; "LCR"]) /\
    (forall c, In c (Team.defense t) <->
               In c (Team.roster t) /\ Team.code_of c = "D") /\
    (forall c, In c (Team.goalies t) <->
               In c (Team.roster t) /\ Team.code_of c = "G") /\
    (length (Team.offense t) + length (Team.defense t)
     + length (Team.goalies t)
     + length (filter (fun c => negb (in_a_selection c)) (Team.roster t)))%nat
    = length (Team.roster t).
Proof.
  unfold Team.__init__. intros H.
  destruct (Team.convert_team_id a) as [[tid|]|] eqn:Hc;
    cbn [bind Team.getattr_team_id] in H; try discriminate H.
  destruct (api tid season _) as [raw|] eqn:Hapi; [| discriminate H].
  cbn [bind] in H.
  destruct (Team.cards raw) as [roster|] eqn:Hcards; [| discriminate H].
  cbn [bind] in H. injection H as <-.
  cbn [Team.team_id Team.roster Team.offense Team.defense Team.goalies].
  exists raw. split; [exact Hapi |]. split; [reflexivity |].
  apply cards_spec in Hcards.
  split; [exact Hcards |].
  split.
  { apply (f_equal (@length _)) in Hcards. rewrite !length_map in Hcards.
    auto. }
  split.
  { intros c. rewrite filter_In.
    split; intros [H1 H2]; (split; [exact H1 | apply offense_codes, H2]). }
  split.
  { intros c. rewrite filter_In.
    split; intros [H1 H2]; (split; [exact H1 | apply String.eqb_eq, H2]). }
  split.
  { intros c. rewrite filter_In.
    split; intros [H1 H2]; (split; [exact H1 | apply String.eqb_eq, H2]). }
  unfold in_a_selection.
  apply filter3_partition; intros c.
  - destruct (String.eqb (Team.code_of c) "D") eqn:E;
      [| apply andb_false_r].
    apply String.eqb_eq in E. rewrite E. reflexivity.
  - destruct (String.eqb (Team.code_of c) "G") eqn:E;
      [| apply andb_false_r].
    apply String.eqb_eq in E. rewrite E. reflexivity.
  - destruct (String.eqb (Team.code_of c) "D") eqn:E; [| reflexivity].
    apply String.eqb_eq in E. rewrite E. reflexivity.
Qed.

Lemma roster_selections_witness :
  exists t,
    Team.__init__ Fixture.roster_api (IdStr "bos") None = Ok t /\
    length (Team.roster t) = 5%nat /\
    In ("E", (8470004, "0", "")) (Team.offense t) /\
    (length (Team.offense t) + length (Team.defense t)
     + length (Team.goalies t))%nat = 5%nat.
Proof.
  eexists. split; [reflexivity |].
  destruct (roster_selections Fixture.roster_api (IdStr "bos") None _
                              eq_refl)
    as (raw & Hapi & _ & _ & Hlen & Hoff & _).
  cbn in Hapi. injection Hapi as <-.
  split; [exact Hlen |].
  split; [apply Hoff; split; [simpl; tauto | simpl; tauto] |].
  reflexivity.
Defined.


(** ** The rows of the event table *)

(** X9: the loop of [makeDataFrames] appends a row for a play exactly when
    its type is in neither the ignorable nor the reserved set, the fields
    read outside any [try] are there (type id, description, period, time
    remaining, score, team code) and its [players] list is not an empty
    list; it skips a play exactly when the play has a type that is in one
    of the two sets. *)
Theorem event_row_outcomes self play :
  ((exists row, event_row self play = Ok (Some row)) <->
   retained play = true /\ guarded_only play = true) /\
  (event_row self play = Ok None <->
   exists ev, event_type play = Ok ev /\
              str_in ev weird_events || str_in ev other_events = true).
Proof.
  split; split.
  - intros [row H]. exact (event_row_needs _ _ _ H).
  - intros [Hr Hg]. unfold guarded_only in Hg.
    apply andb_prop in Hg as [Hg Hp]. apply andb_prop in Hg as [Hu Ht].
    destruct (team_code play) as [c|] eqn:Hc; [| discriminate Ht].
    apply (event_row_total self play c Hr Hu Hc).
    intros E. rewrite E in Hp. discriminate Hp.
  - intros H. pose proof (event_row_retained _ _ _ H) as Hr.
    unfold retained in Hr. unfold event_row in H.
    destruct (event_type play) as [ev|]; [| discriminate H].
    exists ev. split; [reflexivity |].
    destruct (str_in ev weird_events); [reflexivity |].
    destruct (str_in ev other_events); [reflexivity | discriminate Hr].
  - intros (ev & He & Hin). unfold event_row. rewrite He. cbn [bind].
    destruct (str_in ev weird_events); [reflexivity |].
    cbn [orb] in Hin. rewrite Hin. reflexivity.
Qed.

Lemma event_row_outcomes_witness :
  (exists row,
      event_row (Sample.bos_nyr []) Fixture.faceoff = Ok (Some row)) /\
  event_row (Sample.bos_nyr []) Sample.stoppage = Ok None.
Proof.
  split.
  - apply (proj2 (proj1 (event_row_outcomes (Sample.bos_nyr [])
                                            Fixture.faceoff))).
    split; reflexivity.
  - apply (proj2 (proj2 (event_row_outcomes (Sample.bos_nyr [])
                                            Sample.stoppage))).
    exists "Stoppage". split; reflexivity.
Defined.
